(** * udsoncan: the declarative field/codec engine of [base_service.py]

    A shallow embedding of [udsoncan/base_service.py] (classes [UdsField],
    [ServiceData], [EmptyServiceData], [BaseSubfunction], [BaseService]) and
    of the service modules under [udsoncan/services], together with the part
    of the Python runtime it executes on: the value types of
    [UdsPayloadTypes], [str.split]/[str.replace]/[str.format] on the length
    placeholder, and the [struct] module in big-endian standard mode.

    Python exceptions are results ([Raise]); Python [float] is IEEE binary64,
    modelled by [spec_float] with the operations of [SpecFloat] at precision
    53 (NaN carries no payload). *)

From Stdlib Require Import ZArith List String Ascii Bool Lia.
From Stdlib Require Import Floats.SpecFloat Init.Byte.
From stdpp Require Import base gmap strings list sorting pretty.
Import ListNotations.

Local Open Scope Z_scope.

(** ** Exceptions and results *)

(** The exception classes that the modelled code can raise.  [ValueError] is
    what the [raise] statements of the source construct; [StructError] is
    [struct.error] (aliased [TranscodeError] in the source);
    [UnicodeEncodeError] is what [struct] raises on a format that is not
    ASCII.  [NotModelled] marks the corners of the runtime that the embedding
    leaves out: brace syntax of [str.format] other than the bare placeholder,
    the Pascal string code of [struct], formats without the byte-order
    mark, and what depends on the identity of objects in the [__eq__] that
    [@dataclass] generates. *)
Inductive PyExc : Set :=
  | ValueError
  | UnicodeEncodeError
  | TypeError
  | StructError
  | OverflowError
  | ZeroDivisionError
  | IndexError
  | AttributeError
  | NotModelled.

Inductive result (A : Type) : Type :=
  | Ok (a : A)
  | Raise (e : PyExc).
Arguments Ok {A} a.
Arguments Raise {A} e.

#[global] Instance PyExc_eq_dec : EqDecision PyExc.
Proof. solve_decision. Defined.

#[global] Instance result_ret : MRet result := @Ok.
#[global] Instance result_bind : MBind result :=
  λ A B f m, match m with Ok a => f a | Raise e => Raise e end.
#[global] Instance result_fmap : FMap result :=
  λ A B f m, match m with Ok a => Ok (f a) | Raise e => Raise e end.

Definition is_ok {A} (r : result A) : bool :=
  match r with Ok _ => true | Raise _ => false end.

(** Extracts the value of a computation that is known, by evaluation, to
    succeed; used for declarations that Python evaluates at import time. *)
Definition from_ok {A} (r : result A)
  : match r with Ok _ => A | Raise _ => PyExc end :=
  match r with Ok a => a | Raise e => e end.

(** Sequential evaluation of a list of computations: the first exception
    wins, as when a generator is drained in order. *)
Fixpoint sequence {A} (l : list (result A)) : result (list A) :=
  match l with
  | [] => Ok []
  | r :: rest => a ← r; as' ← sequence rest; Ok (a :: as')
  end.

(** ** Bytes and big-endian integers *)

Abbreviation bytes := (list byte).

#[global] Instance byte_eq_dec : EqDecision byte.
Proof.
  intros x y. destruct (decide (Byte.to_N x = Byte.to_N y)) as [H|H].
  - left. apply (f_equal Byte.of_N) in H.
    rewrite !Byte.of_to_N in H. congruence.
  - right. congruence.
Defined.

Definition byte_of_Z (z : Z) : byte :=
  default x00 (Byte.of_N (Z.to_N (z mod 256))).

Definition Z_of_byte (b : byte) : Z := Z.of_N (Byte.to_N b).

(** [z.to_bytes(len, "big")] of the low [8 * len] bits of [z]. *)
Fixpoint to_bytes_big (len : nat) (z : Z) : bytes :=
  match len with
  | O => []
  | S k => byte_of_Z (z ≫ (8 * Z.of_nat k)) :: to_bytes_big k z
  end.

(** [int.from_bytes(bs, "big")]. *)
Definition from_bytes_big (bs : bytes) : Z :=
  fold_left (λ acc b, acc * 256 + Z_of_byte b) bs 0.

(** Two's complement reading of an unsigned [8 * len]-bit value. *)
Definition to_signed (len : nat) (u : Z) : Z :=
  if u <? 2 ^ (8 * Z.of_nat len - 1) then u else u - 2 ^ (8 * Z.of_nat len).

Definition zeros (n : nat) : bytes := replicate n x00.

(** Largest [Py_ssize_t]. *)
Definition PY_SSIZE_T_MAX : Z := 2 ^ 63 - 1.

(** ** Floats *)

Abbreviation float := spec_float.

Definition fmul : float → float → float := SFmul 53 1024.
Definition fdiv : float → float → float := SFdiv 53 1024.
Definition feqb : float → float → bool := SFeqb.

(** [float(z)] for a Python int: correctly rounded, [OverflowError] when the
    magnitude exceeds the double range. *)
Definition float_of_Z (z : Z) : result float :=
  match binary_normalize 53 1024 z 0 false with
  | S754_infinity _ => Raise OverflowError
  | f => Ok f
  end.

Definition float_is_zero (f : float) : bool :=
  match f with S754_zero _ => true | _ => false end.

(** Exact comparison of a float with an integer (Python compares the
    mathematical values, it does not round the integer). *)
Definition float_eq_Z (f : float) (z : Z) : bool :=
  match f with
  | S754_zero _ => z =? 0
  | S754_finite s m e =>
      let sm := if s then Z.neg m else Z.pos m in
      if 0 <=? e then z =? sm * 2 ^ e
      else (sm mod 2 ^ (- e) =? 0) && (z =? sm / 2 ^ (- e))
  | _ => false
  end.

(** Rounding of a float to the format [(prec, emax)], to nearest even. *)
Definition float_round (prec emax : Z) (f : float) : float :=
  match f with
  | S754_finite s m e => binary_round prec emax s m e
  | _ => f
  end.

Section FloatBits.
(** IEEE 754 interchange encoding for the format with [prec] bits of
    precision and infinities at exponent [emax]. *)
Variables prec emax : Z.

Definition mant_bits : Z := prec - 1.
Definition exp_bits : Z := Z.log2 emax + 1.
Definition exp_bias : Z := emax + prec - 2.

Definition float_to_bits (f : float) : Z :=
  let sign (s : bool) := if s then 2 ^ (mant_bits + exp_bits) else 0 in
  let top := (2 ^ exp_bits - 1) * 2 ^ mant_bits in
  match float_round prec emax f with
  | S754_zero s => sign s
  | S754_infinity s => sign s + top
  | S754_nan => top + 2 ^ (mant_bits - 1)
  | S754_finite s m e =>
      if Z.pos (digits2_pos m) =? prec
      then sign s + (e + exp_bias) * 2 ^ mant_bits + (Z.pos m - 2 ^ mant_bits)
      else sign s + Z.pos m
  end.

Definition float_of_bits (x : Z) : float :=
  let s := Z.testbit x (mant_bits + exp_bits) in
  let e := (x ≫ mant_bits) mod 2 ^ exp_bits in
  let frac := x mod 2 ^ mant_bits in
  if e =? 0 then
    match frac with
    | Z.pos m => S754_finite s m (emin prec emax)
    | _ => S754_zero s
    end
  else if e =? 2 ^ exp_bits - 1 then
    if frac =? 0 then S754_infinity s else S754_nan
  else
    match 2 ^ mant_bits + frac with
    | Z.pos m => S754_finite s m (e - exp_bias)
    | _ => S754_nan
    end.
End FloatBits.

(** ** Python values *)

(** [UdsPayloadTypes = Union[int, float, bytes, str]]; [bool] is the subclass
    of [int] that [struct] returns for the code [?]. *)
Inductive PyVal : Type :=
  | VInt (z : Z)
  | VBool (b : bool)
  | VFloat (f : float)
  | VBytes (b : bytes)
  | VStr (s : string).

(** [operator.index]: the integers, booleans included. *)
Definition py_index (v : PyVal) : option Z :=
  match v with
  | VInt z => Some z
  | VBool b => Some (Z.b2z b)
  | _ => None
  end.

(** Sequence repetition [seq * n]. *)
Definition seq_repeat {A} (l : list A) (n : Z) : result (list A) :=
  if PY_SSIZE_T_MAX <? n then Raise OverflowError
  else Ok (mjoin (replicate (Z.to_nat n) l)).

Definition str_repeat (s : string) (n : Z) : result string :=
  if PY_SSIZE_T_MAX <? n then Raise OverflowError
  else Ok (String.concat "" (replicate (Z.to_nat n) s)).

(** The binary operator [a * b]. *)
Definition py_mul (a b : PyVal) : result PyVal :=
  match a, b with
  | VFloat x, VFloat y => Ok (VFloat (fmul x y))
  | VFloat x, _ =>
      match py_index b with
      | Some n => y ← float_of_Z n; Ok (VFloat (fmul x y))
      | None => Raise TypeError
      end
  | _, VFloat y =>
      match py_index a with
      | Some n => x ← float_of_Z n; Ok (VFloat (fmul x y))
      | None => Raise TypeError
      end
  | VBytes l, _ =>
      match py_index b with
      | Some n => VBytes <$> seq_repeat l n
      | None => Raise TypeError
      end
  | _, VBytes l =>
      match py_index a with
      | Some n => VBytes <$> seq_repeat l n
      | None => Raise TypeError
      end
  | VStr s, _ =>
      match py_index b with
      | Some n => VStr <$> str_repeat s n
      | None => Raise TypeError
      end
  | _, VStr s =>
      match py_index a with
      | Some n => VStr <$> str_repeat s n
      | None => Raise TypeError
      end
  | _, _ =>
      match py_index a, py_index b with
      | Some x, Some y => Ok (VInt (x * y))
      | _, _ => Raise TypeError
      end
  end.

(** The comparison [a == b]. *)
Definition py_eq (a b : PyVal) : bool :=
  match a, b with
  | VFloat x, VFloat y => feqb x y
  | VFloat x, _ =>
      match py_index b with Some n => float_eq_Z x n | None => false end
  | _, VFloat y =>
      match py_index a with Some n => float_eq_Z y n | None => false end
  | VBytes x, VBytes y => bool_decide (x = y)
  | VStr x, VStr y => bool_decide (x = y)
  | _, _ =>
      match py_index a, py_index b with
      | Some x, Some y => x =? y
      | _, _ => false
      end
  end.

(** [len(v)]. *)
Definition py_len (v : PyVal) : result Z :=
  match v with
  | VBytes b => Ok (Z.of_nat (length b))
  | VStr s => Ok (Z.of_nat (String.length s))
  | _ => Raise TypeError
  end.

(** Truth value [bool(v)]. *)
Definition py_truth (v : PyVal) : bool :=
  match v with
  | VInt z => negb (z =? 0)
  | VBool b => b
  | VFloat f => negb (float_is_zero f)
  | VBytes b => negb (bool_decide (b = []))
  | VStr s => negb (bool_decide (s = ""%string))
  end.

(** ** Strings: the length placeholder

    The source manipulates format strings with [str.split], [str.replace] and
    [str.format], always on the two-character placeholder. *)

Fixpoint string_forall (p : ascii → bool) (s : string) : bool :=
  match s with
  | EmptyString => true
  | String c rest => p c && string_forall p rest
  end.

Definition is_brace (c : ascii) : bool :=
  bool_decide (c = "{"%char) || bool_decide (c = "}"%char).

(** [str.split], [str.replace], [str.format] and [in] all scan the text from
    the left for non-overlapping occurrences of the placeholder: they see the
    text as this sequence of tokens. *)
Inductive Token : Set :=
  | Placeholder
  | Char (c : ascii).

#[global] Instance Token_eq_dec : EqDecision Token.
Proof. solve_decision. Defined.

Definition is_placeholder (c c' : ascii) : bool :=
  bool_decide (c = "{"%char) && bool_decide (c' = "}"%char).

Fixpoint tokens (s : string) : list Token :=
  match s with
  | EmptyString => []
  | String c rest =>
      match rest with
      | String c' rest' =>
          if is_placeholder c c' then Placeholder :: tokens rest'
          else Char c :: tokens rest
      | EmptyString => [Char c]
      end
  end.

Fixpoint split_tokens (ts : list Token) : list string :=
  match ts with
  | [] => [EmptyString]
  | Placeholder :: rest => EmptyString :: split_tokens rest
  | Char c :: rest =>
      match split_tokens rest with
      | h :: t => String c h :: t
      | [] => [String c EmptyString]
      end
  end.

(** [s.split("{}")]: never empty. *)
Definition split_placeholder (s : string) : list string :=
  split_tokens (tokens s).

Fixpoint remove_tokens (ts : list Token) : string :=
  match ts with
  | [] => EmptyString
  | Placeholder :: rest => remove_tokens rest
  | Char c :: rest => String c (remove_tokens rest)
  end.

(** [s.replace("{}", "")]. *)
Definition remove_placeholder (s : string) : string :=
  remove_tokens (tokens s).

Fixpoint format_tokens (ts : list Token) (args : list string) : result string :=
  match ts with
  | [] => Ok EmptyString
  | Placeholder :: rest =>
      match args with
      | a :: args' => r ← format_tokens rest args'; Ok (a +:+ r)
      | [] => Raise IndexError
      end
  | Char c :: rest =>
      if is_brace c then Raise NotModelled
      else r ← format_tokens rest args; Ok (String c r)
  end.

(** [s.format] on positional arguments that are already rendered.  Each bare
    placeholder takes the next positional argument ([IndexError] when none is
    left, surplus arguments are ignored); any other use of a brace is outside
    the embedding. *)
Definition str_format (s : string) (args : list string) : result string :=
  format_tokens (tokens s) args.

(** ["{}" in s]. *)
Definition contains_placeholder (s : string) : bool :=
  bool_decide (Placeholder ∈ tokens s).

(** [str(v)] for the integers ([pretty] prints decimal with a leading minus
    sign, as Python does). *)
Definition str_of_int (z : Z) : string := pretty z.

(** ** The [struct] module, big-endian standard mode *)

Inductive Code : Set :=
  | CPad                                (* x *)
  | CChar                               (* c *)
  | CBoolean                            (* ? *)
  | CInt (size : nat) (signed : bool)   (* b B h H i I l L q Q *)
  | CFloat (size : nat)                 (* e f d *)
  | CString                             (* s *)
  | CPascal.                            (* p *)

Definition code_of_ascii (c : ascii) : option Code :=
  match c with
  | "x" => Some CPad
  | "c" => Some CChar
  | "?" => Some CBoolean
  | "b" => Some (CInt 1 true)
  | "B" => Some (CInt 1 false)
  | "h" => Some (CInt 2 true)
  | "H" => Some (CInt 2 false)
  | "i" => Some (CInt 4 true)
  | "I" => Some (CInt 4 false)
  | "l" => Some (CInt 4 true)
  | "L" => Some (CInt 4 false)
  | "q" => Some (CInt 8 true)
  | "Q" => Some (CInt 8 false)
  | "e" => Some (CFloat 2)
  | "f" => Some (CFloat 4)
  | "d" => Some (CFloat 8)
  | "s" => Some CString
  | "p" => Some CPascal
  | _ => None
  end%char.

Definition char_code (c : ascii) : Z := Z.of_N (N_of_ascii c).

Definition is_digit (c : ascii) : bool :=
  (48 <=? char_code c) && (char_code c <=? 57).

Definition digit_val (c : ascii) : Z := char_code c - 48.

(** [Py_ISSPACE]. *)
Definition is_space (c : ascii) : bool :=
  (char_code c =? 32) || ((9 <=? char_code c) && (char_code c <=? 13)).

Record Item : Set := { it_code : Code; it_count : Z }.

(** The scanner of [prepare_s]: an optional decimal repeat count directly
    followed by a code character; white space is skipped between items. *)
Fixpoint parse_codes (s : string) (num : option Z) : result (list Item) :=
  match s with
  | EmptyString =>
      match num with
      | None => Ok []
      | Some _ => Raise StructError
      end
  | String c rest =>
      if is_digit c then
        let n := 10 * default 0 num + digit_val c in
        if PY_SSIZE_T_MAX <? n then Raise StructError
        else parse_codes rest (Some n)
      else if is_space c && bool_decide (num = None) then parse_codes rest None
      else
        match code_of_ascii c with
        | None => Raise StructError
        | Some CPascal => Raise NotModelled
        | Some k =>
            items ← parse_codes rest None;
            Ok ({| it_code := k; it_count := default 1 num |} :: items)
        end
  end.

Definition code_size (k : Code) : Z :=
  match k with
  | CInt n _ | CFloat n => Z.of_nat n
  | _ => 1
  end.

Definition item_size (it : Item) : Z := it_count it * code_size (it_code it).

Definition items_size (items : list Item) : Z :=
  foldr (λ it acc, item_size it + acc) 0 items.

(** Compilation of a format ([Struct.__init__]): the text must be ASCII,
    hold no NUL, and start with the byte-order mark that the source puts in
    front of every format. *)
Definition struct_compile (fmt : string) : result (list Item) :=
  if negb (string_forall (λ c, char_code c <? 128) fmt)
  then Raise UnicodeEncodeError
  else if negb (string_forall (λ c, negb (char_code c =? 0)) fmt)
  then Raise StructError
  else
    match fmt with
    | String c body =>
        if bool_decide (c = ">"%char) then
          items ← parse_codes body None;
          if PY_SSIZE_T_MAX <? items_size items then Raise StructError
          else Ok items
        else Raise NotModelled
    | EmptyString => Raise NotModelled
    end.

(** [struct.calcsize]. *)
Definition struct_calcsize (fmt : string) : result Z :=
  items_size <$> struct_compile fmt.

(** One slot per packed or unpacked element. *)
Inductive Slot : Set :=
  | SPad (n : Z)
  | SBytes (n : Z)
  | SOne (k : Code).

Definition item_slots (it : Item) : list Slot :=
  match it_code it with
  | CPad => [SPad (it_count it)]
  | CString | CPascal => [SBytes (it_count it)]
  | k => replicate (Z.to_nat (it_count it)) (SOne k)
  end.

Definition slot_size (s : Slot) : Z :=
  match s with
  | SPad n | SBytes n => n
  | SOne k => code_size k
  end.

Definition slot_takes_arg (s : Slot) : bool :=
  match s with SPad _ => false | _ => true end.

Definition slots_nargs (slots : list Slot) : nat :=
  length (filter (λ s, slot_takes_arg s = true) slots).

(** Precision and maximal exponent of the float codes. *)
Definition float_format (size : nat) : Z * Z :=
  match size with
  | 2%nat => (11, 16)
  | 4%nat => (24, 128)
  | _ => (53, 1024)
  end.

Definition pack_int (size : nat) (signed : bool) (v : PyVal) : result bytes :=
  match py_index v with
  | None => Raise StructError
  | Some z =>
      let bits := 8 * Z.of_nat size in
      let lo := if signed then - 2 ^ (bits - 1) else 0 in
      let hi := if signed then 2 ^ (bits - 1) else 2 ^ bits in
      if (lo <=? z) && (z <? hi) then Ok (to_bytes_big size z)
      else Raise StructError
  end.

(** [PyFloat_AsDouble], whose every failure [struct] reports as its own
    error. *)
Definition struct_float (v : PyVal) : result float :=
  match v with
  | VFloat f => Ok f
  | _ =>
      match py_index v with
      | Some z =>
          match float_of_Z z with
          | Ok f => Ok f
          | Raise _ => Raise StructError
          end
      | None => Raise StructError
      end
  end.

Definition pack_float (size : nat) (v : PyVal) : result bytes :=
  f ← struct_float v;
  let '(prec, emax) := float_format size in
  match f, float_round prec emax f with
  | S754_finite _ _ _, S754_infinity _ => Raise OverflowError
  | _, _ => Ok (to_bytes_big size (float_to_bits prec emax f))
  end.

Definition pack_slot (s : Slot) (v : PyVal) : result bytes :=
  match s with
  | SPad n => Ok (zeros (Z.to_nat n))
  | SBytes n =>
      match v with
      | VBytes b =>
          let b' := take (Z.to_nat n) b in
          Ok (b' ++ zeros (Z.to_nat n - length b'))
      | _ => Raise StructError
      end
  | SOne (CInt size signed) => pack_int size signed v
  | SOne (CFloat size) => pack_float size v
  | SOne CBoolean => Ok [if py_truth v then x01 else x00]
  | SOne CChar =>
      match v with
      | VBytes [b] => Ok [b]
      | _ => Raise StructError
      end
  | SOne _ => Raise NotModelled
  end.

Fixpoint pack_slots (slots : list Slot) (args : list PyVal) : result bytes :=
  match slots with
  | [] => Ok []
  | SPad n :: rest => r ← pack_slots rest args; Ok (zeros (Z.to_nat n) ++ r)
  | s :: rest =>
      match args with
      | a :: args' =>
          b ← pack_slot s a; r ← pack_slots rest args'; Ok (b ++ r)
      | [] => Raise StructError
      end
  end.

(** [struct.pack(fmt, *args)]: the number of arguments is checked before any
    of them is converted. *)
Definition struct_pack (fmt : string) (args : list PyVal) : result bytes :=
  items ← struct_compile fmt;
  let slots := items ≫= item_slots in
  if bool_decide (length args = slots_nargs slots) then pack_slots slots args
  else Raise StructError.

Definition unpack_slot (s : Slot) (chunk : bytes) : PyVal :=
  match s with
  | SOne (CInt size signed) =>
      let u := from_bytes_big chunk in
      VInt (if signed then to_signed size u else u)
  | SOne (CFloat size) =>
      let '(prec, emax) := float_format size in
      VFloat (float_round 53 1024 (float_of_bits prec emax (from_bytes_big chunk)))
  | SOne CBoolean => VBool (negb (bool_decide (chunk = [x00])))
  | _ => VBytes chunk
  end.

Fixpoint unpack_slots (slots : list Slot) (data : bytes) : list PyVal :=
  match slots with
  | [] => []
  | s :: rest =>
      let n := Z.to_nat (slot_size s) in
      if slot_takes_arg s
      then unpack_slot s (take n data) :: unpack_slots rest (drop n data)
      else unpack_slots rest (drop n data)
  end.

(** [struct.unpack(fmt, data)]: the buffer must have exactly the size of the
    format. *)
Definition struct_unpack (fmt : string) (data : bytes) : result (list PyVal) :=
  items ← struct_compile fmt;
  if bool_decide (Z.of_nat (length data) = items_size items)
  then Ok (unpack_slots (items ≫= item_slots) data)
  else Raise StructError.

(** Python's [l[start:stop]] on integer bounds. *)
Definition py_slice {A} (l : list A) (start stop : Z) : list A :=
  let len := Z.of_nat (length l) in
  let clamp (i : Z) := if i <? 0 then Z.max 0 (i + len) else Z.min i len in
  take (Z.to_nat (clamp stop - clamp start)) (drop (Z.to_nat (clamp start)) l).

(** [l.insert(i, x)] for a non-negative position. *)
Definition py_list_insert {A} (i : nat) (x : A) (l : list A) : list A :=
  take i l ++ x :: drop i l.

(** [enumerate(l)]. *)
Definition enumerate {A} (l : list A) : list (nat * A) :=
  zip (seq 0 (length l)) l.

(** * [base_service.py] *)

Definition _ENDIANNESS : string := ">".
Definition NO_SUBFUNCTION : Z := 0.
Definition PLACEHOLDER : string := "{}".

(** ** class [UdsField] *)
Module UdsField.

Record t : Type := {
  name : string;
  default_value : PyVal;
  fmt : string;
  subfunctions : gset Z;
  resolution : PyVal;
  scale_factor : PyVal;
}.

(** [1.0 / resolution]. *)
Definition inverse (resolution : PyVal) : result PyVal :=
  one ← float_of_Z 1;
  r ← match resolution with
      | VFloat f => Ok f
      | _ =>
          match py_index resolution with
          | Some z => float_of_Z z
          | None => Raise TypeError
          end
      end;
  if float_is_zero r then Raise ZeroDivisionError
  else Ok (VFloat (fdiv one r)).

(** [UdsField.__init__]; [subfunctions] is the list of the set's elements
    (a single int is the one-element list). *)
Definition init (name : string) (default : PyVal) (fmt : string)
    (subfunctions : list Z) (resolution : PyVal) : result t :=
  scale ← (if py_eq resolution (VInt 1) then Ok (VInt 1)
           else inverse resolution);
  Ok {| name := name;
        default_value := default;
        fmt := fmt;
        subfunctions := list_to_set subfunctions;
        resolution := resolution;
        scale_factor := scale |}.

Definition has_variable_length (self : t) : bool :=
  contains_placeholder (fmt self).

Definition supports_subfonction (self : t) (subfunction : Z) : bool :=
  bool_decide (subfunctions self = ∅)
  || bool_decide (subfunction ∈ subfunctions self).

End UdsField.

(** [uds_field(default, fmt, subfunctions, resolution=...)], for the class
    attribute [name]. *)
Definition uds_field (name : string) (default : PyVal) (fmt : string)
    (subfunctions : list Z) (resolution : PyVal) : result UdsField.t :=
  UdsField.init name default fmt subfunctions resolution.

(** ** Dataclasses *)

(** What [dataclasses.fields] yields: plain [Field]s and [UdsField]s. *)
Inductive DataclassField : Type :=
  | PlainField (name : string) (default : PyVal)
  | Uds (f : UdsField.t).

Definition field_name (f : DataclassField) : string :=
  match f with
  | PlainField n _ => n
  | Uds u => UdsField.name u
  end.

Definition field_default (f : DataclassField) : PyVal :=
  match f with
  | PlainField _ d => d
  | Uds u => UdsField.default_value u
  end.

(** A subclass of [ServiceData]: its name and the fields it declares after
    the inherited [subfunction]. *)
Record DataClass : Type := {
  cls_name : string;
  declared : list DataclassField;
}.

Definition subfunction_field : DataclassField :=
  PlainField "subfunction" (VInt NO_SUBFUNCTION).

Definition fields (cls : DataClass) : list DataclassField :=
  subfunction_field :: declared cls.

(** An instance: its class, the [subfunction] attribute and the attributes
    of the declared fields. *)
Record Instance : Type := {
  type_of : DataClass;
  subfunction : Z;
  attrs : gmap string PyVal;
}.

(** The generated [__init__]: [cls(subfunction=sf, **kwargs)].  Unknown or
    repeated keywords are a [TypeError]; omitted fields take their default. *)
Definition new_instance (cls : DataClass) (sf : Z)
    (kwargs : list (string * PyVal)) : result Instance :=
  if forallb (λ kv, bool_decide (kv.1 ∈ field_name <$> declared cls)
                    && negb (bool_decide (kv.1 = "subfunction"%string))) kwargs
  then
    Ok {| type_of := cls;
          subfunction := sf;
          attrs := list_to_map (reverse kwargs) ∪
                   list_to_map
                     (reverse ((λ f, (field_name f, field_default f))
                               <$> declared cls)) |}
  else Raise TypeError.

(** [self.__getattribute__(name)]. *)
Definition getattribute (self : Instance) (name : string) : result PyVal :=
  if bool_decide (name = "subfunction"%string) then Ok (VInt (subfunction self))
  else
    match attrs self !! name with
    | Some v => Ok v
    | None => Raise AttributeError
    end.

(** ** A monad for methods that run on a mutable receiver *)

(** A method body maps the receiver's state to an outcome and the receiver's
    state afterwards. *)
Definition Method (A : Type) : Type := Instance → result A * Instance.

#[global] Instance Method_ret : MRet Method := λ A a self, (Ok a, self).
#[global] Instance Method_bind : MBind Method :=
  λ A B f m self,
    match m self with
    | (Ok a, self') => f a self'
    | (Raise e, self') => (Raise e, self')
    end.

Definition lift {A} (r : result A) : Method A := λ self, (r, self).
Definition read_type : Method DataClass := λ self, (Ok (type_of self), self).
Definition read_subfunction : Method Z := λ self, (Ok (subfunction self), self).
Definition read_attr (name : string) : Method PyVal :=
  λ self, (getattribute self name, self).

(** [self.name = v]. *)
Definition write_attr (name : string) (v : PyVal) : Method unit :=
  λ self, (Ok tt, {| type_of := type_of self;
                     subfunction := subfunction self;
                     attrs := <[name := v]> (attrs self) |}).

(** [self.subfunction = sf]. *)
Definition write_subfunction (sf : Z) : Method unit :=
  λ self, (Ok tt, {| type_of := type_of self;
                     subfunction := sf;
                     attrs := attrs self |}).

(** Draining a generator whose elements are computed by method calls. *)
Fixpoint for_each {A B} (f : A → Method B) (l : list A) : Method (list B) :=
  match l with
  | [] => mret []
  | a :: rest => b ← f a; bs ← for_each f rest; mret (b :: bs)
  end.

(** ** class [ServiceData] *)

(** What [==] may pass as the right operand. *)
Inductive PyObject : Type :=
  | ServiceDataObject (d : Instance)
  | OtherObject (v : PyVal).

(** The outcome of a rich comparison method. *)
Inductive Comparison : Set :=
  | Answer (b : bool)
  | NotImplemented.

Module ServiceData.

Definition as_uds_field (subfunction : Z) (f : DataclassField)
  : option UdsField.t :=
  match f with
  | Uds u =>
      if UdsField.supports_subfonction u subfunction then Some u else None
  | PlainField _ _ => None
  end.

(** The fields that are relevant to the given subfunction. *)
Definition _iter_parameter_fields (cls : DataClass) (subfunction : Z)
  : list UdsField.t :=
  omap (as_uds_field subfunction) (fields cls).

Definition _iter_parameter_names (cls : DataClass) (subfunction : Z)
  : list string :=
  UdsField.name <$> _iter_parameter_fields cls subfunction.

Definition joined_fmt (cls : DataClass) (subfunction : Z) : string :=
  String.concat "" (UdsField.fmt <$> _iter_parameter_fields cls subfunction).

Definition get_payload_fmt (cls : DataClass) (subfunction : Z) : string :=
  _ENDIANNESS +:+ joined_fmt cls subfunction.

(** The format split into length-terminated chunks; every chunk but the
    first starts with the placeholder of its length. *)
Definition _iter_payload_fmt (cls : DataClass) (subfunction : Z)
  : list string :=
  let static_chunks := split_placeholder (joined_fmt cls subfunction) in
  match static_chunks with
  | [] => []
  | first :: others =>
      (_ENDIANNESS +:+ first)
      :: ((λ chunk, _ENDIANNESS +:+ PLACEHOLDER +:+ chunk) <$> others)
  end.

Definition get_parameter_names (cls : DataClass) (subfunction : Z)
  : list string :=
  _iter_parameter_names cls subfunction.

Definition get_variadic_parameter_names (cls : DataClass) (subfunction : Z)
  : list string :=
  UdsField.name <$>
    filter (λ f, UdsField.has_variable_length f = true)
           (_iter_parameter_fields cls subfunction).

Definition get_parameter_resolutions (cls : DataClass) (subfunction : Z)
  : list PyVal :=
  UdsField.resolution <$> _iter_parameter_fields cls subfunction.

Definition get_parameter_scaling_factors (cls : DataClass) (subfunction : Z)
  : list PyVal :=
  UdsField.scale_factor <$> _iter_parameter_fields cls subfunction.

(** The values are produced lazily: each element is a computation that may
    raise when it is reached. *)
Definition get_parameter_values (self : Instance) (subfunction : Z)
    (scale : bool) : list (result PyVal) :=
  let base_map :=
    getattribute self <$> _iter_parameter_names (type_of self) subfunction in
  if negb scale then base_map
  else
    (λ '(val, factor), v ← val; py_mul v factor)
      <$> zip base_map
              (get_parameter_scaling_factors (type_of self) subfunction).

Definition get_parameter_items (self : Instance) (subfunction : Z)
  : list (string * result PyVal) :=
  zip (get_parameter_names (type_of self) subfunction)
      (get_parameter_values self subfunction true).

(** [kv_1 == kv_2] on (name, value) tuples. *)
Definition item_eq (kv_1 kv_2 : string * PyVal) : bool :=
  bool_decide (kv_1.1 = kv_2.1) && py_eq kv_1.2 kv_2.2.

(** [all(kv_1 == kv_2 for kv_1, kv_2 in zip(xs, ys))]: [zip] asks the left
    iterator first and stops as soon as one side is exhausted; [all] stops
    at the first pair that differs. *)
Fixpoint all_pairs_equal (xs ys : list (string * result PyVal))
  : result bool :=
  match xs with
  | [] => Ok true
  | (n1, r1) :: xs' =>
      v1 ← r1;
      match ys with
      | [] => Ok true
      | (n2, r2) :: ys' =>
          v2 ← r2;
          if item_eq (n1, v1) (n2, v2) then all_pairs_equal xs' ys'
          else Ok false
      end
  end.

(** The method [ServiceData.__eq__] as the base class defines it.  (What
    [==] runs on an instance is the [__eq__] of its class: this method for
    [ServiceData] and [EmptyServiceData], the generated one for a subclass
    declared with [@dataclass]; see [record_eq] below.) *)
Definition __eq__ (self : Instance) (other : PyObject) : result Comparison :=
  match other with
  | OtherObject _ => Ok NotImplemented
  | ServiceDataObject other =>
      Answer <$> all_pairs_equal (get_parameter_items self NO_SUBFUNCTION)
                                 (get_parameter_items other NO_SUBFUNCTION)
  end.

Definition _get_fmt_size_pairs (cls : DataClass)
  : result (list (string * Z)) :=
  sequence ((λ fmt, size ← struct_calcsize (remove_placeholder fmt);
                    Ok (fmt, size))
            <$> _iter_payload_fmt cls NO_SUBFUNCTION).

(** [{k: v * res for k, v, res in zip(names, args, resolutions)}]. *)
Fixpoint scaled_kwargs (names : list string) (args resolutions : list PyVal)
  : result (list (string * PyVal)) :=
  match names, args, resolutions with
  | k :: names', v :: args', res :: resolutions' =>
      x ← py_mul v res;
      rest ← scaled_kwargs names' args' resolutions';
      Ok ((k, x) :: rest)
  | _, _, _ => Ok []
  end.

(** [args.pop()]. *)
Definition pop_last {A} (l : list A) : option (list A * A) :=
  match reverse l with
  | [] => None
  | x :: rest => Some (reverse rest, x)
  end.

(** The loop of [unpack] over the (format, size) pairs, with its local
    variables [start_index], [end_index] and [args]. *)
Fixpoint unpack_chunks (pairs : list (string * Z)) (data : bytes)
    (start_index end_index : Z) (args : list PyVal)
  : result (list PyVal) :=
  match pairs with
  | [] => Ok args
  | (fmt, size) :: pairs' =>
      '(fmt, end_index, args) ←
        match pop_last args with
        | None => Ok (fmt, end_index, args)
        | Some (args, next_length) =>
            match next_length with
            | VInt n =>
                fmt ← str_format fmt [str_of_int n];
                Ok (fmt, end_index + n, args)
            | VBool b =>
                fmt ← str_format fmt [if b then "True" else "False"]%string;
                Ok (fmt, end_index + Z.b2z b, args)
            | VFloat _ =>
                (* the float index is rejected when [data] is sliced *)
                _ ← str_format fmt [EmptyString];
                Raise TypeError
            | _ => Raise TypeError
            end
        end;
      let end_index := end_index + size in
      values ← struct_unpack fmt (py_slice data start_index end_index);
      unpack_chunks pairs' data end_index end_index (args ++ values)
  end.

Definition data_given (data : option bytes) : bool :=
  match data with
  | Some (_ :: _) => true
  | _ => false
  end.

Definition unpack (cls : DataClass) (data : option bytes) (subfunction : Z)
  : result Instance :=
  let parameter_names := get_parameter_names cls subfunction in
  if bool_decide (parameter_names = []) then
    if data_given data then Raise ValueError
    else new_instance cls NO_SUBFUNCTION []
  else if negb (data_given data) then Raise ValueError
  else
    let data := default [] data in
    let format_strings := _iter_payload_fmt cls subfunction in
    match format_strings with
    | [fmt] =>
        args ← struct_unpack fmt data;
        kwargs ← scaled_kwargs parameter_names args
                   (get_parameter_resolutions cls subfunction);
        new_instance cls subfunction kwargs
    | _ =>
        pairs ← _get_fmt_size_pairs cls;
        args ← unpack_chunks pairs data 0 0 [];
        kwargs ← scaled_kwargs parameter_names args
                   (get_parameter_resolutions cls subfunction);
        new_instance cls subfunction kwargs
    end.

Definition has_variadic_fields (cls : DataClass) (subfunction : Z) : bool :=
  existsb UdsField.has_variable_length (_iter_parameter_fields cls subfunction).

Definition get_variadic_fields_indexes (cls : DataClass) (subfunction : Z)
  : list nat :=
  fst <$> filter (λ p, UdsField.has_variable_length p.2 = true)
                 (enumerate (_iter_parameter_fields cls subfunction)).

(** [val * scale for val, scale in zip(value_getter, factors)], drained. *)
Definition scaled_args (names : list string) (factors : list PyVal)
  : Method (list PyVal) :=
  for_each (λ '(name, scale), val ← read_attr name; lift (py_mul val scale))
           (zip names factors).

(** [tuple(map(len, (arg_list[i] for i in length_indexes)))]. *)
Definition lengths_at (arg_list : list PyVal) (length_indexes : list nat)
  : result (list Z) :=
  sequence ((λ i, match arg_list !! i with
                  | Some v => py_len v
                  | None => Raise IndexError
                  end) <$> length_indexes).

(** The loop [for length, position in zip(lengths, length_indexes):
    arg_list.insert(position, length)]. *)
Definition insert_lengths (arg_list : list PyVal) (lengths : list Z)
    (length_indexes : list nat) : list PyVal :=
  foldl (λ arg_list '(length, position),
           py_list_insert position (VInt length) arg_list)
        arg_list (zip lengths length_indexes).

Definition pack_method : Method bytes :=
  subfunction ← read_subfunction;
  cls ← read_type;
  let format_strings := _iter_payload_fmt cls subfunction in
  if bool_decide (format_strings = []) then mret []
  else
    self_subfunction ← read_subfunction;
    let subfunction_params := get_parameter_names cls self_subfunction in
    let args :=
      scaled_args subfunction_params
                  (get_parameter_scaling_factors cls self_subfunction) in
    match format_strings with
    | [fmt] => args ← args; lift (struct_pack fmt args)
    | _ =>
        arg_list ← args;
        let length_indexes := get_variadic_fields_indexes cls subfunction in
        lengths ← lift (lengths_at arg_list length_indexes);
        let arg_list := insert_lengths arg_list lengths length_indexes in
        fmt ← lift (str_format (get_payload_fmt cls NO_SUBFUNCTION)
                               (str_of_int <$> lengths));
        lift (struct_pack fmt arg_list)
    end.

(** [self.pack()]: the outcome of the method on the receiver. *)
Definition pack (self : Instance) : result bytes := (pack_method self).1.

End ServiceData.

(** class [EmptyServiceData]: no field of its own. *)
Definition EmptyServiceData : DataClass :=
  {| cls_name := "EmptyServiceData"; declared := [] |}.

(** The base class itself. *)
Definition ServiceDataBase : DataClass :=
  {| cls_name := "ServiceData"; declared := [] |}.

(** * The operator [==] on records *)

(** ** Identity of record types *)

#[global] Instance spec_float_eq_dec : EqDecision spec_float.
Proof. solve_decision. Defined.

#[global] Instance PyVal_eq_dec : EqDecision PyVal.
Proof. solve_decision. Defined.

#[global] Instance UdsField_eq_dec : EqDecision UdsField.t.
Proof. solve_decision. Defined.

#[global] Instance DataclassField_eq_dec : EqDecision DataclassField.
Proof. solve_decision. Defined.

(** [cls_1 is cls_2]: a record type is identified by its name and its
    declaration. *)
#[global] Instance DataClass_eq_dec : EqDecision DataClass.
Proof. solve_decision. Defined.

(** [issubclass(sub, cls) and sub is not cls]: the record types all derive
    from [ServiceData] directly. *)
Definition is_proper_subclass (sub cls : DataClass) : bool :=
  bool_decide (cls = ServiceDataBase)
  && negb (bool_decide (sub = ServiceDataBase)).

(** ** The [__eq__] of a record type

    [ServiceData] is declared with [@dataclass] and defines [__eq__] in its
    body; the decorator never replaces an attribute that the decorated class
    defines itself, so [ServiceData] has the method of its body.
    [EmptyServiceData] is declared without the decorator and inherits that
    method.  Every other record type is a subclass declared with
    [@dataclass] (it has to be, for its fields to count) whose body defines
    no [__eq__]: the decorator gives it an [__eq__] generated from its
    fields, which hides the inherited one. *)
Definition keeps_base_eq (cls : DataClass) : bool :=
  bool_decide (cls = ServiceDataBase) || bool_decide (cls = EmptyServiceData).

(** The values of the fields in the order of [dataclasses.fields],
    [subfunction] first. *)
Definition field_values (self : Instance) : result (list PyVal) :=
  sequence ((λ f, getattribute self (field_name f)) <$> fields (type_of self)).

(** The comparison of the values of one field.  Up to Python 3.12 the
    generated method compares the two tuples of field values, and a tuple
    takes two references to one object as equal without asking the object;
    from Python 3.13 on the method is the chain
    [self.f == other.f and self.g == other.g ...].  Both stop at the first
    field that differs, and they agree unless both values are NaN, where the
    older answer depends on whether the two are one object; the embedding
    does not tell. *)
Definition field_eq (x y : PyVal) : result bool :=
  match x, y with
  | VFloat S754_nan, VFloat S754_nan => Raise NotModelled
  | _, _ => Ok (py_eq x y)
  end.

Fixpoint all_fields_equal (xs ys : list PyVal) : result bool :=
  match xs, ys with
  | [], [] => Ok true
  | x :: xs', y :: ys' =>
      equal ← field_eq x y;
      if (equal : bool) then all_fields_equal xs' ys' else Ok false
  | _, _ => Ok false
  end.

(** The [__eq__] that [@dataclass] generates:
    [if other.__class__ is self.__class__: return <fields equal>] and
    [return NotImplemented] otherwise.  All fields are compared, none is
    declared with [compare=False].  A record that has lost the attribute of
    a field is outside the embedding. *)
Definition dataclass_eq (self : Instance) (other : PyObject)
  : result Comparison :=
  match other with
  | ServiceDataObject other =>
      if bool_decide (type_of other = type_of self) then
        match field_values self, field_values other with
        | Ok xs, Ok ys => Answer <$> all_fields_equal xs ys
        | _, _ => Raise NotModelled
        end
      else Ok NotImplemented
  | OtherObject _ => Ok NotImplemented
  end.

(** [type(self).__eq__]. *)
Definition class_eq (cls : DataClass)
  : Instance → PyObject → result Comparison :=
  if keeps_base_eq cls then ServiceData.__eq__ else dataclass_eq.

(** The answer of a comparison method, or [otherwise] when the method
    returns [NotImplemented]. *)
Definition answer_or (r : result Comparison) (otherwise : result bool)
  : result bool :=
  c ← r;
  match c with
  | Answer b => Ok b
  | NotImplemented => otherwise
  end.

(** [v == w] for a record [v], as the interpreter evaluates it: the method of
    the right operand goes first when its type is a proper subclass of the
    left operand's type, the method of the left operand otherwise; the other
    method is asked when the first returns [NotImplemented]; when both do,
    the operands are equal iff they are one object.  Two records get that
    far only if their types differ, and an [int], [float], [bytes] or [str]
    is no record (its own [__eq__] returns [NotImplemented] for a record):
    the answer is then [False]. *)
Definition record_eq (v : Instance) (w : PyObject) : result bool :=
  match w with
  | ServiceDataObject o =>
      let forward := class_eq (type_of v) v w in
      let reflected := class_eq (type_of o) o (ServiceDataObject v) in
      if is_proper_subclass (type_of o) (type_of v)
      then answer_or reflected (answer_or forward (Ok false))
      else answer_or forward (answer_or reflected (Ok false))
  | OtherObject _ =>
      answer_or (class_eq (type_of v) v w) (Ok false)
  end.

(** ** class [BaseService] *)

(** The response codes that [base_service.py] and the service modules refer
    to by name.  The table itself lives in [response_code.py], which is taken
    as a parameter of the service layer. *)
Record ResponseCode : Set := {
  GeneralReject : Z;
  ServiceNotSupported : Z;
  SubFunctionNotSupported : Z;
  IncorrectMessageLengthOrInvalidFormat : Z;
  ResponseTooLong : Z;
  BusyRepeatRequest : Z;
  ConditionsNotCorrect : Z;
  NoResponseFromSubnetComponent : Z;
  FailurePreventsExecutionOfRequestedAction : Z;
  RequestOutOfRange : Z;
  SecurityAccessDenied : Z;
  AuthenticationRequired : Z;
  SecureDataTransmissionRequired : Z;
  SecureDataTransmissionNotAllowed : Z;
  RequestCorrectlyReceived_ResponsePending : Z;
  SubFunctionNotSupportedInActiveSession : Z;
  ServiceNotSupportedInActiveSession : Z;
  ResourceTemporarilyNotAvailable : Z;
}.

Module BaseService.

(** The class attributes of a service; [_use_subfunction] may be absent. *)
Record t : Set := {
  _sid : Z;
  _use_subfunction : option bool;
  supported_negative_response : list Z;
}.

Definition always_valid_negative_response (rc : ResponseCode) : list Z :=
  [ GeneralReject rc;
    ServiceNotSupported rc;
    ResponseTooLong rc;
    BusyRepeatRequest rc;
    NoResponseFromSubnetComponent rc;
    FailurePreventsExecutionOfRequestedAction rc;
    SecurityAccessDenied rc;
    AuthenticationRequired rc;
    SecureDataTransmissionRequired rc;
    SecureDataTransmissionNotAllowed rc;
    RequestCorrectlyReceived_ResponsePending rc;
    ServiceNotSupportedInActiveSession rc;
    ResourceTemporarilyNotAvailable rc ].

Definition request_id (cls : t) : Z := _sid cls.

Definition response_id (cls : t) : Z := _sid cls + 0x40.

Definition use_subfunction (cls : t) : bool :=
  match _use_subfunction cls with
  | Some b => b
  | None => true
  end.

Definition is_supported_negative_response (rc : ResponseCode) (cls : t)
    (code : Z) : bool :=
  let supported := false in
  let supported :=
    if bool_decide (code ∈ supported_negative_response cls) then true
    else supported in
  let supported :=
    if bool_decide (code ∈ always_valid_negative_response rc) then true
    else supported in
  let supported :=
    if (0x80 <=? code) && (code <? 0xFF)
       && bool_decide (ConditionsNotCorrect rc
                       ∈ supported_negative_response cls)
    then true else supported in
  let supported :=
    if (code =? SubFunctionNotSupportedInActiveSession rc)
       && use_subfunction cls
    then true else supported in
  supported.

End BaseService.

(** The numbering of ISO 14229-1, Annex A, which the comments of
    [is_supported_negative_response] cite.  The module [response_code.py]
    that assigns the numbers is not among the sources; the spec confirms two
    of them, ConditionsNotCorrect = 0x22 and GeneralReject = 0x10. *)
Definition iso14229 : ResponseCode :=
  {| GeneralReject := 0x10;
     ServiceNotSupported := 0x11;
     SubFunctionNotSupported := 0x12;
     IncorrectMessageLengthOrInvalidFormat := 0x13;
     ResponseTooLong := 0x14;
     BusyRepeatRequest := 0x21;
     ConditionsNotCorrect := 0x22;
     NoResponseFromSubnetComponent := 0x25;
     FailurePreventsExecutionOfRequestedAction := 0x26;
     RequestOutOfRange := 0x31;
     SecurityAccessDenied := 0x33;
     AuthenticationRequired := 0x34;
     SecureDataTransmissionRequired := 0x38;
     SecureDataTransmissionNotAllowed := 0x39;
     RequestCorrectlyReceived_ResponsePending := 0x78;
     SubFunctionNotSupportedInActiveSession := 0x7E;
     ServiceNotSupportedInActiveSession := 0x7F;
     ResourceTemporarilyNotAvailable := 0x94 |}.

(** [services/diagnostic_session_control.py] *)
Definition DiagnosticSessionControl (rc : ResponseCode) : BaseService.t :=
  {| BaseService._sid := 0x10;
     BaseService._use_subfunction := None;
     BaseService.supported_negative_response :=
       [ SubFunctionNotSupported rc;
         IncorrectMessageLengthOrInvalidFormat rc;
         ConditionsNotCorrect rc ] |}.

(** * Declared record types *)

(** The float denoted by the decimal literal [n / d] when both are exactly
    representable: the correctly rounded quotient. *)
Definition decimal (n d : Z) : float :=
  fdiv (binary_normalize 53 1024 n 0 false) (binary_normalize 53 1024 d 0 false).

(** ** [services/diagnostic_session_control.py] *)

Definition ResponseDataPost2006 : DataClass := Eval vm_compute in
  {| cls_name := "ResponseDataPost2006";
     declared :=
       [ Uds (from_ok (uds_field "p2_server_max" (VFloat (decimal 100 1)) "H"
                                 [] (VFloat (decimal 1 1000))));
         Uds (from_ok (uds_field "p2_star_server_max" (VFloat (decimal 100 1))
                                 "H" [] (VFloat (decimal 1 100)))) ] |}.

Definition ResponseDataPre2006 : DataClass := Eval vm_compute in
  {| cls_name := "ResponseDataPre2006";
     declared :=
       [ Uds (from_ok (uds_field "session_param_records" (VBytes []) "2s"
                                 [] (VInt 1))) ] |}.

(** ** [test/test_base_service.py] *)

Definition SimpleServiceData : DataClass := Eval vm_compute in
  {| cls_name := "SimpleServiceData";
     declared :=
       [ Uds (from_ok (uds_field "an_int" (VInt 42) "d" [] (VInt 1)));
         Uds (from_ok (uds_field "a_float" (VFloat (decimal 314 100)) "f"
                                 [] (VInt 1))) ] |}.

Definition AdvancedServiceData : DataClass := Eval vm_compute in
  {| cls_name := "AdvancedServiceData";
     declared :=
       [ Uds (from_ok (uds_field "an_int" (VInt 42) "d" [] (VInt 1)));
         Uds (from_ok (uds_field "a_float" (VFloat (decimal 314 100)) "f"
                                 [1] (VInt 1))) ] |}.

Definition ScaledServiceData : DataClass := Eval vm_compute in
  {| cls_name := "ScaledServiceData";
     declared :=
       [ Uds (from_ok (uds_field "an_int" (VInt 42) "d" [] (VInt 1)));
         Uds (from_ok (uds_field "a_float" (VFloat (decimal 314 100)) "f"
                                 [1] (VFloat (decimal 1 10)))) ] |}.

Definition SimpleVariadicServiceData : DataClass := Eval vm_compute in
  {| cls_name := "SimpleVariadicServiceData";
     declared :=
       [ Uds (from_ok (uds_field "an_int" (VInt 42) "d" [] (VInt 1)));
         Uds (from_ok (uds_field "some_bytes" (VBytes []) "h{}s" [] (VInt 1)));
         Uds (from_ok (uds_field "a_float" (VFloat (decimal 314 100)) "f"
                                 [] (VInt 1))) ] |}.

(** ** Record types with several or subfunction-specific variable fields *)

(** A record type whose variable-length field applies to subfunction 1
    only. *)
Definition SubfunctionVariadicServiceData : DataClass := Eval vm_compute in
  {| cls_name := "SubfunctionVariadicServiceData";
     declared :=
       [ Uds (from_ok (uds_field "an_int" (VInt 42) "d" [] (VInt 1)));
         Uds (from_ok (uds_field "some_bytes" (VBytes []) "h{}s" [1]
                                 (VInt 1))) ] |}.

(** A record type whose only field belongs to subfunction 1, declared with
    [@dataclass] as the others. *)
Definition SubfunctionOnlyServiceData : DataClass := Eval vm_compute in
  {| cls_name := "SubfunctionOnlyServiceData";
     declared :=
       [ Uds (from_ok (uds_field "a_float" (VFloat (decimal 314 100)) "f"
                                 [1] (VInt 1))) ] |}.

(** A record type with two variable-length fields. *)
Definition DoubleVariadicServiceData : DataClass := Eval vm_compute in
  {| cls_name := "DoubleVariadicServiceData";
     declared :=
       [ Uds (from_ok (uds_field "first_bytes" (VBytes []) "h{}s" []
                                 (VInt 1)));
         Uds (from_ok (uds_field "second_bytes" (VBytes []) "h{}s" []
                                 (VInt 1))) ] |}.

(** * Notions used in the statements *)

(** The [UdsField]s of a record type, in declaration order. *)
Definition declared_uds_fields (cls : DataClass) : list UdsField.t :=
  omap (λ f, match f with Uds u => Some u | PlainField _ _ => None end)
       (fields cls).

(** The applicable set of a field is empty or contains [n]. *)
Definition applies_to (n : Z) (f : UdsField.t) : Prop :=
  UdsField.subfunctions f = ∅ ∨ n ∈ UdsField.subfunctions f.

#[global] Instance applies_to_dec n f : Decision (applies_to n f).
Proof. unfold applies_to. apply _. Defined.

Definition brace_free (s : string) : bool :=
  string_forall (λ c, negb (is_brace c)) s.

(** Every brace of [s] belongs to a placeholder. *)
Definition only_placeholder_braces (s : string) : bool :=
  brace_free (remove_placeholder s).

(** The format is one token that takes exactly one value. *)
Definition single_token (fmt : string) : bool :=
  match parse_codes fmt None with
  | Ok [it] => bool_decide (slots_nargs (item_slots it) = 1%nat)
  | _ => false
  end.

(** The receiver after the assignment [self.name = v]. *)
Definition with_attr (self : Instance) (name : string) (v : PyVal) : Instance :=
  (write_attr name v self).2.

(** The scaled (name, value) items of a record, all evaluated. *)
Definition evaluated_items (self : Instance) (subfunction : Z)
  : result (list (string * PyVal)) :=
  sequence ((λ '(n, r), v ← r; Ok (n, v))
            <$> ServiceData.get_parameter_items self subfunction).

(** Two evaluated item sequences are equal element-wise. *)
Definition items_equal (xs ys : list (string * PyVal)) : Prop :=
  Forall2 (λ kv_1 kv_2, ServiceData.item_eq kv_1 kv_2 = true) xs ys.

(** A service that declares exactly [ConditionsNotCorrect] and uses a
    subfunction byte. *)
Definition conditions_only_service (rc : ResponseCode) : BaseService.t :=
  {| BaseService._sid := 0x10;
     BaseService._use_subfunction := Some true;
     BaseService.supported_negative_response := [ConditionsNotCorrect rc] |}.

(** Records used as concrete inputs. *)
Definition empty_record : Instance :=
  from_ok (new_instance EmptyServiceData NO_SUBFUNCTION []).

Definition simple_record : Instance :=
  from_ok (new_instance SimpleServiceData NO_SUBFUNCTION []).

Definition six_bytes : bytes := [x01; x02; x03; x04; x05; x06].

Definition variadic_record (payload : bytes) : Instance :=
  from_ok (new_instance SimpleVariadicServiceData NO_SUBFUNCTION
                        [("some_bytes"%string, VBytes payload)]).

Definition subfunction_variadic_record : Instance :=
  from_ok (new_instance SubfunctionVariadicServiceData 1
                        [("some_bytes"%string, VBytes [x01; x02])]).

Definition double_variadic_record : Instance :=
  from_ok (new_instance DoubleVariadicServiceData NO_SUBFUNCTION
                        [("first_bytes"%string, VBytes [x0a]);
                         ("second_bytes"%string, VBytes [x0b; x0c])]).

Definition post2006_record : Instance :=
  from_ok (new_instance ResponseDataPost2006 NO_SUBFUNCTION []).

(** A method that leaves its receiver as it found it. *)
Definition read_only {A} (m : Method A) : Prop :=
  ∀ self, (m self).2 = self.

(** The scaled values of a record at its own subfunction, drained in
    order. *)
Definition scaled_values (self : Instance) : result (list PyVal) :=
  sequence (ServiceData.get_parameter_values self (subfunction self) true).


(** What [cls()] constructs. *)
Definition default_record (cls : DataClass) : Instance :=
  {| type_of := cls;
     subfunction := NO_SUBFUNCTION;
     attrs := list_to_map
                (reverse ((λ f, (field_name f, field_default f))
                          <$> declared cls)) |}.

Definition never_value_error {A} (r : result A) : Prop :=
  r ≠ Raise ValueError.



(** [AdvancedServiceData()]. *)
Definition advanced_default : Instance :=
  from_ok (new_instance AdvancedServiceData NO_SUBFUNCTION []).

(** [SubfunctionOnlyServiceData()]. *)
Definition subfunction_only_record : Instance :=
  from_ok (new_instance SubfunctionOnlyServiceData NO_SUBFUNCTION []).

(** The characters of a text as tokens, none of them a placeholder. *)
Fixpoint char_tokens (s : string) : list Token :=
  match s with
  | EmptyString => []
  | String c rest => Char c :: char_tokens rest
  end.

(** The scaled value of one field of a record. *)
Definition field_value (self : Instance) (f : UdsField.t) : result PyVal :=
  v ← getattribute self (UdsField.name f); py_mul v (UdsField.scale_factor f).

(** The format of a field parses to this one item, which takes one value. *)
Definition field_item (f : UdsField.t) (it : Item) : Prop :=
  parse_codes (UdsField.fmt f) None = Ok [it]
  ∧ slots_nargs (item_slots it) = 1%nat.

(** The characters that [struct] accepts in a format. *)
Definition format_char (c : ascii) : bool :=
  (char_code c <? 128) && negb (char_code c =? 0) && negb (is_brace c).

Definition slots_size (slots : list Slot) : Z :=
  foldr (λ s acc, slot_size s + acc) 0 slots.

(** The largest length that an integer code can carry. *)
Definition code_limit (size : nat) (signed : bool) : Z :=
  if signed then 2 ^ (8 * Z.of_nat size - 1) else 2 ^ (8 * Z.of_nat size).

(** A payload of 32768 bytes. *)
Definition long_payload : bytes := replicate (Z.to_nat 32768) x00.

(** The concatenated formats of a run of fields. *)
Definition static_fmt (fs : list UdsField.t) : string :=
  String.concat "" (UdsField.fmt <$> fs).

(** A record type whose variable-length field declares a one-byte length. *)
Definition ByteLengthServiceData : DataClass := Eval vm_compute in
  {| cls_name := "ByteLengthServiceData";
     declared :=
       [ Uds (from_ok (uds_field "some_bytes" (VBytes []) "B{}s" []
                                 (VInt 1))) ] |}.

Definition byte_length_record (payload : bytes) : Instance :=
  from_ok (new_instance ByteLengthServiceData NO_SUBFUNCTION
                        [("some_bytes"%string, VBytes payload)]).

(** * The rest of [base_service.py] and the service modules *)

(** ** More of the runtime: text tests and ordering of numbers *)

(** [s.startswith(prefix)]. *)
Fixpoint startswith (s prefix : string) : bool :=
  match prefix with
  | EmptyString => true
  | String p prefix' =>
      match s with
      | String c s' => bool_decide (c = p) && startswith s' prefix'
      | EmptyString => false
      end
  end.

(** [s.endswith(suffix)]. *)
Definition endswith (s suffix : string) : bool :=
  startswith (String.rev s) (String.rev suffix).

(** The order of an integer and a float, by their mathematical values; a NaN
    is unordered. *)
Definition Z_compare_float (z : Z) (f : float) : option comparison :=
  match f with
  | S754_nan => None
  | S754_infinity s => Some (if s then Gt else Lt)
  | S754_zero _ => Some (z ?= 0)
  | S754_finite s m e =>
      let sm := if s then Z.neg m else Z.pos m in
      Some (if 0 <=? e then z ?= sm * 2 ^ e else z * 2 ^ (- e) ?= sm)
  end.

(** [z >= v] for an [int] on the left. *)
Definition py_int_ge (z : Z) (v : PyVal) : result bool :=
  match v with
  | VFloat f =>
      Ok (match Z_compare_float z f with
          | Some Eq | Some Gt => true
          | _ => false
          end)
  | _ =>
      match py_index v with
      | Some n => Ok (n <=? z)
      | None => Raise TypeError
      end
  end.

(** [z <= v] for an [int] on the left. *)
Definition py_int_le (z : Z) (v : PyVal) : result bool :=
  match v with
  | VFloat f =>
      Ok (match Z_compare_float z f with
          | Some Eq | Some Lt => true
          | _ => false
          end)
  | _ =>
      match py_index v with
      | Some n => Ok (z <=? n)
      | None => Raise TypeError
      end
  end.

(** [t[i]] on a tuple, for a non-negative index. *)
Definition tuple_item {A} (t : list A) (i : nat) : result A :=
  match t !! i with
  | Some x => Ok x
  | None => Raise IndexError
  end.

(** ** class [BaseSubfunction] *)

(** What a class attribute can hold, as far as [get_name] tells the cases
    apart: a payload value, a tuple, a routine (function, method, builtin) or
    any other object. *)
Inductive Member : Type :=
  | MValue (v : PyVal)
  | MTuple (items : list PyVal)
  | MRoutine
  | MObject.

(** A class as [inspect] sees it: its [__name__] and the attributes that
    [dir] finds on it, inherited ones included, in no particular order. *)
Record PyClass : Type := {
  class_name : string;
  class_attributes : list (string * Member);
}.

Module BaseSubfunction.

Definition isroutine (a : Member) : bool :=
  match a with MRoutine => true | _ => false end.

(** [inspect.getmembers(cls, predicate)]: the (name, value) pairs that
    satisfy the predicate, sorted by name. *)
Definition getmembers (cls : PyClass) (predicate : Member → bool)
  : list (string * Member) :=
  filter (λ a, predicate a.2 = true)
         (merge_sort (λ a b : string * Member, String.le a.1 b.1)
                     (class_attributes cls)).

(** The list [subfn_list]: the members that are no routines and whose name
    is not of the form [__x__]. *)
Definition subfn_list (cls : PyClass) : list (string * Member) :=
  let attributes := getmembers cls (λ a, negb (isroutine a)) in
  filter (λ a, negb (startswith a.1 "__" && endswith a.1 "__") = true)
         attributes.

(** The [for] loop: the name of the first attribute that matches, if any. *)
Fixpoint first_match (subfn_list : list (string * Member)) (subfn_id : Z)
  : result (option string) :=
  match subfn_list with
  | [] => Ok None
  | subfn :: rest =>
      match subfn.2 with
      | MValue v =>
          match py_index v with
          | Some z =>
              if z =? subfn_id then Ok (Some subfn.1)
              else first_match rest subfn_id
          | None => first_match rest subfn_id
          end
      | MTuple t =>
          low ← tuple_item t 0;
          above ← py_int_ge subfn_id low;
          if (above : bool) then Ok (Some subfn.1)
          else
            high ← tuple_item t 1;
            below ← py_int_le subfn_id high;
            if (below : bool) then Ok (Some subfn.1)
            else first_match rest subfn_id
      | _ => first_match rest subfn_id
      end
  end.

(** [cls.__pretty_name__] when the class has one, [cls.__name__]
    otherwise; a pretty name that is not a [str] is left out. *)
Definition display_name (cls : PyClass) : result string :=
  match (list_to_map (class_attributes cls) : gmap string Member)
          !! "__pretty_name__"%string with
  | None => Ok (class_name cls)
  | Some (MValue (VStr s)) => Ok s
  | Some _ => Raise NotModelled
  end.

Definition get_name (cls : PyClass) (subfn_id : Z) : result string :=
  found ← first_match (subfn_list cls) subfn_id;
  match found with
  | Some name => Ok name
  | None => name ← display_name cls; Ok ("Custom " +:+ name)
  end.

End BaseSubfunction.

(** ** class [BaseService]: the registry of services *)

(** A service class with the subclasses that [__subclasses__] reports for
    it; [_sid] is absent on a class that neither sets nor inherits it. *)
#[warnings="-register-all"]
Inductive ServiceClass : Type :=
  | MkServiceClass (name : string) (sid : option Z)
                   (subclasses : list ServiceClass).

Definition service_name (c : ServiceClass) : string :=
  match c with MkServiceClass n _ _ => n end.

Definition service_sid (c : ServiceClass) : option Z :=
  match c with MkServiceClass _ s _ => s end.

Definition __subclasses__ (c : ServiceClass) : list ServiceClass :=
  match c with MkServiceClass _ _ l => l end.

(** [cls.request_id()]. *)
Definition service_request_id (c : ServiceClass) : result Z :=
  match service_sid c with
  | Some s => Ok s
  | None => Raise AttributeError
  end.

(** [cls.response_id()]. *)
Definition service_response_id (c : ServiceClass) : result Z :=
  match service_sid c with
  | Some s => Ok (s + 0x40)
  | None => Raise AttributeError
  end.

(** The direct subclasses first, then the subclasses of each of them in
    turn. *)
Fixpoint __get_all_subclasses (cls : ServiceClass) : list ServiceClass :=
  match cls with
  | MkServiceClass _ _ subclasses =>
      subclasses
      ++ (fix extend (l : list ServiceClass) : list ServiceClass :=
            match l with
            | [] => []
            | x :: rest => __get_all_subclasses x ++ extend rest
            end) subclasses
  end.

(** The loop [for obj in classes: if get_id(obj) == given_id: return obj]. *)
Fixpoint first_with_id (get_id : ServiceClass → result Z) (given_id : Z)
    (classes : list ServiceClass) : result (option ServiceClass) :=
  match classes with
  | [] => Ok None
  | obj :: rest =>
      i ← get_id obj;
      if i =? given_id then Ok (Some obj)
      else first_with_id get_id given_id rest
  end.

Definition from_request_id (cls : ServiceClass) (given_id : Z)
  : result (option ServiceClass) :=
  first_with_id service_request_id given_id (__get_all_subclasses cls).

Definition from_response_id (cls : ServiceClass) (given_id : Z)
  : result (option ServiceClass) :=
  first_with_id service_response_id given_id (__get_all_subclasses cls).

(** ** class [BaseService]: interpreting a response *)

(** The versions of the standard that the service modules name. *)
Inductive StandardVersion : Set := UDS_2006 | UDS_2013 | UDS_2020.

#[global] Instance StandardVersion_eq_dec : EqDecision StandardVersion.
Proof. solve_decision. Defined.

(** [BaseService.get_response_cls], which a service overrides. *)
Definition get_response_cls (standard_version : StandardVersion) : DataClass :=
  EmptyServiceData.

Definition default_subfonction_id : Z := 0.

(** [_interpret_response], for the service attributes [cls], its
    [get_response_cls] and [response.data].  (The line that prints [data] to
    standard output leaves no trace in the result and is not represented.) *)
Definition _interpret_response (cls : BaseService.t)
    (get_response_cls : StandardVersion → DataClass)
    (response_data : option bytes) (standard_version : StandardVersion)
  : result Instance :=
  let response_cls := get_response_cls standard_version in
  match response_data with
  | None => new_instance response_cls NO_SUBFUNCTION []
  | Some response_data =>
      if BaseService.use_subfunction cls then
        match response_data with
        | [] => Raise IndexError
        | subfunction :: data =>
            ServiceData.unpack response_cls (Some data) (Z_of_byte subfunction)
        end
      else
        ServiceData.unpack response_cls (Some response_data)
                           default_subfonction_id
  end.

(** ** [services/diagnostic_session_control.py], continued *)

Module DiagnosticSessionControlService.

(** class [DiagnosticSessionControl.Session]. *)
Definition Session : PyClass :=
  {| class_name := "Session";
     class_attributes :=
       [ ("__module__",
          MValue (VStr "udsoncan.services.diagnostic_session_control"));
         ("__doc__",
          MValue (VStr "DiagnosticSessionControl defined subfunctions"));
         ("__pretty_name__", MValue (VStr "session"));
         ("defaultSession", MValue (VInt 1));
         ("programmingSession", MValue (VInt 2));
         ("extendedDiagnosticSession", MValue (VInt 3));
         ("safetySystemDiagnosticSession", MValue (VInt 4));
         ("get_name", MRoutine) ]%string |}.

Definition get_response_cls (standard_version : StandardVersion) : DataClass :=
  if decide (standard_version = UDS_2006) then ResponseDataPre2006
  else ResponseDataPost2006.

Definition interpret_response (rc : ResponseCode)
    (response_data : option bytes) (standard_version : StandardVersion)
  : result Instance :=
  _interpret_response (DiagnosticSessionControl rc) get_response_cls
                      response_data standard_version.

End DiagnosticSessionControlService.

(** ** The services that are declared but not implemented *)

(** [services/read_data_by_periodic_identifier.py] *)
Definition ReadDataByPeriodicIdentifier (rc : ResponseCode) : BaseService.t :=
  {| BaseService._sid := 0x2A;
     BaseService._use_subfunction := None;
     BaseService.supported_negative_response :=
       [ IncorrectMessageLengthOrInvalidFormat rc;
         ConditionsNotCorrect rc;
         RequestOutOfRange rc;
         SecurityAccessDenied rc ] |}.

(** [services/response_on_event.py] *)
Definition ResponseOnEvent (rc : ResponseCode) : BaseService.t :=
  {| BaseService._sid := 0x86;
     BaseService._use_subfunction := None;
     BaseService.supported_negative_response :=
       [ SubFunctionNotSupported rc;
         IncorrectMessageLengthOrInvalidFormat rc;
         ConditionsNotCorrect rc;
         RequestOutOfRange rc ] |}.

(** [services/read_scaling_data_by_identifier.py] *)
Definition ReadScalingDataByIdentifier (rc : ResponseCode) : BaseService.t :=
  {| BaseService._sid := 0x24;
     BaseService._use_subfunction := None;
     BaseService.supported_negative_response :=
       [ IncorrectMessageLengthOrInvalidFormat rc;
         ConditionsNotCorrect rc;
         RequestOutOfRange rc;
         SecurityAccessDenied rc ] |}.

(** The service classes of the source files. *)
Definition declared_services (rc : ResponseCode) : list BaseService.t :=
  [ DiagnosticSessionControl rc;
    ReadDataByPeriodicIdentifier rc;
    ResponseOnEvent rc;
    ReadScalingDataByIdentifier rc ].

(** * Notions used in the statements on the rest of the code *)

(** [c] is a proper descendant of [root] in the class hierarchy. *)
Inductive descends (root : ServiceClass) : ServiceClass → Prop :=
  | descends_direct (c : ServiceClass) :
      c ∈ __subclasses__ root → descends root c
  | descends_below (x c : ServiceClass) :
      x ∈ __subclasses__ root → descends x c → descends root c.

(** A small hierarchy: two services under the root, one of them
    specialised. *)
Definition sample_hierarchy : ServiceClass :=
  MkServiceClass "BaseService" None
    [ MkServiceClass "DiagnosticSessionControl" (Some 0x10)
        [ MkServiceClass "VendorSessionControl" (Some 0x50) [] ];
      MkServiceClass "ResponseOnEvent" (Some 0x86) [] ].

(** A subfunction class with a range of reserved identifiers. *)
Definition RangedSubfunction : PyClass :=
  {| class_name := "RangedSubfunction";
     class_attributes :=
       [ ("get_name", MRoutine);
         ("hardReset", MValue (VInt 1));
         ("vehicleManufacturerSpecific", MTuple [VInt 0x40; VInt 0x5F]);
         ("__doc__", MObject) ]%string |}.

(** The number of placeholders in a text. *)
Definition placeholder_count (s : string) : nat :=
  length (filter (λ t, t = Placeholder) (tokens s)).

(** The text that a sequence of tokens stands for. *)
Fixpoint text_of_tokens (ts : list Token) : string :=
  match ts with
  | [] => EmptyString
  | Placeholder :: rest => PLACEHOLDER +:+ text_of_tokens rest
  | Char c :: rest => String c (text_of_tokens rest)
  end.

(** [s[1:]]. *)
Definition string_tail (s : string) : string :=
  match s with
  | EmptyString => EmptyString
  | String _ rest => rest
  end.

(** The value is an [int], a [bytes] or a [str]. *)
Definition is_exact (v : PyVal) : bool :=
  match v with
  | VInt _ | VBytes _ | VStr _ => true
  | _ => false
  end.

(** The float that a resolution or scaling factor of 1.0 is. *)
Definition float_one : float := Eval vm_compute in decimal 1 1.

(** The number is a zero: the int 0, [False] or a float zero. *)
Definition is_zero_number (v : PyVal) : bool :=
  match v with
  | VInt z => z =? 0
  | VBool b => negb b
  | VFloat f => float_is_zero f
  | _ => false
  end.

(** The integer code that a format consists of, if it is one. *)
Definition integer_code (fmt : string) : option (nat * bool) :=
  match fmt with
  | String c EmptyString =>
      match code_of_ascii c with
      | Some (CInt size signed) => Some (size, signed)
      | _ => None
      end
  | _ => None
  end.

(** The integers that the code of [size] bytes carries. *)
Definition in_int_range (size : nat) (signed : bool) (z : Z) : bool :=
  let bits := 8 * Z.of_nat size in
  if signed then (- 2 ^ (bits - 1) <=? z) && (z <? 2 ^ (bits - 1))
  else (0 <=? z) && (z <? 2 ^ bits).

(** The resolution is the int 1, so that nothing is scaled. *)
Definition unscaled (f : UdsField.t) : bool :=
  match UdsField.resolution f, UdsField.scale_factor f with
  | VInt r, VInt s => (r =? 1) && (s =? 1)
  | _, _ => false
  end.

(** The field is declared as one integer code without scaling, and the
    record holds for it an integer that the code carries. *)
Definition holds_integer (self : Instance) (f : UdsField.t) : bool :=
  match integer_code (UdsField.fmt f),
        getattribute self (UdsField.name f) with
  | Some (size, signed), Ok (VInt z) =>
      unscaled f && in_int_range size signed z
  | _, _ => false
  end.

(** A record type with integer parameters only, one of them for subfunction
    1. *)
Definition CounterServiceData : DataClass := Eval vm_compute in
  {| cls_name := "CounterServiceData";
     declared :=
       [ Uds (from_ok (uds_field "counter" (VInt 0) "H" [] (VInt 1)));
         Uds (from_ok (uds_field "offset" (VInt 0) "b" [1] (VInt 1)));
         PlainField "comment" (VStr "") ] |}.

Definition counter_record : Instance :=
  from_ok (new_instance CounterServiceData 1
                        [("counter"%string, VInt 513);
                         ("offset"%string, VInt (-2));
                         ("comment"%string, VStr "kept locally")]).

(** The integers from 0 to 255. *)
Definition byte_values : list Z := Z.of_nat <$> seq 0 256.

(** The float that an int converts to when it is in range. *)
Definition nearest_float (z : Z) : float := binary_normalize 53 1024 z 0 false.

(** The timing that two bytes of a response denote under a resolution: the
    big-endian number they form, as a float, times the resolution. *)
Definition timing (high low : byte) (resolution : float) : float :=
  fmul (nearest_float (from_bytes_big [high; low])) resolution.

(** A record type with a counter, a payload of variable length behind a
    one-byte length, and a checksum. *)
Definition FrameServiceData : DataClass := Eval vm_compute in
  {| cls_name := "FrameServiceData";
     declared :=
       [ Uds (from_ok (uds_field "counter" (VInt 0) "H" [] (VInt 1)));
         Uds (from_ok (uds_field "payload" (VBytes []) "B{}s" [] (VInt 1)));
         Uds (from_ok (uds_field "checksum" (VInt 0) "B" [] (VInt 1))) ] |}.

Definition frame_record : Instance :=
  from_ok (new_instance FrameServiceData NO_SUBFUNCTION
                        [("counter"%string, VInt 513);
                         ("payload"%string, VBytes [x0a; x0b; x0c]);
                         ("checksum"%string, VInt 255)]).

(** The order of two attributes by their names. *)
Definition name_order (a b : string * Member) : Prop := String.le a.1 b.1.

#[global] Instance name_order_dec : RelDecision name_order.
Proof. intros a b. unfold name_order. apply _. Defined.

#[global] Instance name_order_transitive : Transitive name_order.
Proof. intros a b c. unfold name_order. apply transitivity. Qed.

#[global] Instance name_order_total : Total name_order.
Proof. intros a b. unfold name_order. apply total, _. Qed.

(** The class has the attribute [name] with this value, the value is no
    routine and the name is not of the form [__x__]. *)
Definition public_attribute (cls : PyClass) (name : string) (value : Member)
  : Prop :=
  (name, value) ∈ class_attributes cls
  ∧ BaseSubfunction.isroutine value = false
  ∧ startswith name "__" && endswith name "__" = false.

(** A subfunction class in which two names stand for the identifier 2. *)
Definition AliasedSubfunction : PyClass :=
  {| class_name := "AliasedSubfunction";
     class_attributes :=
       [ ("programmingSession", MValue (VInt 2));
         ("defaultSession", MValue (VInt 1));
         ("bootSession", MValue (VInt 2));
         ("get_name", MRoutine) ]%string |}.

(** The field is declared as one integer code without scaling, and the
    record holds an int for it, within the range of the code or not. *)
Definition holds_int (self : Instance) (f : UdsField.t) : bool :=
  match integer_code (UdsField.fmt f),
        getattribute self (UdsField.name f) with
  | Some _, Ok (VInt _) => unscaled f
  | _, _ => false
  end.

Definition overflowing_record : Instance :=
  from_ok (new_instance CounterServiceData 1
                        [("counter"%string, VInt 65536);
                         ("offset"%string, VInt 0)]).

(** * Lemmas on the method monad *)

Lemma bind_run {A B} (m : Method A) (f : A → Method B) (self : Instance) :
  (m ≫= f) self
  = match m self with
    | (Ok a, self') => f a self'
    | (Raise e, self') => (Raise e, self')
    end.
Proof. reflexivity. Qed.

Lemma read_only_bind {A B} (m : Method A) (f : A → Method B) :
  read_only m → (∀ a, read_only (f a)) → read_only (m ≫= f).
Proof.
  intros Hm Hf self. rewrite bind_run. specialize (Hm self).
  destruct (m self) as [[a|e] s1]; cbn in Hm; subst s1; [apply Hf|done].
Qed.

Lemma read_only_ret {A} (a : A) : read_only (mret a).
Proof. done. Qed.

Lemma read_only_lift {A} (r : result A) : read_only (lift r).
Proof. done. Qed.

Lemma read_only_read_attr (name : string) : read_only (read_attr name).
Proof. done. Qed.

Lemma read_only_for_each {A B} (f : A → Method B) (l : list A) :
  (∀ a, read_only (f a)) → read_only (for_each f l).
Proof.
  intros Hf. induction l as [|a rest IH]; [apply read_only_ret|].
  cbn [for_each]. apply read_only_bind; [apply Hf|]. intros b.
  apply read_only_bind; [apply IH|]. intros bs. apply read_only_ret.
Qed.

Lemma read_only_scaled_args (names : list string) (factors : list PyVal) :
  read_only (ServiceData.scaled_args names factors).
Proof.
  apply read_only_for_each. intros [name scale].
  apply read_only_bind; [apply read_only_read_attr|].
  intros val. apply read_only_lift.
Qed.

Lemma scaled_args_run (names : list string) (factors : list PyVal)
    (self : Instance) :
  ServiceData.scaled_args names factors self
  = (sequence ((λ '(val, factor), v ← val; py_mul v factor)
               <$> zip (getattribute self <$> names) factors), self).
Proof.
  unfold ServiceData.scaled_args. revert factors.
  induction names as [|n names IH]; intros [|s factors]; try done.
  cbn [for_each fmap list_fmap zip zip_with sequence].
  rewrite !bind_run. change (read_attr n self) with (getattribute self n, self).
  destruct (getattribute self n) as [v|e]; [|done].
  change (lift (py_mul v s) self) with (py_mul v s, self).
  cbn [mbind result_bind].
  destruct (py_mul v s) as [x|e]; [|done].
  rewrite bind_run, IH.
  destruct (sequence _) as [xs|e]; done.
Qed.

(** The outcome of [pack] as a function of the receiver. *)
Lemma pack_eq (self : Instance) :
  ServiceData.pack self =
    let cls := type_of self in
    let sf := subfunction self in
    match ServiceData._iter_payload_fmt cls sf with
    | [] => Ok []
    | [fmt] => args ← scaled_values self; struct_pack fmt args
    | _ =>
        arg_list ← scaled_values self;
        let length_indexes := ServiceData.get_variadic_fields_indexes cls sf in
        lengths ← ServiceData.lengths_at arg_list length_indexes;
        fmt ← str_format (ServiceData.get_payload_fmt cls NO_SUBFUNCTION)
                         (str_of_int <$> lengths);
        struct_pack fmt
          (ServiceData.insert_lengths arg_list lengths length_indexes)
    end.
Proof.
  unfold ServiceData.pack, ServiceData.pack_method, scaled_values.
  rewrite bind_run. cbn [read_subfunction]. rewrite bind_run. cbn [read_type].
  cbn zeta.
  destruct (ServiceData._iter_payload_fmt _ _) as [|fmt [|fmt2 rest]] eqn:Hf.
  - done.
  - rewrite bool_decide_eq_false_2 by done.
    rewrite bind_run. cbn [read_subfunction].
    rewrite bind_run, scaled_args_run.
    unfold ServiceData.get_parameter_names, ServiceData.get_parameter_values.
    cbn [negb].
    destruct (sequence _) as [args|e]; done.
  - rewrite bool_decide_eq_false_2 by done.
    rewrite bind_run. cbn [read_subfunction].
    rewrite bind_run, scaled_args_run.
    unfold ServiceData.get_parameter_names, ServiceData.get_parameter_values.
    cbn [negb].
    destruct (sequence _) as [args|e]; [|done]. cbn [mbind result_bind].
    rewrite bind_run. unfold lift at 1.
    destruct (ServiceData.lengths_at _ _) as [lengths|e]; [|done].
    cbn [mbind result_bind].
    rewrite bind_run. unfold lift at 1.
    destruct (str_format _ _) as [fmt'|e]; done.
Qed.

(** Claim C10.  [pack] is read-only on its receiver: whatever the record and
    whatever the outcome (bytes or an exception), the record that the method
    leaves behind is the record it was called on, with the same type,
    subfunction and attribute values. *)
Theorem pack_leaves_receiver_unchanged (self : Instance) :
  (ServiceData.pack_method self).2 = self.
Proof.
  revert self. change (read_only ServiceData.pack_method).
  unfold ServiceData.pack_method.
  apply read_only_bind; [done|]. intros sf.
  apply read_only_bind; [done|]. intros cls. cbn zeta.
  case_bool_decide; [apply read_only_ret|].
  apply read_only_bind; [done|]. intros sf'.
  destruct (ServiceData._iter_payload_fmt cls sf) as [|fmt [|fmt2 rest]].
  - apply read_only_bind; [apply read_only_scaled_args|].
    intros; repeat (apply read_only_bind; [apply read_only_lift|]; intros).
    apply read_only_lift.
  - apply read_only_bind; [apply read_only_scaled_args|].
    intros; apply read_only_lift.
  - apply read_only_bind; [apply read_only_scaled_args|].
    intros; repeat (apply read_only_bind; [apply read_only_lift|]; intros).
    apply read_only_lift.
Qed.

(** * Filtering by subfunction *)

Lemma supports_subfonction_spec (f : UdsField.t) (n : Z) :
  UdsField.supports_subfonction f n = true ↔ applies_to n f.
Proof.
  unfold UdsField.supports_subfonction, applies_to.
  rewrite orb_true_iff, !bool_decide_eq_true. done.
Qed.

Lemma iter_parameter_fields_filter (cls : DataClass) (sf : Z) :
  ServiceData._iter_parameter_fields cls sf
  = filter (applies_to sf) (declared_uds_fields cls).
Proof.
  unfold ServiceData._iter_parameter_fields, declared_uds_fields.
  induction (fields cls) as [|[n d|u] rest IH]; [done| |].
  - cbn [omap list_omap ServiceData.as_uds_field]. apply IH.
  - cbn [omap list_omap ServiceData.as_uds_field]. rewrite filter_cons.
    destruct (UdsField.supports_subfonction u sf) eqn:Hs.
    + apply supports_subfonction_spec in Hs.
      rewrite decide_True by done. by rewrite IH.
    + rewrite decide_False; [apply IH|].
      intros Ha. apply supports_subfonction_spec in Ha. congruence.
Qed.

(** Claim C8.  For every record type and subfunction, [get_parameter_names]
    returns the names of exactly the declared fields whose applicable set is
    empty or contains the subfunction, in declaration order; and
    [supports_subfonction] holds of a field and [n] iff the field's applicable
    set is empty or contains [n]. *)
Theorem get_parameter_names_filters_in_declaration_order
    (cls : DataClass) (sf : Z) :
  ServiceData.get_parameter_names cls sf
  = UdsField.name <$> filter (applies_to sf) (declared_uds_fields cls)
  ∧ ∀ (f : UdsField.t) (n : Z),
      UdsField.supports_subfonction f n = true
      ↔ UdsField.subfunctions f = ∅ ∨ n ∈ UdsField.subfunctions f.
Proof.
  split.
  - unfold ServiceData.get_parameter_names, ServiceData._iter_parameter_names.
    by rewrite iter_parameter_fields_filter.
  - intros f n. apply supports_subfonction_spec.
Qed.

(** * Negative response codes *)

(** Claim C3, counterexample.  The claim fails under the ISO 14229 numbering: there 0x7F is
    ServiceNotSupportedInActiveSession, one of the always-valid codes, so the
    five answers of the claim do not hold together. *)
Lemma negative_response_0x7F_is_supported :
  ¬ (let supported :=
       BaseService.is_supported_negative_response iso14229
         (conditions_only_service iso14229) in
     supported 0x22 = true ∧ supported 0x10 = true ∧ supported 0x90 = true
     ∧ supported 0x7F = false
     ∧ supported (SubFunctionNotSupportedInActiveSession iso14229) = true).
Proof. cbv zeta. intros (_ & _ & _ & H & _). vm_compute in H. discriminate. Qed.

(** Claim C3, amended.  For a service that declares exactly ConditionsNotCorrect
    and uses a subfunction byte, whatever numbers the code table gives to the
    other codes: 0x22, 0x10, 0x90 and SubFunctionNotSupportedInActiveSession
    are supported; 0x7F is supported exactly when the table numbers an
    always-valid code or SubFunctionNotSupportedInActiveSession 0x7F; and it
    is supported under the ISO 14229 numbering. *)
Theorem negative_response_table (rc : ResponseCode) :
  ConditionsNotCorrect rc = 0x22 →
  GeneralReject rc = 0x10 →
  let supported :=
    BaseService.is_supported_negative_response rc (conditions_only_service rc) in
  supported 0x22 = true
  ∧ supported 0x10 = true
  ∧ supported 0x90 = true
  ∧ supported (SubFunctionNotSupportedInActiveSession rc) = true
  ∧ (supported 0x7F = true
     ↔ 0x7F ∈ BaseService.always_valid_negative_response rc
       ∨ SubFunctionNotSupportedInActiveSession rc = 0x7F)
  ∧ BaseService.is_supported_negative_response iso14229
      (conditions_only_service iso14229) 0x7F = true.
Proof.
  intros Hc Hg supported. subst supported.
  unfold BaseService.is_supported_negative_response, conditions_only_service.
  cbn [BaseService.supported_negative_response BaseService.use_subfunction
       BaseService._use_subfunction].
  rewrite Hc. repeat split.
  - rewrite (bool_decide_eq_true_2 (34 ∈ [34])) by (by apply list_elem_of_singleton).
    by repeat case_match.
  - rewrite (bool_decide_eq_true_2 (16 ∈ _)).
    + by repeat case_match.
    + unfold BaseService.always_valid_negative_response. rewrite Hg.
      apply elem_of_cons. by left.
  - rewrite (bool_decide_eq_true_2 (34 ∈ [34])) by (by apply list_elem_of_singleton).
    change ((128 <=? 144) && (144 <? 255) && true) with true.
    by repeat case_match.
  - rewrite Z.eqb_refl. done.
  - rewrite (bool_decide_eq_false_2 (127 ∈ [34]))
      by (by intros ?%list_elem_of_singleton).
    change ((128 <=? 127) && (127 <? 255) && _) with false.
    rewrite andb_true_r.
    destruct (bool_decide_reflect
                (127 ∈ BaseService.always_valid_negative_response rc)) as [Hin|Hin].
    + intros _. by left.
    + destruct (127 =? SubFunctionNotSupportedInActiveSession rc) eqn:He.
      * intros _. right. lia.
      * done.
  - rewrite (bool_decide_eq_false_2 (127 ∈ [34]))
      by (by intros ?%list_elem_of_singleton).
    change ((128 <=? 127) && (127 <? 255) && _) with false.
    rewrite andb_true_r. intros [Hin|He].
    + rewrite bool_decide_eq_true_2 by done. by case_match.
    + rewrite He, Z.eqb_refl. done.
Qed.

(** Claim C3, witness: the ISO 14229 numbering. *)
Lemma negative_response_table_witness :
  let supported :=
    BaseService.is_supported_negative_response iso14229
      (conditions_only_service iso14229) in
  supported 0x22 = true
  ∧ supported 0x10 = true
  ∧ supported 0x90 = true
  ∧ supported (SubFunctionNotSupportedInActiveSession iso14229) = true
  ∧ (supported 0x7F = true
     ↔ 0x7F ∈ BaseService.always_valid_negative_response iso14229
       ∨ SubFunctionNotSupportedInActiveSession iso14229 = 0x7F)
  ∧ BaseService.is_supported_negative_response iso14229
      (conditions_only_service iso14229) 0x7F = true.
Proof. apply (negative_response_table iso14229); reflexivity. Defined.

(** * Packing: the defects *)

(** Claim C2 (defect).  On a record with two variable-length fields the loop that inserts
    the lengths puts the second length before the first field's value, not
    before its own: the positions are those of the original list and are not
    shifted by the insertions already made.  The argument list no longer
    matches the format and [pack] ends in [struct.error]. *)
Theorem second_length_is_not_inserted_before_its_field :
  let arg_list := [VBytes [x0a]; VBytes [x0b; x0c]] in
  scaled_values double_variadic_record = Ok arg_list
  ∧ ServiceData.get_variadic_fields_indexes DoubleVariadicServiceData
      NO_SUBFUNCTION = [0; 1]%nat
  ∧ ServiceData.lengths_at arg_list [0; 1]%nat = Ok [1; 2]
  ∧ ServiceData.insert_lengths arg_list [1; 2] [0; 1]%nat
    = [VInt 1; VInt 2; VBytes [x0a]; VBytes [x0b; x0c]]
  ∧ str_format
      (ServiceData.get_payload_fmt DoubleVariadicServiceData NO_SUBFUNCTION)
      (str_of_int <$> [1; 2]) = Ok ">h1sh2s"%string
  ∧ ServiceData.pack double_variadic_record = Raise StructError.
Proof. vm_compute. repeat split; reflexivity. Qed.

(** Claim C1 (defect).  A record whose variable-length field belongs to subfunction 1 does
    not survive the round trip: [pack] splits the format of the record's own
    subfunction into chunks but formats and packs with the layout of
    subfunction 0, and ends in [struct.error]; no bytes exist to unpack. *)
Theorem round_trip_fails_for_subfunction_variadic_record :
  ServiceData._iter_payload_fmt SubfunctionVariadicServiceData 1
  = [">dh"; ">{}s"]%string
  ∧ ServiceData.get_payload_fmt SubfunctionVariadicServiceData NO_SUBFUNCTION
    = ">d"%string
  ∧ ServiceData.pack subfunction_variadic_record = Raise StructError
  ∧ ¬ ∃ (data : bytes) (unpacked : Instance),
        ServiceData.pack subfunction_variadic_record = Ok data
        ∧ ServiceData.unpack SubfunctionVariadicServiceData (Some data) 1
          = Ok unpacked
        ∧ ServiceData.__eq__ unpacked
            (ServiceDataObject subfunction_variadic_record)
          = Ok (Answer true).
Proof.
  assert (ServiceData.pack subfunction_variadic_record = Raise StructError)
    as Hp by (vm_compute; reflexivity).
  split; [vm_compute; reflexivity|].
  split; [vm_compute; reflexivity|].
  split; [exact Hp|].
  intros (data & unpacked & H & _). rewrite Hp in H. discriminate.
Qed.

(** * Scaling *)

Lemma py_mul_float_factor (v : PyVal) (s : float) :
  (∃ e, py_mul v (VFloat s) = Raise e) ∨ (∃ f, py_mul v (VFloat s) = Ok (VFloat f)).
Proof.
  destruct v as [z|b|f|b|str]; cbn [py_mul py_index].
  - destruct (float_of_Z z); cbn; eauto.
  - destruct (float_of_Z (Z.b2z b)); cbn; eauto.
  - eauto.
  - eauto.
  - eauto.
Qed.

Lemma pack_int_rejects_float (size : nat) (signed : bool) (f : float) :
  pack_slot (SOne (CInt size signed)) (VFloat f) = Raise StructError.
Proof. reflexivity. Qed.

Lemma supports_every_subfunction (f : UdsField.t) (sf : Z) :
  UdsField.subfunctions f = ∅ → UdsField.supports_subfonction f sf = true.
Proof. intros H. apply supports_subfonction_spec. by left. Qed.

(** Claim C7 (defect).  A field with an integer format token and a non-unit resolution
    cannot be packed at all: its scale factor is a float, the scaled value is
    a float whatever the value was, and [struct] refuses a float for an
    integer code.  For [ResponseDataPost2006] (format [H], resolutions 0.001
    and 0.01) [pack] raises for every subfunction and every assignment of
    attribute values; on the defaults the error is [struct.error]. *)
Theorem scaled_integer_fields_cannot_be_packed :
  (∀ (v : PyVal) (s : float) (size : nat) (signed : bool),
     ∃ e, (x ← py_mul v (VFloat s); pack_slot (SOne (CInt size signed)) x)
          = Raise e)
  ∧ (∀ (sf : Z) (values : gmap string PyVal),
       ∃ e, ServiceData.pack {| type_of := ResponseDataPost2006;
                                subfunction := sf;
                                attrs := values |} = Raise e)
  ∧ ServiceData.pack post2006_record = Raise StructError.
Proof.
  split; [|split].
  - intros v s size signed.
    destruct (py_mul_float_factor v s) as [[e ->]|[f ->]]; cbn; eauto.
  - intros sf values. rewrite pack_eq. cbn [type_of subfunction].
    assert (ServiceData._iter_parameter_fields ResponseDataPost2006 sf
            = declared_uds_fields ResponseDataPost2006) as Hfields.
    { unfold ServiceData._iter_parameter_fields, declared_uds_fields.
      cbn [fields ResponseDataPost2006 declared subfunction_field
           omap list_omap ServiceData.as_uds_field].
      rewrite !supports_every_subfunction by reflexivity. reflexivity. }
    assert (ServiceData._iter_payload_fmt ResponseDataPost2006 sf
            = [">HH"%string]) as ->.
    { unfold ServiceData._iter_payload_fmt, ServiceData.joined_fmt.
      rewrite Hfields. reflexivity. }
    unfold scaled_values, ServiceData.get_parameter_values,
      ServiceData._iter_parameter_names,
      ServiceData.get_parameter_scaling_factors.
    cbn [type_of subfunction negb]. rewrite Hfields.
    cbn [declared_uds_fields fields ResponseDataPost2006 declared
         subfunction_field omap list_omap fmap list_fmap zip zip_with
         sequence UdsField.name UdsField.scale_factor].
    destruct (getattribute _ "p2_server_max") as [v1|e]; [|cbn; eauto].
    cbn [mbind result_bind].
    match goal with
    | |- context [py_mul v1 (VFloat ?s)] =>
        destruct (py_mul_float_factor v1 s) as [[e H1]|[f1 H1]]; rewrite H1
    end; [cbn; eauto|].
    cbn [mbind result_bind].
    destruct (getattribute _ "p2_star_server_max") as [v2|e]; [|cbn; eauto].
    cbn [mbind result_bind].
    match goal with
    | |- context [py_mul v2 (VFloat ?s)] =>
        destruct (py_mul_float_factor v2 s) as [[e H2]|[f2 H2]]; rewrite H2
    end; [cbn; eauto|].
    cbn [mbind result_bind]. eexists. reflexivity.
  - vm_compute. reflexivity.
Qed.

(** * Equality *)

Lemma keeps_base_eq_declared (cls : DataClass) :
  keeps_base_eq cls = true → declared cls = [].
Proof.
  unfold keeps_base_eq. rewrite orb_true_iff, !bool_decide_eq_true.
  by intros [-> | ->].
Qed.

Lemma keeps_base_eq_iff (cls : DataClass) :
  keeps_base_eq cls = true ↔ cls = ServiceDataBase ∨ cls = EmptyServiceData.
Proof.
  unfold keeps_base_eq. by rewrite orb_true_iff, !bool_decide_eq_true.
Qed.

(** The method of the base class answers true for a receiver without
    fields: the [zip] is empty. *)
Lemma base_eq_without_fields (self other : Instance) :
  declared (type_of self) = [] →
  ServiceData.__eq__ self (ServiceDataObject other) = Ok (Answer true).
Proof.
  intros Hd. unfold ServiceData.__eq__, ServiceData.get_parameter_items,
    ServiceData.get_parameter_names, ServiceData._iter_parameter_names,
    ServiceData._iter_parameter_fields, fields.
  rewrite Hd. reflexivity.
Qed.

Lemma class_eq_kept (self other : Instance) :
  keeps_base_eq (type_of self) = true →
  class_eq (type_of self) self (ServiceDataObject other) = Ok (Answer true).
Proof.
  intros Hi. unfold class_eq. rewrite Hi.
  apply base_eq_without_fields. by apply keeps_base_eq_declared.
Qed.

Lemma class_eq_generated_other_type (self other : Instance) :
  keeps_base_eq (type_of self) = false →
  type_of other ≠ type_of self →
  class_eq (type_of self) self (ServiceDataObject other) = Ok NotImplemented.
Proof.
  intros Hi Ht. unfold class_eq. rewrite Hi. unfold dataclass_eq.
  by rewrite bool_decide_false.
Qed.








(** Claim C9, counterexample.  The items of [AdvancedServiceData()] at the
    default subfunction are a prefix of the items of [SimpleServiceData()],
    yet the two records are unequal, in either order: both record types are
    declared with [@dataclass], and the generated [__eq__] answers only to
    a record of the same type.  For the same reason a record of such a type
    that has no item at the default subfunction is unequal to a record of
    another type. *)
Lemma item_prefix_does_not_make_records_equal :
  evaluated_items advanced_default NO_SUBFUNCTION
  = Ok [("an_int"%string, VInt 42)]
  ∧ evaluated_items simple_record NO_SUBFUNCTION
    = Ok [("an_int"%string, VInt 42);
          ("a_float"%string, VFloat (decimal 314 100))]
  ∧ items_equal [("an_int"%string, VInt 42)]
                (take 1 [("an_int"%string, VInt 42);
                         ("a_float"%string, VFloat (decimal 314 100))])
  ∧ record_eq advanced_default (ServiceDataObject simple_record) = Ok false
  ∧ record_eq simple_record (ServiceDataObject advanced_default) = Ok false
  ∧ evaluated_items subfunction_only_record NO_SUBFUNCTION = Ok []
  ∧ record_eq subfunction_only_record (ServiceDataObject simple_record)
    = Ok false.
Proof.
  split; [vm_compute; reflexivity|].
  split; [vm_compute; reflexivity|].
  split; [repeat constructor|].
  repeat split; vm_compute; reflexivity.
Qed.

(** Claim C9, amended.  A record of [ServiceData] itself or of
    [EmptyServiceData] is equal ([==]) to every [ServiceData] record, on
    either side of the operator, whatever the type and the field values of
    the other record: one of the two calls that [==] makes reaches
    [ServiceData.__eq__] with the record as receiver, and the truncating zip
    over its empty item sequence compares nothing. *)
Theorem base_and_empty_records_equal_every_record (a b : Instance) :
  type_of a = ServiceDataBase ∨ type_of a = EmptyServiceData →
  record_eq a (ServiceDataObject b) = Ok true
  ∧ record_eq b (ServiceDataObject a) = Ok true.
Proof.
  intros Ha. apply keeps_base_eq_iff in Ha.
  pose proof (class_eq_kept a b Ha) as Hab.
  assert (Hba : class_eq (type_of b) b (ServiceDataObject a)
                = Ok (Answer true)
                ∨ class_eq (type_of b) b (ServiceDataObject a)
                  = Ok NotImplemented).
  { destruct (keeps_base_eq (type_of b)) eqn:Hb.
    - left. by apply class_eq_kept.
    - right. apply class_eq_generated_other_type; [done|].
      intros Heq. congruence. }
  unfold record_eq. split.
  - destruct (is_proper_subclass _ _); rewrite Hab;
      [destruct Hba as [-> | ->]|]; reflexivity.
  - destruct (is_proper_subclass _ _); rewrite Hab;
      [|destruct Hba as [-> | ->]]; reflexivity.
Qed.

(** Claim C9, witness: an [EmptyServiceData] record against a
    [SimpleServiceData] record. *)
Lemma base_and_empty_records_equal_every_record_witness :
  record_eq empty_record (ServiceDataObject simple_record) = Ok true
  ∧ record_eq simple_record (ServiceDataObject empty_record) = Ok true.
Proof.
  apply (base_and_empty_records_equal_every_record empty_record simple_record).
  right. reflexivity.
Defined.




(** * Unpacking: the two missing-data errors *)

Lemma never_value_error_bind {A B} (r : result A) (f : A → result B) :
  never_value_error r → (∀ a, never_value_error (f a)) →
  never_value_error (r ≫= f).
Proof.
  intros Hr Hf. destruct r as [a|e]; [apply Hf|].
  intros [= ->]. by apply Hr.
Qed.

Lemma never_value_error_fmap {A B} (r : result A) (f : A → B) :
  never_value_error r → never_value_error (f <$> r).
Proof.
  intros Hr. destruct r as [a|e]; [done|]. intros [= ->]. by apply Hr.
Qed.

Lemma never_value_error_ok {A} (a : A) : never_value_error (Ok a).
Proof. done. Qed.

Lemma never_value_error_sequence {A} (l : list (result A)) :
  Forall never_value_error l → never_value_error (sequence l).
Proof.
  induction 1 as [|r l Hr Hl IH]; [done|]. cbn [sequence].
  apply never_value_error_bind; [done|]. intros a.
  apply never_value_error_bind; [done|]. done.
Qed.

Lemma parse_codes_never_value_error (s : string) (num : option Z) :
  never_value_error (parse_codes s num).
Proof.
  revert num. induction s as [|c s IH]; intros num; cbn [parse_codes].
  - by destruct num.
  - repeat case_match; try done; try apply IH.
    all: apply never_value_error_bind; [apply IH|done].
Qed.

Lemma struct_compile_never_value_error (fmt : string) :
  never_value_error (struct_compile fmt).
Proof.
  unfold struct_compile. repeat case_match; try done.
  apply never_value_error_bind; [apply parse_codes_never_value_error|].
  intros items. by case_match.
Qed.

Lemma struct_unpack_never_value_error (fmt : string) (data : bytes) :
  never_value_error (struct_unpack fmt data).
Proof.
  unfold struct_unpack.
  apply never_value_error_bind; [apply struct_compile_never_value_error|].
  intros items. by case_match.
Qed.

Lemma struct_calcsize_never_value_error (fmt : string) :
  never_value_error (struct_calcsize fmt).
Proof.
  apply never_value_error_fmap, struct_compile_never_value_error.
Qed.

Lemma float_of_Z_never_value_error (z : Z) : never_value_error (float_of_Z z).
Proof. unfold float_of_Z. by case_match. Qed.

Lemma py_mul_never_value_error (a b : PyVal) : never_value_error (py_mul a b).
Proof.
  assert (∀ A (l : list A) n, never_value_error (seq_repeat l n)) as Hseq.
  { intros A l n. unfold seq_repeat. by case_match. }
  assert (∀ s n, never_value_error (str_repeat s n)) as Hstr.
  { intros s n. unfold str_repeat. by case_match. }
  destruct a, b; cbn [py_mul py_index]; try done;
    try (apply never_value_error_bind;
         [apply float_of_Z_never_value_error|done]);
    try (apply never_value_error_fmap; first [apply Hseq|apply Hstr]).
Qed.

Lemma scaled_kwargs_never_value_error (names : list string)
    (args resolutions : list PyVal) :
  never_value_error (ServiceData.scaled_kwargs names args resolutions).
Proof.
  revert args resolutions.
  induction names as [|k names IH]; intros [|v args] [|res resolutions];
    cbn [ServiceData.scaled_kwargs]; try done.
  apply never_value_error_bind; [apply py_mul_never_value_error|]. intros x.
  apply never_value_error_bind; [apply IH|done].
Qed.

Lemma new_instance_never_value_error (cls : DataClass) (sf : Z)
    (kwargs : list (string * PyVal)) :
  never_value_error (new_instance cls sf kwargs).
Proof. unfold new_instance. by case_match. Qed.

Lemma str_format_never_value_error (s : string) (args : list string) :
  never_value_error (str_format s args).
Proof.
  unfold str_format. generalize (tokens s) as ts. intros ts. revert args.
  induction ts as [|[|c] ts IH]; intros args; cbn [format_tokens]; [done| |].
  - destruct args as [|a args]; [done|].
    apply never_value_error_bind; [apply IH|done].
  - destruct (is_brace c); [done|].
    apply never_value_error_bind; [apply IH|done].
Qed.

Lemma unpack_chunks_never_value_error (pairs : list (string * Z))
    (data : bytes) (start_index end_index : Z) (args : list PyVal) :
  never_value_error
    (ServiceData.unpack_chunks pairs data start_index end_index args).
Proof.
  revert start_index end_index args.
  induction pairs as [|[fmt size] pairs IH]; intros start_index end_index args;
    cbn [ServiceData.unpack_chunks]; [done|].
  apply never_value_error_bind.
  - destruct (ServiceData.pop_last args) as [[args' next_length]|]; [|done].
    destruct next_length; try done;
      (apply never_value_error_bind;
       [apply str_format_never_value_error|done]).
  - intros [[fmt' end_index'] args'].
    apply never_value_error_bind; [apply struct_unpack_never_value_error|].
    intros values. apply IH.
Qed.

Lemma get_fmt_size_pairs_never_value_error (cls : DataClass) :
  never_value_error (ServiceData._get_fmt_size_pairs cls).
Proof.
  unfold ServiceData._get_fmt_size_pairs.
  apply never_value_error_sequence, Forall_fmap, Forall_true. intros fmt.
  cbn. apply never_value_error_bind;
    [apply struct_calcsize_never_value_error|done].
Qed.

Lemma new_instance_default (cls : DataClass) :
  new_instance cls NO_SUBFUNCTION [] = Ok (default_record cls).
Proof.
  unfold new_instance, default_record. cbn [forallb].
  change (reverse []) with (@nil (string * PyVal)).
  rewrite list_to_map_nil. by rewrite (left_id_L ∅ (∪)).
Qed.

(** Claim C5.  [unpack] raises the [ValueError] of missing data in exactly two
    situations: no parameter applies to the subfunction but bytes were
    supplied, and parameters apply but no bytes were supplied.  With no
    applicable parameter and no bytes it returns the record of defaults.
    (The hypothesis keeps [str.format] on the placeholder syntax that the
    embedding covers.) *)
Theorem unpack_raises_missing_data_in_two_situations
    (cls : DataClass) (data : option bytes) (sf : Z) :
  only_placeholder_braces (ServiceData.get_payload_fmt cls NO_SUBFUNCTION)
  = true →
  (ServiceData.unpack cls data sf = Raise ValueError
   ↔ (ServiceData.get_parameter_names cls sf = []
      ∧ ServiceData.data_given data = true)
     ∨ (ServiceData.get_parameter_names cls sf ≠ []
        ∧ ServiceData.data_given data = false))
  ∧ (ServiceData.get_parameter_names cls sf = [] →
     ServiceData.data_given data = false →
     ServiceData.unpack cls data sf = Ok (default_record cls)).
Proof.
  intros _. unfold ServiceData.unpack. cbn zeta.
  destruct (decide (ServiceData.get_parameter_names cls sf = [])) as [Hn|Hn].
  - rewrite bool_decide_eq_true_2 by done.
    destruct (ServiceData.data_given data) eqn:Hd.
    + split; [|done]. split; [by left|done].
    + split; [|intros _ _; apply new_instance_default].
      rewrite new_instance_default. split; [done|].
      intros [[_ ?]|[? _]]; done.
  - rewrite bool_decide_eq_false_2 by done.
    destruct (ServiceData.data_given data) eqn:Hd; cbn [negb].
    + split; [|done]. split; [|intros [[? _]|[_ ?]]; done].
      intros Hraise. exfalso. revert Hraise.
      destruct (ServiceData._iter_payload_fmt cls sf) as [|fmt [|fmt2 rest]].
      * apply never_value_error_bind;
          [apply get_fmt_size_pairs_never_value_error|]. intros pairs.
        apply never_value_error_bind;
          [apply unpack_chunks_never_value_error|]. intros args.
        apply never_value_error_bind;
          [apply scaled_kwargs_never_value_error|]. intros kwargs.
        apply new_instance_never_value_error.
      * apply never_value_error_bind;
          [apply struct_unpack_never_value_error|]. intros args.
        apply never_value_error_bind;
          [apply scaled_kwargs_never_value_error|]. intros kwargs.
        apply new_instance_never_value_error.
      * apply never_value_error_bind;
          [apply get_fmt_size_pairs_never_value_error|]. intros pairs.
        apply never_value_error_bind;
          [apply unpack_chunks_never_value_error|]. intros args.
        apply never_value_error_bind;
          [apply scaled_kwargs_never_value_error|]. intros kwargs.
        apply new_instance_never_value_error.
    + split; [|done]. split; [by right|done].
Qed.

(** Claim C5, witness: the four combinations on [EmptyServiceData] and
    [SimpleServiceData]. *)
Lemma unpack_raises_missing_data_in_two_situations_witness :
  ServiceData.unpack EmptyServiceData (Some [x01]) NO_SUBFUNCTION
  = Raise ValueError
  ∧ ServiceData.unpack SimpleServiceData (Some []) NO_SUBFUNCTION
    = Raise ValueError
  ∧ ServiceData.unpack SimpleServiceData None NO_SUBFUNCTION
    = Raise ValueError
  ∧ ServiceData.unpack EmptyServiceData None NO_SUBFUNCTION
    = Ok (default_record EmptyServiceData).
Proof.
  split; [|split; [|split]].
  - apply (unpack_raises_missing_data_in_two_situations
             EmptyServiceData (Some [x01]) NO_SUBFUNCTION); [reflexivity|].
    left. split; reflexivity.
  - apply (unpack_raises_missing_data_in_two_situations
             SimpleServiceData (Some []) NO_SUBFUNCTION); [reflexivity|].
    right. split; [discriminate|reflexivity].
  - apply (unpack_raises_missing_data_in_two_situations
             SimpleServiceData None NO_SUBFUNCTION); [reflexivity|].
    right. split; [discriminate|reflexivity].
  - apply (unpack_raises_missing_data_in_two_situations
             EmptyServiceData None NO_SUBFUNCTION); reflexivity.
Defined.

(** * Lemmas on strings and tokens *)

Lemma string_forall_app (p : ascii → bool) (s1 s2 : string) :
  string_forall p (s1 +:+ s2) = string_forall p s1 && string_forall p s2.
Proof.
  induction s1 as [|c s1 IH]; [done|].
  change (String c s1 +:+ s2) with (String c (s1 +:+ s2)).
  cbn [string_forall]. rewrite IH. by rewrite andb_assoc.
Qed.

Lemma string_forall_impl (p q : ascii → bool) (s : string) :
  (∀ c, p c = true → q c = true) →
  string_forall p s = true → string_forall q s = true.
Proof.
  intros Hpq. induction s as [|c s IH]; [done|]. cbn.
  rewrite !andb_true_iff. intros [??]. auto.
Qed.

Lemma append_nil_r (s : string) : s +:+ "" = s.
Proof.
  induction s as [|c s IH]; [done|].
  change (String c s +:+ "") with (String c (s +:+ "")). by rewrite IH.
Qed.

Lemma append_assoc (s1 s2 s3 : string) :
  (s1 +:+ s2) +:+ s3 = s1 +:+ s2 +:+ s3.
Proof.
  induction s1 as [|c s1 IH]; [done|].
  change (String c (s1 +:+ s2) +:+ s3 = String c (s1 +:+ s2 +:+ s3)).
  change (String c ((s1 +:+ s2) +:+ s3) = String c (s1 +:+ s2 +:+ s3)).
  by rewrite IH.
Qed.

Lemma concat_app (l1 l2 : list string) :
  String.concat "" (l1 ++ l2) = String.concat "" l1 +:+ String.concat "" l2.
Proof.
  induction l1 as [|h [|h' t] IH].
  - done.
  - cbn [app]. destruct l2 as [|h2 t2].
    + cbn. by rewrite append_nil_r.
    + done.
  - change (String.concat "" ((h :: h' :: t) ++ l2))
      with (h +:+ "" +:+ String.concat "" ((h' :: t) ++ l2)).
    rewrite IH. cbn [String.concat]. cbn [String.append].
    by rewrite append_assoc.
Qed.

Lemma concat_cons (h : string) (t : list string) :
  String.concat "" (h :: t) = h +:+ String.concat "" t.
Proof. apply (concat_app [h] t). Qed.

Lemma is_placeholder_not_brace (c c' : ascii) :
  is_brace c = false → is_placeholder c c' = false.
Proof.
  unfold is_brace, is_placeholder. intros [H _]%orb_false_iff. by rewrite H.
Qed.

Lemma tokens_cons_not_brace (c : ascii) (s : string) :
  is_brace c = false → tokens (String c s) = Char c :: tokens s.
Proof.
  intros Hc. cbn [tokens]. destruct s as [|c' s']; [done|].
  by rewrite is_placeholder_not_brace.
Qed.

Lemma tokens_app (s1 s2 : string) :
  brace_free s1 = true → tokens (s1 +:+ s2) = char_tokens s1 ++ tokens s2.
Proof.
  unfold brace_free. induction s1 as [|c s1 IH]; [done|].
  cbn [string_forall]. intros [Hc Hs]%andb_true_iff.
  apply negb_true_iff in Hc.
  change (String c s1 +:+ s2) with (String c (s1 +:+ s2)).
  rewrite tokens_cons_not_brace by done. cbn [char_tokens app].
  by rewrite IH.
Qed.

Lemma tokens_brace_free (s : string) :
  brace_free s = true → tokens s = char_tokens s.
Proof.
  intros H. rewrite <- (append_nil_r s) at 1.
  rewrite tokens_app by done. apply app_nil_r.
Qed.

Lemma tokens_placeholder (s : string) :
  tokens ("{}" +:+ s) = Placeholder :: tokens s.
Proof. reflexivity. Qed.

Lemma split_tokens_chars (s : string) (ts : list Token) :
  split_tokens (char_tokens s ++ Placeholder :: ts) = s :: split_tokens ts.
Proof.
  induction s as [|c s IH]; [done|]. cbn [char_tokens app split_tokens].
  by rewrite IH.
Qed.

Lemma split_tokens_chars_only (s : string) :
  split_tokens (char_tokens s) = [s].
Proof.
  induction s as [|c s IH]; [done|]. cbn [char_tokens split_tokens].
  by rewrite IH.
Qed.

Lemma format_tokens_chars (s : string) (ts : list Token) (args : list string) :
  brace_free s = true →
  format_tokens (char_tokens s ++ ts) args
  = r ← format_tokens ts args; Ok (s +:+ r).
Proof.
  unfold brace_free. induction s as [|c s IH].
  - intros _. cbn [char_tokens app]. by destruct (format_tokens ts args).
  - cbn [string_forall]. intros [Hc Hs]%andb_true_iff.
    apply negb_true_iff in Hc. cbn [char_tokens app format_tokens].
    rewrite Hc, IH by done. by destruct (format_tokens ts args).
Qed.

Lemma char_tokens_no_placeholder (s : string) : Placeholder ∉ char_tokens s.
Proof.
  induction s as [|c s IH]; cbn [char_tokens]; [by apply not_elem_of_nil|].
  apply not_elem_of_cons. done.
Qed.

Lemma contains_placeholder_brace_free (s : string) :
  brace_free s = true → contains_placeholder s = false.
Proof.
  intros H. unfold contains_placeholder. rewrite tokens_brace_free by done.
  apply bool_decide_eq_false_2, char_tokens_no_placeholder.
Qed.

(** * Lemmas on the format scanner *)

Lemma code_char (c : ascii) (k : Code) :
  code_of_ascii c = Some k →
  is_digit c = false ∧ is_space c = false ∧ format_char c = true.
Proof.
  destruct c as [[] [] [] [] [] [] [] []]; intros H;
    try discriminate H; by vm_compute.
Qed.

Lemma digit_char (c : ascii) :
  is_digit c = true → format_char c = true ∧ 0 ≤ digit_val c ≤ 9.
Proof.
  destruct c as [[] [] [] [] [] [] [] []]; intros H;
    try discriminate H; by vm_compute.
Qed.

Lemma space_char (c : ascii) : is_space c = true → format_char c = true.
Proof.
  destruct c as [[] [] [] [] [] [] [] []]; intros H;
    try discriminate H; by vm_compute.
Qed.

Lemma parse_codes_chars (s : string) (num : option Z) (items : list Item) :
  parse_codes s num = Ok items → string_forall format_char s = true.
Proof.
  revert num items. induction s as [|c s IH]; intros num items; [done|].
  cbn [parse_codes string_forall].
  destruct (is_digit c) eqn:Hd.
  - destruct (digit_char c Hd) as [-> _]. case_match; [done|]. apply IH.
  - destruct (is_space c && bool_decide (num = None)) eqn:Hs.
    + apply andb_true_iff in Hs as [Hs _]. rewrite (space_char c Hs). apply IH.
    + destruct (code_of_ascii c) as [k|] eqn:Hk; [|done].
      destruct (code_char c k Hk) as (_ & _ & ->).
      destruct (parse_codes s None) as [items'|e] eqn:Hp.
      * intros _. by eapply IH.
      * by destruct k.
Qed.

Lemma format_char_brace_free (s : string) :
  string_forall format_char s = true → brace_free s = true.
Proof.
  apply string_forall_impl. intros c. unfold format_char.
  by intros [_ ?]%andb_true_iff.
Qed.

Lemma parse_codes_app (s1 s2 : string) (num : option Z) (items : list Item) :
  parse_codes s1 num = Ok items →
  parse_codes (s1 +:+ s2) num
  = rest ← parse_codes s2 None; Ok (items ++ rest).
Proof.
  revert num items. induction s1 as [|c s1 IH]; intros num items.
  - cbn [parse_codes]. destruct num; [done|]. intros [= <-].
    change ("" +:+ s2) with s2. by destruct (parse_codes s2 None).
  - change (String c s1 +:+ s2) with (String c (s1 +:+ s2)).
    cbn [parse_codes].
    destruct (is_digit c); [case_match; [done|apply IH]|].
    destruct (is_space c && bool_decide (num = None)); [apply IH|].
    destruct (code_of_ascii c) as [k|]; [|done].
    destruct (parse_codes s1 None) as [items'|e] eqn:Hp.
    + rewrite (IH None items' Hp).
      destruct k; try done; intros [= <-];
        by destruct (parse_codes s2 None).
    + by destruct k.
Qed.

Lemma pretty_digit (d : N) :
  (d < 10)%N →
  is_digit (pretty_N_char d) = true
  ∧ digit_val (pretty_N_char d) = Z.of_N d.
Proof.
  intros Hd.
  assert (d = 0 ∨ d = 1 ∨ d = 2 ∨ d = 3 ∨ d = 4 ∨ d = 5 ∨ d = 6
          ∨ d = 7 ∨ d = 8 ∨ d = 9)%N as H by lia.
  repeat (destruct H as [->|H]; [by vm_compute|]). subst. by vm_compute.
Qed.

Lemma pretty_N_go_app (x : N) (acc s : string) :
  pretty_N_go x acc +:+ s = pretty_N_go x (acc +:+ s).
Proof.
  revert acc. induction (N.lt_wf_0 x) as [x _ IH]; intros acc.
  destruct (decide (x = 0)%N) as [->|Hx]; [by rewrite !pretty_N_go_0|].
  rewrite (pretty_N_go_step x acc), (pretty_N_go_step x (acc +:+ s)) by lia.
  rewrite IH by (apply N.div_lt; lia). reflexivity.
Qed.

Lemma parse_codes_pretty_N (x : N) (s : string) :
  (0 < x)%N → Z.of_N x ≤ PY_SSIZE_T_MAX →
  parse_codes (pretty_N_go x s) None = parse_codes s (Some (Z.of_N x)).
Proof.
  revert s. induction (N.lt_wf_0 x) as [x _ IH]; intros s Hx Hmax.
  rewrite pretty_N_go_step by done.
  assert (x `mod` 10 < 10)%N as Hd by (apply N.mod_lt; lia).
  destruct (pretty_digit _ Hd) as [Hdig Hval].
  assert (Z.of_N x = 10 * Z.of_N (x `div` 10) + Z.of_N (x `mod` 10)) as Hx10.
  { rewrite (N.div_mod x 10) at 1 by lia. lia. }
  destruct (decide (x `div` 10 = 0)%N) as [H0|H0].
  - rewrite H0, pretty_N_go_0. cbn [parse_codes]. rewrite Hdig, Hval.
    cbn [default from_option id]. rewrite H0 in Hx10.
    replace (10 * 0 + Z.of_N (x `mod` 10)) with (Z.of_N x) by lia.
    by rewrite (proj2 (Z.ltb_ge _ _)) by lia.
  - assert (x `div` 10 < x)%N as Hlt by (apply N.div_lt; lia).
    rewrite IH; [|done|lia|lia].
    cbn [parse_codes]. rewrite Hdig, Hval. cbn [default from_option id].
    rewrite <- Hx10. by rewrite (proj2 (Z.ltb_ge _ _)) by lia.
Qed.

(** A decimal count in front of a format is scanned as that count. *)
Lemma parse_codes_count (n : Z) (s : string) :
  0 ≤ n ≤ PY_SSIZE_T_MAX →
  parse_codes (str_of_int n +:+ s) None = parse_codes s (Some n).
Proof.
  intros Hn. unfold str_of_int, pretty, pretty_Z.
  destruct n as [|p|p]; [| |lia].
  - change (parse_codes (String "0" s) None = parse_codes s (Some 0)).
    reflexivity.
  - unfold pretty, pretty_positive, pretty, pretty_N.
    rewrite decide_False by done.
    rewrite pretty_N_go_app. change ("" +:+ s) with s.
    rewrite parse_codes_pretty_N; [done|lia|].
    change (Z.of_N (N.pos p)) with (Z.pos p). apply Hn.
Qed.

Lemma parse_codes_counts (s : string) (num : option Z) (items : list Item) :
  parse_codes s num = Ok items →
  (∀ n, num = Some n → 0 ≤ n) →
  Forall (λ it, 0 ≤ it_count it) items.
Proof.
  revert num items. induction s as [|c s IH]; intros num items.
  - cbn [parse_codes]. destruct num; [done|]. intros [= <-] _. constructor.
  - cbn [parse_codes]. destruct (is_digit c) eqn:Hd.
    + case_match; [done|]. intros Hp Hnum. eapply IH; [exact Hp|].
      intros n [= <-]. destruct (digit_char c Hd) as [_ ?].
      destruct num as [m|]; cbn [default from_option id]; [|lia].
      specialize (Hnum m eq_refl). lia.
    + destruct (is_space c && bool_decide (num = None)).
      { intros Hp _. eapply IH; [exact Hp|]. done. }
      destruct (code_of_ascii c) as [k|]; [|done].
      destruct (parse_codes s None) as [items'|e] eqn:Hp; [|by destruct k].
      intros Hk Hnum.
      assert (items = {| it_code := k; it_count := default 1 num |} :: items')
        as -> by (destruct k; cbn in Hk; congruence).
      constructor; [|by eapply IH].
      cbn [it_count]. destruct num as [m|]; cbn [default from_option id]; [|lia].
      by apply Hnum.
Qed.

(** * Lemmas on [struct.pack] *)

Lemma sequence_app {A} (l1 l2 : list (result A)) :
  sequence (l1 ++ l2)
  = xs ← sequence l1; ys ← sequence l2; Ok (xs ++ ys).
Proof.
  induction l1 as [|r l1 IH]; cbn [app sequence].
  - cbn. by destruct (sequence l2).
  - destruct r as [a|e]; [|done]. cbn [mbind result_bind]. rewrite IH.
    destruct (sequence l1) as [xs|e]; [|done]. cbn [mbind result_bind].
    by destruct (sequence l2).
Qed.

Lemma sequence_length {A} (l : list (result A)) (xs : list A) :
  sequence l = Ok xs → length xs = length l.
Proof.
  revert xs. induction l as [|r l IH]; intros xs; cbn [sequence].
  - by intros [= <-].
  - destruct r as [a|e]; [|done]. cbn [mbind result_bind].
    destruct (sequence l) as [xs'|e]; [|done]. cbn. intros [= <-].
    cbn. f_equal. by apply IH.
Qed.

Lemma slots_nargs_cons (s : Slot) (slots : list Slot) :
  slots_nargs (s :: slots)
  = if slot_takes_arg s then S (slots_nargs slots) else slots_nargs slots.
Proof.
  unfold slots_nargs. rewrite filter_cons.
  destruct (slot_takes_arg s); [by rewrite decide_True|by rewrite decide_False].
Qed.

Lemma slots_nargs_app (s1 s2 : list Slot) :
  slots_nargs (s1 ++ s2) = (slots_nargs s1 + slots_nargs s2)%nat.
Proof. unfold slots_nargs. by rewrite filter_app, length_app. Qed.

Lemma pack_slots_app (s1 s2 : list Slot) (a1 a2 : list PyVal) :
  slots_nargs s1 = length a1 →
  pack_slots (s1 ++ s2) (a1 ++ a2)
  = p ← pack_slots s1 a1; q ← pack_slots s2 a2; Ok (p ++ q).
Proof.
  revert a1. induction s1 as [|s s1 IH]; intros a1.
  - destruct a1; [|done]. intros _. cbn. by destruct (pack_slots s2 a2).
  - rewrite slots_nargs_cons.
    destruct s as [n|n|k]; cbn [slot_takes_arg].
    + intros Hn. cbn [app pack_slots]. rewrite IH by done.
      destruct (pack_slots s1 a1) as [p|e]; [|done]. cbn [mbind result_bind].
      destruct (pack_slots s2 a2) as [q|e]; [|done]. cbn. by rewrite app_assoc.
    + destruct a1 as [|a a1]; [done|]. intros [= Hn].
      cbn [app pack_slots]. destruct (pack_slot _ a) as [b|e]; [|done].
      cbn [mbind result_bind]. rewrite IH by done.
      destruct (pack_slots s1 a1) as [p|e]; [|done]. cbn [mbind result_bind].
      destruct (pack_slots s2 a2) as [q|e]; [|done]. cbn. by rewrite app_assoc.
    + destruct a1 as [|a a1]; [done|]. intros [= Hn].
      cbn [app pack_slots]. destruct (pack_slot _ a) as [b|e]; [|done].
      cbn [mbind result_bind]. rewrite IH by done.
      destruct (pack_slots s1 a1) as [p|e]; [|done]. cbn [mbind result_bind].
      destruct (pack_slots s2 a2) as [q|e]; [|done]. cbn. by rewrite app_assoc.
Qed.

Lemma length_to_bytes_big (len : nat) (z : Z) :
  length (to_bytes_big len z) = len.
Proof. induction len as [|k IH]; [done|]. cbn. by rewrite IH. Qed.

Lemma length_zeros (n : nat) : length (zeros n) = n.
Proof. apply length_replicate. Qed.

Lemma pack_slot_length (s : Slot) (v : PyVal) (out : bytes) :
  pack_slot s v = Ok out → 0 ≤ slot_size s →
  Z.of_nat (length out) = slot_size s.
Proof.
  destruct s as [n|n|k]; cbn [pack_slot slot_size].
  - intros [= <-] Hn. rewrite length_zeros. lia.
  - destruct v; try done. intros [= <-] Hn.
    rewrite length_app, length_zeros, length_take. lia.
  - destruct k as [| | |size signed|size| |]; cbn [code_size]; try done.
    + destruct v as [| | |[|b [|]]|]; try done. by intros [= <-].
    + by intros [= <-].
    + unfold pack_int. destruct (py_index v); [|done].
      case_match; [|done]. intros [= <-] _. by rewrite length_to_bytes_big.
    + unfold pack_float. destruct (struct_float v) as [f|e]; [|done].
      cbn [mbind result_bind]. destruct (float_format size).
      repeat case_match; try done; intros [= <-] _;
        by rewrite length_to_bytes_big.
Qed.

Lemma pack_slots_length (slots : list Slot) (args : list PyVal) (out : bytes) :
  pack_slots slots args = Ok out →
  Forall (λ s, 0 ≤ slot_size s) slots →
  Z.of_nat (length out) = slots_size slots.
Proof.
  revert args out. induction slots as [|s slots IH]; intros args out.
  - cbn. by intros [= <-].
  - intros Hp Hs. apply Forall_cons in Hs as [Hs Hrest].
    cbn [slots_size foldr]. fold (slots_size slots).
    destruct s as [n|n|k].
    + cbn [pack_slots] in Hp.
      destruct (pack_slots slots args) as [r|e] eqn:Hr; [|done].
      cbn in Hp. injection Hp as <-.
      rewrite length_app, length_zeros, Nat2Z.inj_add, (IH _ _ Hr Hrest).
      cbn [slot_size] in *. lia.
    + cbn [pack_slots] in Hp. destruct args as [|a args]; [done|].
      destruct (pack_slot (SBytes n) a) as [b|e] eqn:Hb; [|done].
      cbn [mbind result_bind] in Hp.
      destruct (pack_slots slots args) as [r|e] eqn:Hr; [|done].
      cbn in Hp. injection Hp as <-.
      rewrite length_app, Nat2Z.inj_add, (IH _ _ Hr Hrest).
      by rewrite (pack_slot_length _ _ _ Hb Hs).
    + cbn [pack_slots] in Hp. destruct args as [|a args]; [done|].
      destruct (pack_slot (SOne k) a) as [b|e] eqn:Hb; [|done].
      cbn [mbind result_bind] in Hp.
      destruct (pack_slots slots args) as [r|e] eqn:Hr; [|done].
      cbn in Hp. injection Hp as <-.
      rewrite length_app, Nat2Z.inj_add, (IH _ _ Hr Hrest).
      by rewrite (pack_slot_length _ _ _ Hb Hs).
Qed.

Lemma slots_size_app (s1 s2 : list Slot) :
  slots_size (s1 ++ s2) = slots_size s1 + slots_size s2.
Proof.
  induction s1 as [|s s1 IH]; [done|]. cbn [app slots_size foldr].
  fold (slots_size (s1 ++ s2)). fold (slots_size s1). lia.
Qed.

Lemma slots_size_replicate (m : nat) (s : Slot) :
  slots_size (replicate m s) = Z.of_nat m * slot_size s.
Proof.
  induction m as [|m IH]; [done|]. cbn [replicate slots_size foldr].
  fold (slots_size (replicate m s)). lia.
Qed.

Lemma item_slots_size (it : Item) :
  0 ≤ it_count it →
  slots_size (item_slots it) = item_size it
  ∧ Forall (λ s, 0 ≤ slot_size s) (item_slots it).
Proof.
  destruct it as [k n]. unfold item_slots, item_size. cbn [it_code it_count].
  intros Hn.
  destruct k; cbn [code_size];
    try (split; [cbn; lia|by repeat constructor]);
    (split; [rewrite slots_size_replicate; cbn [slot_size code_size]; lia|]);
    apply Forall_replicate; cbn [slot_size code_size]; lia.
Qed.

Lemma items_slots_size (items : list Item) :
  Forall (λ it, 0 ≤ it_count it) items →
  slots_size (items ≫= item_slots) = items_size items
  ∧ Forall (λ s, 0 ≤ slot_size s) (items ≫= item_slots).
Proof.
  induction 1 as [|it items Hit _ [IH1 IH2]]; [by split; [|constructor]|].
  destruct (item_slots_size it Hit) as [H1 H2].
  cbn [mbind list_bind]. rewrite slots_size_app, H1, IH1.
  split; [done|]. by apply Forall_app.
Qed.

(** * Lemmas on records and their fields *)

Lemma getattribute_with_attr_eq (self : Instance) (k : string) (x : PyVal) :
  k ≠ "subfunction"%string → getattribute (with_attr self k x) k = Ok x.
Proof.
  intros Hk. unfold getattribute, with_attr, write_attr. cbn [snd attrs].
  rewrite bool_decide_eq_false_2 by done. by rewrite lookup_insert_eq.
Qed.

Lemma getattribute_with_attr_ne (self : Instance) (k n : string) (x : PyVal) :
  n ≠ k → getattribute (with_attr self k x) n = getattribute self n.
Proof.
  intros Hk. unfold getattribute, with_attr, write_attr.
  cbn [snd attrs subfunction]. by rewrite lookup_insert_ne.
Qed.

Lemma with_attr_same (self : Instance) (k : string) (x : PyVal) :
  k ≠ "subfunction"%string → getattribute self k = Ok x →
  with_attr self k x = self.
Proof.
  intros Hk. unfold getattribute. rewrite bool_decide_eq_false_2 by done.
  destruct (attrs self !! k) as [y|] eqn:Hy; [|done]. intros [= ->].
  destruct self as [cls sf m]. unfold with_attr, write_attr. cbn in *.
  by rewrite insert_id.
Qed.

Lemma field_value_with_attr (self : Instance) (k : string) (x : PyVal)
    (fs : list UdsField.t) :
  k ∉ UdsField.name <$> fs →
  field_value (with_attr self k x) <$> fs = field_value self <$> fs.
Proof.
  intros Hk. apply list_fmap_ext. intros i f Hf. unfold field_value.
  rewrite getattribute_with_attr_ne; [done|]. intros <-. apply Hk.
  apply list_elem_of_fmap. exists f. split; [done|].
  by eapply list_elem_of_lookup_2.
Qed.

Lemma parameter_values_fields (self : Instance) (sf : Z) :
  ServiceData.get_parameter_values self sf true
  = field_value self <$> ServiceData._iter_parameter_fields (type_of self) sf.
Proof.
  unfold ServiceData.get_parameter_values,
    ServiceData.get_parameter_scaling_factors,
    ServiceData._iter_parameter_names.
  cbn [negb]. induction (ServiceData._iter_parameter_fields _ _) as [|f l IH];
    [done|].
  cbn [fmap list_fmap zip zip_with]. by rewrite <- IH.
Qed.

Lemma single_token_item (f : UdsField.t) :
  single_token (UdsField.fmt f) = true → ∃ it, field_item f it.
Proof.
  unfold single_token, field_item.
  destruct (parse_codes (UdsField.fmt f) None) as [[|it [|]]|]; try done.
  intros H%bool_decide_eq_true. by exists it.
Qed.

(** The formats of fields that are single tokens concatenate token by
    token. *)
Lemma static_fields_parse (fs : list UdsField.t) :
  Forall (λ f, single_token (UdsField.fmt f) = true) fs →
  ∃ items,
    slots_nargs (items ≫= item_slots) = length fs
    ∧ Forall (λ it, 0 ≤ it_count it) items
    ∧ string_forall format_char (static_fmt fs) = true
    ∧ ∀ s, parse_codes (static_fmt fs +:+ s) None
           = rest ← parse_codes s None; Ok (items ++ rest).
Proof.
  unfold static_fmt.
  induction 1 as [|f fs Hf _ (items & Hn & Hc & Hch & Hp)].
  - exists []. repeat split; [constructor|].
    intros s. change (parse_codes s None = rest ← parse_codes s None; Ok rest).
    by destruct (parse_codes s None).
  - destruct (single_token_item f Hf) as (it & Hit & Hone).
    exists (it :: items). rewrite fmap_cons, concat_cons. repeat split.
    + cbn [mbind list_bind]. rewrite slots_nargs_app, Hone, Hn. done.
    + constructor; [|done].
      pose proof (parse_codes_counts _ _ _ Hit) as Hcount.
      assert (Forall (λ it, 0 ≤ it_count it) [it]) as Hone' by by apply Hcount.
      by inversion Hone'.
    + rewrite string_forall_app, Hch, andb_true_r.
      by eapply parse_codes_chars.
    + intros s. rewrite append_assoc.
      rewrite (parse_codes_app _ _ _ _ Hit), Hp.
      by destruct (parse_codes s None).
Qed.

Lemma static_field_not_variadic (f : UdsField.t) :
  single_token (UdsField.fmt f) = true → UdsField.has_variable_length f = false.
Proof.
  intros (it & Hit & _)%single_token_item. unfold UdsField.has_variable_length.
  apply contains_placeholder_brace_free, format_char_brace_free.
  by eapply parse_codes_chars.
Qed.

Lemma variadic_indexes_static (fs : list UdsField.t) (start : nat) :
  Forall (λ f, UdsField.has_variable_length f = false) fs →
  filter (λ p : nat * UdsField.t, UdsField.has_variable_length p.2 = true)
         (zip (seq start (length fs)) fs) = [].
Proof.
  intros Hfs. revert start. induction Hfs as [|f fs Hf _ IH]; intros start;
    [done|].
  cbn [length seq zip zip_with]. rewrite filter_cons, decide_False.
  - apply IH.
  - cbn. by rewrite Hf.
Qed.

Lemma variadic_indexes_one (pre post : list UdsField.t) (v : UdsField.t) :
  Forall (λ f, UdsField.has_variable_length f = false) (pre ++ post) →
  UdsField.has_variable_length v = true →
  fst <$> filter (λ p : nat * UdsField.t,
                    UdsField.has_variable_length p.2 = true)
                 (enumerate (pre ++ v :: post))
  = [length pre].
Proof.
  intros [Hpre Hpost]%Forall_app Hv. unfold enumerate.
  cut (∀ start,
         fst <$> filter (λ p : nat * UdsField.t,
                           UdsField.has_variable_length p.2 = true)
                        (zip (seq start (length (pre ++ v :: post)))
                             (pre ++ v :: post))
         = [(start + length pre)%nat]).
  { intros H. apply (H 0%nat). }
  induction Hpre as [|f pre Hf _ IH]; intros start.
  - cbn [app length seq zip zip_with]. rewrite filter_cons, decide_True by done.
    rewrite variadic_indexes_static by done. cbn. f_equal. lia.
  - cbn [app length seq zip zip_with]. rewrite filter_cons, decide_False.
    + rewrite IH. f_equal. cbn. lia.
    + cbn. by rewrite Hf.
Qed.

Lemma pretty_N_go_chars (x : N) (s : string) :
  string_forall format_char s = true →
  string_forall format_char (pretty_N_go x s) = true.
Proof.
  revert s. induction (N.lt_wf_0 x) as [x _ IH]; intros s Hs.
  destruct (decide (x = 0)%N) as [->|Hx]; [by rewrite pretty_N_go_0|].
  rewrite pretty_N_go_step by lia. apply IH; [apply N.div_lt; lia|].
  cbn [string_forall]. rewrite Hs, andb_true_r.
  assert (x `mod` 10 < 10)%N as Hd by (apply N.mod_lt; lia).
  by apply digit_char, pretty_digit.
Qed.

Lemma str_of_int_chars (n : Z) :
  0 ≤ n → string_forall format_char (str_of_int n) = true.
Proof.
  intros Hn. unfold str_of_int, pretty, pretty_Z.
  destruct n as [|p|p]; [done| |lia].
  unfold pretty, pretty_positive, pretty, pretty_N.
  rewrite decide_False by done. by apply pretty_N_go_chars.
Qed.

Lemma struct_compile_body (body : string) :
  string_forall format_char body = true →
  struct_compile (">" +:+ body)
  = items ← parse_codes body None;
    if PY_SSIZE_T_MAX <? items_size items then Raise StructError else Ok items.
Proof.
  intros Hb. unfold struct_compile.
  change (">" +:+ body) with (String ">" body). cbn [string_forall].
  rewrite (string_forall_impl format_char (λ c, char_code c <? 128) body);
    [|by intros c [[? _]%andb_true_iff _]%andb_true_iff|done].
  rewrite (string_forall_impl format_char
             (λ c, negb (char_code c =? 0)) body);
    [|by intros c [[_ ?]%andb_true_iff _]%andb_true_iff|done].
  reflexivity.
Qed.

(** * A record with one variable-length field *)

Section OneVariadicField.

Variables (self : Instance) (pre post : list UdsField.t) (v : UdsField.t).
Variables (c : ascii) (size : nat) (signed : bool).

Hypothesis Hsf : subfunction self = NO_SUBFUNCTION.
Hypothesis Hfields :
  ServiceData._iter_parameter_fields (type_of self) NO_SUBFUNCTION
  = pre ++ v :: post.
Hypothesis Hstatic :
  Forall (λ f, single_token (UdsField.fmt f) = true) (pre ++ post).
Hypothesis Hfmt : UdsField.fmt v = String c "{}s".
Hypothesis Hcode : code_of_ascii c = Some (CInt size signed).
Hypothesis Hscale : UdsField.scale_factor v = VInt 1.
Hypothesis Hname : UdsField.name v ∉ UdsField.name <$> (pre ++ post).
Hypothesis Hnot_sub : UdsField.name v ≠ "subfunction"%string.

Lemma one_variadic_joined_fmt :
  ServiceData.joined_fmt (type_of self) NO_SUBFUNCTION
  = (static_fmt pre +:+ String c "") +:+ "{}" +:+ String "s" (static_fmt post).
Proof.
  unfold ServiceData.joined_fmt. rewrite Hfields, fmap_app, fmap_cons.
  rewrite concat_app, concat_cons, Hfmt.
  change (String.concat "" (UdsField.fmt <$> pre))
    with (static_fmt pre).
  change (String.concat "" (UdsField.fmt <$> post))
    with (static_fmt post).
  rewrite append_assoc. reflexivity.
Qed.

Lemma one_variadic_chars :
  string_forall format_char (static_fmt pre +:+ String c "") = true
  ∧ string_forall format_char (String "s" (static_fmt post)) = true.
Proof.
  apply Forall_app in Hstatic as [Hpre Hpost].
  destruct (static_fields_parse pre Hpre) as (_ & _ & _ & HA & _).
  destruct (static_fields_parse post Hpost) as (_ & _ & _ & HB & _).
  split.
  - rewrite string_forall_app, HA. cbn [string_forall andb].
    destruct (code_char c _ Hcode) as (_ & _ & ->). done.
  - cbn [string_forall]. by rewrite HB.
Qed.

Lemma one_variadic_chunks :
  ServiceData._iter_payload_fmt (type_of self) NO_SUBFUNCTION
  = [">" +:+ static_fmt pre +:+ String c ""; ">{}s" +:+ static_fmt post].
Proof.
  destruct one_variadic_chars as [HA HB].
  unfold ServiceData._iter_payload_fmt. rewrite one_variadic_joined_fmt.
  unfold split_placeholder.
  rewrite tokens_app by by apply format_char_brace_free.
  rewrite tokens_placeholder.
  rewrite (tokens_brace_free (String "s" (static_fmt post))) by by apply format_char_brace_free.
  rewrite split_tokens_chars, split_tokens_chars_only. reflexivity.
Qed.

Lemma one_variadic_format (n : Z) :
  str_format (ServiceData.get_payload_fmt (type_of self) NO_SUBFUNCTION)
             [str_of_int n]
  = Ok (">" +:+ (static_fmt pre +:+ String c "") +:+ str_of_int n +:+ String "s" (static_fmt post)).
Proof.
  destruct one_variadic_chars as [HA HB].
  unfold ServiceData.get_payload_fmt, str_format.
  rewrite one_variadic_joined_fmt. unfold _ENDIANNESS.
  rewrite <- append_assoc.
  rewrite tokens_app.
  2:{ apply format_char_brace_free.
      change (string_forall format_char (String ">" (static_fmt pre +:+ String c "")) = true).
      cbn [string_forall]. by rewrite HA. }
  rewrite tokens_placeholder.
  rewrite (tokens_brace_free (String "s" (static_fmt post))) by by apply format_char_brace_free.
  rewrite format_tokens_chars.
  2:{ apply format_char_brace_free.
      change (string_forall format_char (String ">" (static_fmt pre +:+ String c "")) = true).
      cbn [string_forall]. by rewrite HA. }
  cbn [format_tokens].
  rewrite <- (app_nil_r (char_tokens (String "s" (static_fmt post)))).
  rewrite format_tokens_chars by by apply format_char_brace_free.
  cbn [format_tokens mbind result_bind]. rewrite append_nil_r.
  by rewrite append_assoc.
Qed.

Lemma one_variadic_indexes :
  ServiceData.get_variadic_fields_indexes (type_of self) NO_SUBFUNCTION
  = [length pre].
Proof.
  unfold ServiceData.get_variadic_fields_indexes. rewrite Hfields.
  apply variadic_indexes_one.
  - eapply Forall_impl; [exact Hstatic|]. apply static_field_not_variadic.
  - unfold UdsField.has_variable_length. rewrite Hfmt.
    destruct (code_char c _ Hcode) as (_ & _ & Hc).
    unfold contains_placeholder.
    rewrite tokens_cons_not_brace.
    + apply bool_decide_eq_true_2. set_solver.
    + unfold format_char in Hc. apply andb_true_iff in Hc as [_ Hc].
      by apply negb_true_iff.
Qed.

Lemma one_variadic_values (payload : bytes) :
  scaled_values (with_attr self (UdsField.name v) (VBytes payload))
  = ap ← sequence (field_value self <$> pre);
    aq ← sequence (field_value self <$> post);
    Ok (ap ++ VBytes payload :: aq).
Proof.
  unfold scaled_values. rewrite parameter_values_fields.
  change (subfunction (with_attr self _ _)) with (subfunction self).
  change (type_of (with_attr self _ _)) with (type_of self).
  rewrite Hsf, Hfields, fmap_app, fmap_cons, sequence_app.
  rewrite !field_value_with_attr.
  2:{ intros Hin. apply Hname. rewrite fmap_app. apply elem_of_app. by left. }
  2:{ intros Hin. apply Hname. rewrite fmap_app. apply elem_of_app. by right. }
  destruct (sequence (field_value self <$> pre)) as [ap|e]; [|done].
  cbn [mbind result_bind sequence].
  assert (field_value (with_attr self (UdsField.name v) (VBytes payload)) v
          = Ok (VBytes payload)) as ->.
  { unfold field_value. rewrite getattribute_with_attr_eq by done.
    cbn [mbind result_bind]. rewrite Hscale.
    change (py_mul (VBytes payload) (VInt 1))
      with (Ok (VBytes (payload ++ []))).
    by rewrite app_nil_r. }
  cbn [mbind result_bind].
  by destruct (sequence (field_value self <$> post)).
Qed.

Lemma one_variadic_struct_pack :
  ∃ SA SB : list Slot,
    slots_nargs SA = length pre
    ∧ slots_nargs SB = length post
    ∧ Forall (λ s, 0 ≤ slot_size s) SA
    ∧ Forall (λ s, 0 ≤ slot_size s) SB
    ∧ ∀ (n : Z) (args : list PyVal),
        0 ≤ n ≤ PY_SSIZE_T_MAX →
        struct_pack (">" +:+ (static_fmt pre +:+ String c "") +:+ str_of_int n
                         +:+ String "s" (static_fmt post)) args
        = if PY_SSIZE_T_MAX
               <? slots_size SA + Z.of_nat size + n + slots_size SB
          then Raise StructError
          else if bool_decide (length args
                               = (length pre + 2 + length post)%nat)
               then pack_slots
                      (SA ++ SOne (CInt size signed) :: SBytes n :: SB) args
               else Raise StructError.
Proof.
  destruct one_variadic_chars as [HA' HB'].
  apply Forall_app in Hstatic as [Hpre Hpost].
  destruct (static_fields_parse pre Hpre) as (IA & HnA & HcA & _ & HpA).
  destruct (static_fields_parse post Hpost) as (IB & HnB & HcB & _ & HpB).
  destruct (items_slots_size IA HcA) as [HsA HposA].
  destruct (items_slots_size IB HcB) as [HsB HposB].
  exists (IA ≫= item_slots), (IB ≫= item_slots).
  repeat split; [done..|]. intros n args Hn.
  destruct (code_char c _ Hcode) as (Hdig & Hspace & _).
  assert (parse_codes ((static_fmt pre +:+ String c "") +:+ str_of_int n +:+ String "s" (static_fmt post))
                      None
          = Ok (IA ++ {| it_code := CInt size signed; it_count := 1 |}
                   :: {| it_code := CString; it_count := n |} :: IB)) as Hparse.
  { rewrite append_assoc.
    change (String c "" +:+ str_of_int n +:+ String "s" (static_fmt post))
      with (String c (str_of_int n +:+ String "s" (static_fmt post))).
    rewrite HpA. cbn [parse_codes]. rewrite Hdig, Hspace, Hcode.
    cbn [andb]. rewrite parse_codes_count by done.
    change (parse_codes (String "s" (static_fmt post)) (Some n))
      with (items ← parse_codes (static_fmt post) None;
            Ok ({| it_code := CString; it_count := n |} :: items)).
    specialize (HpB ""). rewrite append_nil_r in HpB. rewrite HpB.
    cbn. by rewrite app_nil_r. }
  unfold struct_pack. rewrite struct_compile_body.
  2:{ rewrite string_forall_app, HA', string_forall_app, HB'.
      by rewrite str_of_int_chars by lia. }
  rewrite Hparse. cbn [mbind result_bind].
  assert (∀ l1 l2, items_size (l1 ++ l2) = items_size l1 + items_size l2)
    as Hsize_app.
  { intros l1 l2. induction l1 as [|it l1 IH]; [done|].
    cbn [app items_size foldr]. fold (items_size (l1 ++ l2)).
    fold (items_size l1). lia. }
  rewrite Hsize_app. cbn [items_size foldr]. fold (items_size IB).
  unfold item_size at 1 2. cbn [it_code it_count code_size].
  rewrite <- HsA, <- HsB.
  replace (slots_size (IA ≫= item_slots)
           + (1 * Z.of_nat size + (n * 1 + slots_size (IB ≫= item_slots))))
    with (slots_size (IA ≫= item_slots) + Z.of_nat size + n
          + slots_size (IB ≫= item_slots)) by lia.
  case_match; [done|]. cbn [mbind result_bind].
  rewrite bind_app, !bind_cons.
  change (item_slots {| it_code := CInt size signed; it_count := 1 |})
    with [SOne (CInt size signed)].
  change (item_slots {| it_code := CString; it_count := n |})
    with [SBytes n].
  cbn [app].
  rewrite slots_nargs_app, !slots_nargs_cons. cbn [slot_takes_arg].
  rewrite HnA, HnB.
  replace (length pre + S (S (length post)))%nat
    with (length pre + 2 + length post)%nat by lia.
  done.
Qed.

Lemma pack_bytes_exact (b : bytes) :
  pack_slot (SBytes (Z.of_nat (length b))) (VBytes b) = Ok b.
Proof.
  cbn [pack_slot]. rewrite Nat2Z.id, firstn_all, Nat.sub_diag. cbn.
  by rewrite app_nil_r.
Qed.

(** The outcome of [pack] on the record whose variable-length field holds
    [payload]. *)
Lemma one_variadic_pack :
  ∃ SA SB : list Slot,
    Forall (λ s, 0 ≤ slot_size s) SA
    ∧ Forall (λ s, 0 ≤ slot_size s) SB
    ∧ ∀ payload : bytes,
        Z.of_nat (length payload) ≤ PY_SSIZE_T_MAX →
        ServiceData.pack
          (with_attr self (UdsField.name v) (VBytes payload))
        = ap ← sequence (field_value self <$> pre);
          aq ← sequence (field_value self <$> post);
          if PY_SSIZE_T_MAX
               <? slots_size SA + Z.of_nat size
                  + Z.of_nat (length payload) + slots_size SB
          then Raise StructError
          else
            p ← pack_slots SA ap;
            x ← pack_int size signed (VInt (Z.of_nat (length payload)));
            q ← pack_slots SB aq;
            Ok (p ++ x ++ payload ++ q).
Proof.
  destruct one_variadic_struct_pack
    as (SA & SB & HnA & HnB & HposA & HposB & Hpack).
  exists SA, SB. repeat split; [done..|]. intros payload Hmax.
  rewrite pack_eq.
  change (subfunction (with_attr self _ _)) with (subfunction self).
  change (type_of (with_attr self _ _)) with (type_of self).
  cbn zeta. rewrite Hsf, one_variadic_chunks, one_variadic_values.
  destruct (sequence (field_value self <$> pre)) as [ap|e] eqn:Hap; [|done].
  cbn [mbind result_bind].
  destruct (sequence (field_value self <$> post)) as [aq|e] eqn:Haq; [|done].
  cbn [mbind result_bind].
  apply sequence_length in Hap, Haq. rewrite length_fmap in Hap, Haq.
  rewrite one_variadic_indexes.
  unfold ServiceData.lengths_at. cbn [fmap list_fmap sequence].
  rewrite lookup_app_r by lia. rewrite Hap, Nat.sub_diag.
  cbn [lookup list_lookup py_len mbind result_bind fmap list_fmap].
  rewrite one_variadic_format. cbn [mbind result_bind].
  unfold ServiceData.insert_lengths. cbn [zip zip_with foldl].
  unfold py_list_insert. rewrite <- Hap at 1 2.
  rewrite take_app_length, drop_app_length.
  rewrite Hpack by lia. case_match; [done|].
  rewrite bool_decide_eq_true_2.
  2:{ rewrite length_app. cbn [length]. lia. }
  rewrite pack_slots_app by lia.
  destruct (pack_slots SA ap) as [p|e]; [|done]. cbn [mbind result_bind].
  cbn [pack_slots]. 
  change (pack_slot (SOne (CInt size signed))
                    (VInt (Z.of_nat (length payload))))
    with (pack_int size signed (VInt (Z.of_nat (length payload)))).
  destruct (pack_int _ _ _) as [x|e]; [|done]. cbn [mbind result_bind].
  rewrite pack_bytes_exact. cbn [mbind result_bind].
  destruct (pack_slots SB aq) as [q|e]; [|done]. cbn [mbind result_bind].
  done.
Qed.

End OneVariadicField.

Lemma long_payload_length : Z.of_nat (length long_payload) = 32768.
Proof. unfold long_payload. rewrite length_replicate. by rewrite Z2Nat.id. Qed.

(** Claim C6, counterexample.  The width and range of the length prefix are
    those of the integer code that the field's format declares.  The
    variable-length field of the test record type [SimpleVariadicServiceData]
    declares the signed code [h]: with a payload of 32768 bytes [pack] ends in
    [struct.error], while the record with the empty field packs.  A field
    declared [B{}s] packs three bytes behind a one-byte length. *)
Lemma variadic_length_exceeds_the_declared_prefix :
  let x := with_attr (variadic_record []) "some_bytes" (VBytes long_payload) in
  getattribute x "some_bytes" = Ok (VBytes long_payload)
  ∧ Z.of_nat (length long_payload) = 32768
  ∧ is_ok (ServiceData.pack (variadic_record [])) = true
  ∧ ServiceData.pack x = Raise StructError
  ∧ (¬ ∃ out out0 : bytes,
         ServiceData.pack x = Ok out
         ∧ ServiceData.pack (variadic_record []) = Ok out0
         ∧ Z.of_nat (length out) = Z.of_nat (length out0) + 32768)
  ∧ ServiceData.pack (byte_length_record [x01; x02; x03])
    = Ok [x03; x01; x02; x03]
  ∧ ¬ ∃ p q : bytes,
        [x03; x01; x02; x03]
        = p ++ to_bytes_big 2 3 ++ [x01; x02; x03] ++ q.
Proof.
  intros x.
  assert (ServiceData.pack x = Raise StructError) as Hp.
  { destruct (one_variadic_pack (variadic_record [])
                (take 1 (declared_uds_fields SimpleVariadicServiceData))
                (drop 2 (declared_uds_fields SimpleVariadicServiceData))
                (from_ok (uds_field "some_bytes" (VBytes []) "h{}s" [] (VInt 1)))
                "h"%char 2%nat true)
      as (SA & SB & _ & _ & Hshape).
    - reflexivity.
    - reflexivity.
    - repeat constructor.
    - reflexivity.
    - reflexivity.
    - reflexivity.
    - vm_compute. intros H.
      repeat (apply elem_of_cons in H as [H|H]; [discriminate H|]).
      by apply elem_of_nil in H.
    - discriminate.
    - assert (is_ok (ServiceData.pack
                       (with_attr (variadic_record [])
                          (UdsField.name
                             (from_ok (uds_field "some_bytes" (VBytes [])
                                                 "h{}s" [] (VInt 1))))
                          (VBytes []))) = true) as Hok
        by (vm_compute; reflexivity).
      rewrite (Hshape []) in Hok by done.
      subst x.
      change "some_bytes"%string
        with (UdsField.name
                (from_ok (uds_field "some_bytes" (VBytes []) "h{}s" []
                                    (VInt 1)))).
      rewrite (Hshape long_payload) by (rewrite long_payload_length; done).
      rewrite long_payload_length. clear Hshape.
      destruct (sequence _) as [ap|e]; [|done]. cbn [mbind result_bind] in *.
      destruct (sequence _) as [aq|e]; [|done]. cbn [mbind result_bind] in *.
      destruct (PY_SSIZE_T_MAX <? _) in |- *; [done|].
      destruct (PY_SSIZE_T_MAX <? _) in Hok; [done|].
      destruct (pack_slots SA _) as [p|e]; [|done].
      reflexivity. }
  split; [by apply getattribute_with_attr_eq|].
  split; [apply long_payload_length|].
  split; [vm_compute; reflexivity|].
  split; [exact Hp|].
  split; [intros (out & out0 & H & _); rewrite Hp in H; discriminate|].
  split; [vm_compute; reflexivity|].
  intros (p & q & H). apply (f_equal length) in H.
  rewrite !length_app in H. cbn in H. lia.
Qed.

(** Claim C6, amended.  Take a record with subfunction 0 whose applicable fields
    are single fixed tokens except for one variable-length field, declared
    as an integer code followed by the placeholder and [s], unscaled, and
    holding [payload].  If the payload's length is within the range of that
    integer code, and the record with the field emptied packs to [out0],
    then the record packs; its output is [out0] with the length rewritten
    and the payload inserted right after it: the payload is immediately
    preceded by its length as a big-endian integer of the code's width
    (2 bytes for [h] and [H]), and the output is longer than [out0] by the
    payload's length. *)
Theorem variadic_field_is_length_prefixed
    (self : Instance) (pre post : list UdsField.t) (v : UdsField.t)
    (c : ascii) (size : nat) (signed : bool) (payload out0 : bytes) :
  subfunction self = NO_SUBFUNCTION →
  ServiceData._iter_parameter_fields (type_of self) NO_SUBFUNCTION
  = pre ++ v :: post →
  Forall (λ f, single_token (UdsField.fmt f) = true) (pre ++ post) →
  UdsField.fmt v = String c "{}s" →
  code_of_ascii c = Some (CInt size signed) →
  UdsField.scale_factor v = VInt 1 →
  UdsField.name v ∉ UdsField.name <$> (pre ++ post) →
  getattribute self (UdsField.name v) = Ok (VBytes payload) →
  Z.of_nat (length payload) < code_limit size signed →
  ServiceData.pack (with_attr self (UdsField.name v) (VBytes [])) = Ok out0 →
  Z.of_nat (length out0 + length payload) ≤ PY_SSIZE_T_MAX →
  ∃ p q out : bytes,
    out0 = p ++ to_bytes_big size 0 ++ q
    ∧ out = p ++ to_bytes_big size (Z.of_nat (length payload)) ++ payload ++ q
    ∧ ServiceData.pack self = Ok out
    ∧ length out = (length out0 + length payload)%nat.
Proof.
  intros Hsf Hfields Hstatic Hfmt Hcode Hscale Hname Hget Hlimit Hout0 Hmax.
  assert (UdsField.name v ≠ "subfunction"%string) as Hnot_sub.
  { intros Heq. rewrite Heq in Hget. discriminate Hget. }
  destruct (one_variadic_pack self pre post v c size signed
              Hsf Hfields Hstatic Hfmt Hcode Hscale Hname Hnot_sub)
    as (SA & SB & HposA & HposB & Hshape).
  rewrite (Hshape []) in Hout0 by done.
  pose proof (Hshape payload) as Hpack.
  rewrite (with_attr_same self _ _ Hnot_sub Hget) in Hpack.
  rewrite Hpack by lia. clear Hpack Hshape.
  destruct (sequence (field_value self <$> pre)) as [ap|e]; [|done].
  cbn [mbind result_bind] in *.
  destruct (sequence (field_value self <$> post)) as [aq|e]; [|done].
  cbn [mbind result_bind] in *.
  destruct (PY_SSIZE_T_MAX <? _) eqn:Hsize0 in Hout0; [done|].
  destruct (pack_slots SA ap) as [p|e] eqn:Hp; [|done].
  cbn [mbind result_bind] in *.
  unfold pack_int in Hout0. cbn [py_index] in Hout0.
  destruct (_ && _) in Hout0; [|done]. cbn [mbind result_bind] in Hout0.
  destruct (pack_slots SB aq) as [q|e] eqn:Hq; [|done].
  cbn [mbind result_bind app] in *. injection Hout0 as <-.
  pose proof (pack_slots_length _ _ _ Hp HposA) as HlenA.
  pose proof (pack_slots_length _ _ _ Hq HposB) as HlenB.
  rewrite !length_app, length_to_bytes_big in Hmax.
  rewrite (proj2 (Z.ltb_ge _ _)) by lia.
  unfold pack_int. cbn [py_index].
  assert (((if signed then - 2 ^ (8 * Z.of_nat size - 1) else 0)
           <=? Z.of_nat (length payload)) = true) as ->.
  { apply Z.leb_le. destruct signed; [|lia].
    pose proof (Z.pow_nonneg 2 (8 * Z.of_nat size - 1)). lia. }
  unfold code_limit in Hlimit.
  rewrite (proj2 (Z.ltb_lt _ _) Hlimit). cbn [andb mbind result_bind].
  exists p, q. eexists. repeat split.
  rewrite !length_app, !length_to_bytes_big. lia.
Qed.

(** Claim C6, witness: the test record type [SimpleVariadicServiceData] with
    the six bytes of [test_service_data_variadic_length]. *)
Lemma variadic_field_is_length_prefixed_witness :
  ∃ p q out : bytes,
    [x40; x45; x00; x00; x00; x00; x00; x00; x00; x00; x40; x48; xf5; xc3]
    = p ++ to_bytes_big 2 0 ++ q
    ∧ out = p ++ to_bytes_big 2 6 ++ six_bytes ++ q
    ∧ ServiceData.pack (variadic_record six_bytes) = Ok out
    ∧ length out = (14 + 6)%nat.
Proof.
  apply (variadic_field_is_length_prefixed
           (variadic_record six_bytes)
           (take 1 (declared_uds_fields SimpleVariadicServiceData))
           (drop 2 (declared_uds_fields SimpleVariadicServiceData))
           (from_ok (uds_field "some_bytes" (VBytes []) "h{}s" [] (VInt 1)))
           "h"%char 2%nat true six_bytes).
  - reflexivity.
  - reflexivity.
  - repeat constructor.
  - reflexivity.
  - reflexivity.
  - reflexivity.
  - vm_compute. intros H. repeat (apply elem_of_cons in H as [H|H];
                                  [discriminate H|]).
    by apply elem_of_nil in H.
  - reflexivity.
  - reflexivity.
  - vm_compute. reflexivity.
  - vm_compute. discriminate.
Defined.

(** * The service classes of the source files *)

(** X1.  Every service class of the source files declares
    ConditionsNotCorrect and leaves [_use_subfunction] unset.  So, whatever
    numbers the response codes have, each of them accepts every code from
    0x80 to 0xFE, every always-valid code, and
    SubFunctionNotSupportedInActiveSession. *)
Theorem declared_services_accept_reserved_codes
    (rc : ResponseCode) (cls : BaseService.t) (code : Z) :
  cls ∈ declared_services rc →
  0x80 ≤ code < 0xFF
  ∨ code ∈ BaseService.always_valid_negative_response rc
  ∨ code = SubFunctionNotSupportedInActiveSession rc →
  BaseService.is_supported_negative_response rc cls code = true.
Proof.
  intros Hcls Hcode.
  assert (ConditionsNotCorrect rc
          ∈ BaseService.supported_negative_response cls
          ∧ BaseService.use_subfunction cls = true) as [Hcnc Hsub].
  { unfold declared_services in Hcls.
    rewrite !elem_of_cons, elem_of_nil in Hcls.
    destruct Hcls as [->|[->|[->|[->|[]]]]]; (split; [|done]);
      cbn [BaseService.supported_negative_response DiagnosticSessionControl
           ReadDataByPeriodicIdentifier ResponseOnEvent
           ReadScalingDataByIdentifier];
      rewrite !elem_of_cons; tauto. }
  unfold BaseService.is_supported_negative_response. cbn zeta.
  rewrite Hsub, andb_true_r.
  destruct (code =? SubFunctionNotSupportedInActiveSession rc) eqn:Heq;
    [done|].
  apply Z.eqb_neq in Heq.
  destruct Hcode as [Hrange|[Halways|Hsf]]; [| |done].
  - rewrite (bool_decide_eq_true_2 _ Hcnc), andb_true_r.
    by rewrite (proj2 (Z.leb_le _ _)), (proj2 (Z.ltb_lt _ _)) by lia.
  - rewrite (bool_decide_eq_true_2 _ Halways). by case_match.
Qed.

(** X1, witness: [ResponseOnEvent] and the code 0x90 under the ISO 14229
    numbering. *)
Lemma declared_services_accept_reserved_codes_witness :
  BaseService.is_supported_negative_response
    iso14229 (ResponseOnEvent iso14229) 0x90 = true.
Proof.
  apply declared_services_accept_reserved_codes.
  - unfold declared_services. rewrite !elem_of_cons. tauto.
  - left. lia.
Defined.

(** * Names of subfunctions *)

Lemma session_subfn_list :
  BaseSubfunction.subfn_list DiagnosticSessionControlService.Session
  = [ ("defaultSession", MValue (VInt 1));
      ("extendedDiagnosticSession", MValue (VInt 3));
      ("programmingSession", MValue (VInt 2));
      ("safetySystemDiagnosticSession", MValue (VInt 4)) ]%string.
Proof. by vm_compute. Qed.

(** X2.  [DiagnosticSessionControl.Session.get_name] names the four
    sessions 1 to 4 and answers "Custom session", with the pretty name of
    the class, for every other identifier. *)
Theorem session_get_name (subfn_id : Z) :
  BaseSubfunction.get_name DiagnosticSessionControlService.Session subfn_id
  = Ok (if subfn_id =? 1 then "defaultSession"%string
        else if subfn_id =? 2 then "programmingSession"%string
        else if subfn_id =? 3 then "extendedDiagnosticSession"%string
        else if subfn_id =? 4 then "safetySystemDiagnosticSession"%string
        else "Custom session"%string).
Proof.
  unfold BaseSubfunction.get_name. rewrite session_subfn_list.
  cbn [BaseSubfunction.first_match snd fst py_index].
  rewrite !(Z.eqb_sym _ subfn_id).
  destruct (subfn_id =? 1) eqn:H1.
  { done. }
  destruct (subfn_id =? 3) eqn:H3.
  { apply Z.eqb_eq in H3 as ->. done. }
  destruct (subfn_id =? 2) eqn:H2.
  { done. }
  destruct (subfn_id =? 4) eqn:H4.
  { done. }
  by vm_compute.
Qed.

Lemma first_match_skips_other_integers
    (pre rest : list (string * Member)) (subfn_id : Z) :
  Forall (λ a, ∃ z, a.2 = MValue (VInt z) ∧ z ≠ subfn_id) pre →
  BaseSubfunction.first_match (pre ++ rest) subfn_id
  = BaseSubfunction.first_match rest subfn_id.
Proof.
  induction 1 as [|[n m] pre (z & Hm & Hz) _ IH]; [done|].
  cbn in Hm. subst m. cbn [app BaseSubfunction.first_match snd py_index].
  by rewrite (proj2 (Z.eqb_neq _ _) Hz).
Qed.

(** X3.  A range attribute [(low, high)] is tested with
    [subfn_id >= low or subfn_id <= high].  So when [low <= high + 1] it
    matches every identifier, inside the range or not: [get_name] answers
    the name of the range as soon as no integer attribute that is listed
    before it equals the identifier. *)
Theorem get_name_range_matches_every_id
    (cls : PyClass) (pre rest : list (string * Member)) (name : string)
    (low high subfn_id : Z) :
  BaseSubfunction.subfn_list cls
  = pre ++ (name, MTuple [VInt low; VInt high]) :: rest →
  Forall (λ a, ∃ z, a.2 = MValue (VInt z) ∧ z ≠ subfn_id) pre →
  low ≤ high + 1 →
  BaseSubfunction.get_name cls subfn_id = Ok name.
Proof.
  intros Hlist Hpre Hrange. unfold BaseSubfunction.get_name.
  rewrite Hlist, first_match_skips_other_integers by done.
  cbn [BaseSubfunction.first_match snd fst tuple_item lookup list_lookup
       mbind result_bind py_int_ge py_int_le py_index].
  destruct (low <=? subfn_id) eqn:Hlow; [done|].
  apply Z.leb_gt in Hlow.
  by rewrite (proj2 (Z.leb_le subfn_id high)) by lia.
Qed.

(** X3, witness: the identifier 0x7F lies outside the range 0x40..0x5F and
    is named after it all the same. *)
Lemma get_name_range_matches_every_id_witness :
  BaseSubfunction.get_name RangedSubfunction 0x7F
  = Ok "vehicleManufacturerSpecific"%string.
Proof.
  apply (get_name_range_matches_every_id RangedSubfunction
           [("hardReset"%string, MValue (VInt 1))] []
           "vehicleManufacturerSpecific" 0x40 0x5F 0x7F).
  - by vm_compute.
  - repeat constructor. exists 1. split; [reflexivity|lia].
  - lia.
Defined.

(** * The registry of services *)

Lemma ServiceClass_forall_ind (P : ServiceClass → Prop) :
  (∀ name sid subclasses,
     Forall P subclasses → P (MkServiceClass name sid subclasses)) →
  ∀ c, P c.
Proof.
  intros Hnode. fix IH 1. intros [name sid subclasses]. apply Hnode.
  induction subclasses as [|x l IHl]; constructor; [apply IH|apply IHl].
Qed.

Lemma get_all_subclasses_unfold (cls : ServiceClass) :
  __get_all_subclasses cls
  = __subclasses__ cls
    ++ mjoin (__get_all_subclasses <$> __subclasses__ cls).
Proof.
  destruct cls as [name sid subclasses].
  cbn [__get_all_subclasses __subclasses__]. f_equal.
  induction subclasses as [|x l IH]; [done|].
  cbn [fmap list_fmap mjoin list_join]. by rewrite IH.
Qed.

(** The list that is searched holds the proper descendants of the class, and
    nothing else. *)
Lemma elem_of_get_all_subclasses (root c : ServiceClass) :
  c ∈ __get_all_subclasses root ↔ descends root c.
Proof.
  split.
  - revert c. induction root as [name sid subclasses IH]
      using ServiceClass_forall_ind.
    intros c. rewrite get_all_subclasses_unfold, elem_of_app.
    cbn [__subclasses__]. intros [Hc|Hc]; [by apply descends_direct|].
    apply list_elem_of_join in Hc as (l & Hc & Hl).
    apply list_elem_of_fmap in Hl as (x & -> & Hx).
    apply (descends_below _ x); [done|].
    rewrite Forall_forall in IH. by apply IH.
  - induction 1 as [root c Hc|root x c Hx _ IH];
      rewrite get_all_subclasses_unfold, elem_of_app; [by left|].
    right. apply list_elem_of_join. exists (__get_all_subclasses x).
    split; [done|]. apply list_elem_of_fmap. by exists x.
Qed.

Lemma first_with_id_response (classes : list ServiceClass) (given_id : Z) :
  first_with_id service_response_id (given_id + 0x40) classes
  = first_with_id service_request_id given_id classes.
Proof.
  induction classes as [|obj rest IH]; [done|].
  cbn [first_with_id]. rewrite IH.
  generalize (first_with_id service_request_id given_id rest). intros r.
  unfold service_response_id, service_request_id.
  destruct (service_sid obj) as [s|]; cbn [mbind result_bind]; [|done].
  destruct (s =? given_id) eqn:Hs.
  - apply Z.eqb_eq in Hs as ->. by rewrite Z.eqb_refl.
  - apply Z.eqb_neq in Hs. by rewrite (proj2 (Z.eqb_neq _ _)) by lia.
Qed.

(** X4.  Looking a service up by the response identifier [id + 0x40] gives
    what looking it up by the request identifier [id] gives: the same class,
    the same absence, or the same [AttributeError] of a class without
    [_sid]. *)
Theorem from_response_id_is_from_request_id_shifted
    (cls : ServiceClass) (given_id : Z) :
  from_response_id cls (given_id + 0x40) = from_request_id cls given_id.
Proof. apply first_with_id_response. Qed.

Lemma first_with_id_found (get_id : ServiceClass → result Z) (given_id : Z)
    (classes : list ServiceClass) (c : ServiceClass) :
  first_with_id get_id given_id classes = Ok (Some c) →
  c ∈ classes ∧ get_id c = Ok given_id.
Proof.
  induction classes as [|obj rest IH]; [done|]. cbn [first_with_id].
  destruct (get_id obj) as [i|e] eqn:Hi; [|done]. cbn [mbind result_bind].
  destruct (i =? given_id) eqn:Heq.
  - apply Z.eqb_eq in Heq as ->. intros [= <-]. split; [|done].
    apply elem_of_cons. by left.
  - intros [Hc Hid]%IH. split; [|done]. apply elem_of_cons. by right.
Qed.

Lemma first_with_id_absent (get_id : ServiceClass → result Z) (given_id : Z)
    (classes : list ServiceClass) :
  Forall (λ c, is_ok (get_id c) = true) classes →
  (∃ found, first_with_id get_id given_id classes = Ok found)
  ∧ (first_with_id get_id given_id classes = Ok None
     ↔ ∀ c, c ∈ classes → get_id c ≠ Ok given_id).
Proof.
  induction 1 as [|obj rest Hobj _ [[found IH1] IH2]].
  - split; [by exists None|]. split; [|done].
    intros _ c Hc. by apply elem_of_nil in Hc.
  - cbn [first_with_id]. destruct (get_id obj) as [i|e] eqn:Hi; [|done].
    cbn [mbind result_bind]. destruct (i =? given_id) eqn:Heq.
    + apply Z.eqb_eq in Heq as ->. split; [by eexists|].
      split; [done|]. intros Hnone. exfalso.
      apply (Hnone obj); [|done]. apply elem_of_cons. by left.
    + apply Z.eqb_neq in Heq. split; [by exists found|].
      rewrite IH2. split.
      * intros Hrest c [->|Hc]%elem_of_cons; [|by apply Hrest].
        rewrite Hi. congruence.
      * intros Hall c Hc. apply Hall, elem_of_cons. by right.
Qed.

(** X5.  When every proper descendant of a class has a [_sid],
    [from_request_id] always returns: a class it returns is a proper
    descendant whose request identifier is the one asked for, and it returns
    [None] exactly when no proper descendant has that identifier. *)
Theorem from_request_id_searches_the_descendants
    (cls : ServiceClass) (given_id : Z) :
  (∀ c, descends cls c → is_Some (service_sid c)) →
  (∃ found, from_request_id cls given_id = Ok found)
  ∧ (∀ c, from_request_id cls given_id = Ok (Some c) →
          descends cls c ∧ service_sid c = Some given_id)
  ∧ (from_request_id cls given_id = Ok None
     ↔ ∀ c, descends cls c → service_sid c ≠ Some given_id).
Proof.
  intros Hsid. unfold from_request_id.
  assert (Forall (λ c, is_ok (service_request_id c) = true)
                 (__get_all_subclasses cls)) as Hall.
  { apply Forall_forall. intros c Hc%elem_of_get_all_subclasses.
    unfold service_request_id. by destruct (Hsid c Hc) as [s ->]. }
  destruct (first_with_id_absent service_request_id given_id _ Hall)
    as [Hfound Hnone].
  split; [done|]. split.
  - intros c [Hc Hid]%first_with_id_found.
    split; [by apply elem_of_get_all_subclasses|].
    unfold service_request_id in Hid.
    destruct (service_sid c); congruence.
  - rewrite Hnone. split.
    + intros H c Hc%elem_of_get_all_subclasses Hs. apply (H c Hc).
      unfold service_request_id. by rewrite Hs.
    + intros H c Hc%elem_of_get_all_subclasses Hid. apply (H c Hc).
      unfold service_request_id in Hid. destruct (service_sid c); congruence.
Qed.

Lemma sample_hierarchy_descendants (c : ServiceClass) :
  descends sample_hierarchy c → is_Some (service_sid c).
Proof.
  intros Hc%elem_of_get_all_subclasses. cbn in Hc.
  rewrite !elem_of_cons, elem_of_nil in Hc.
  destruct Hc as [->|[->|[->|[]]]]; by eexists.
Qed.

(** X5, witness: in the sample hierarchy the identifier 0x50 belongs to a
    subclass of a subclass, and 0x27 to no class. *)
Lemma from_request_id_searches_the_descendants_witness :
  (∃ found, from_request_id sample_hierarchy 0x50 = Ok found)
  ∧ (∀ c, from_request_id sample_hierarchy 0x50 = Ok (Some c) →
          descends sample_hierarchy c ∧ service_sid c = Some 0x50)
  ∧ (from_request_id sample_hierarchy 0x50 = Ok None
     ↔ ∀ c, descends sample_hierarchy c → service_sid c ≠ Some 0x50).
Proof.
  apply (from_request_id_searches_the_descendants sample_hierarchy 0x50).
  apply sample_hierarchy_descendants.
Defined.

(** * The chunks of a payload format *)

Lemma split_tokens_length (ts : list Token) :
  length (split_tokens ts)
  = S (length (filter (λ t, t = Placeholder) ts)).
Proof.
  induction ts as [|[|c] ts IH]; [done| |].
  - cbn [split_tokens]. rewrite filter_cons, decide_True by done.
    cbn [length]. by rewrite IH.
  - cbn [split_tokens]. rewrite filter_cons, decide_False by done.
    destruct (split_tokens ts) as [|h t]; [done|]. exact IH.
Qed.

Lemma iter_payload_fmt_length (cls : DataClass) (sf : Z) :
  length (ServiceData._iter_payload_fmt cls sf)
  = length (split_placeholder (ServiceData.joined_fmt cls sf)).
Proof.
  unfold ServiceData._iter_payload_fmt. cbn zeta.
  destruct (split_placeholder _) as [|first others]; [done|].
  cbn [length]. by rewrite length_fmap.
Qed.

Lemma tokens_payload_fmt (cls : DataClass) (sf : Z) :
  tokens (ServiceData.get_payload_fmt cls sf)
  = Char ">" :: tokens (ServiceData.joined_fmt cls sf).
Proof.
  unfold ServiceData.get_payload_fmt, _ENDIANNESS.
  change (">" +:+ ?s) with (String ">" s).
  by apply tokens_cons_not_brace.
Qed.

(** X6.  [_iter_payload_fmt] returns one chunk more than the payload format
    has length placeholders: a single chunk for a format of fixed size, and
    never the empty tuple that [pack] tests for. *)
Theorem iter_payload_fmt_has_one_chunk_per_placeholder
    (cls : DataClass) (sf : Z) :
  length (ServiceData._iter_payload_fmt cls sf)
  = S (placeholder_count (ServiceData.get_payload_fmt cls sf)).
Proof.
  rewrite iter_payload_fmt_length. unfold split_placeholder, placeholder_count.
  rewrite split_tokens_length, tokens_payload_fmt.
  by rewrite filter_cons, decide_False by done.
Qed.

Lemma text_of_tokens_inv (s : string) :
  text_of_tokens (tokens s) = s
  ∧ ∀ c, text_of_tokens (tokens (String c s)) = String c s.
Proof.
  induction s as [|c' s [IH1 IH2]]; [by split|].
  split; [apply IH2|]. intros c. cbn [tokens].
  destruct (is_placeholder c c') eqn:Hp.
  - unfold is_placeholder in Hp.
    apply andb_true_iff in Hp
      as [->%bool_decide_eq_true ->%bool_decide_eq_true].
    cbn [text_of_tokens]. by rewrite IH1.
  - cbn [text_of_tokens]. f_equal. apply IH2.
Qed.

Lemma text_of_split_tokens (ts : list Token) :
  match split_tokens ts with
  | [] => False
  | first :: others =>
      first +:+ String.concat "" ((λ chunk, PLACEHOLDER +:+ chunk) <$> others)
      = text_of_tokens ts
  end.
Proof.
  induction ts as [|[|c] ts IH]; [done| |].
  - cbn [split_tokens text_of_tokens].
    destruct (split_tokens ts) as [|first others]; [done|].
    cbn [fmap list_fmap]. rewrite concat_cons, append_assoc.
    change ("" +:+ ?s) with s. by rewrite IH.
  - cbn [split_tokens text_of_tokens].
    destruct (split_tokens ts) as [|first others]; [done|].
    change (String c first +:+ ?s) with (String c (first +:+ s)).
    by rewrite IH.
Qed.

(** X7.  The chunks lose nothing of the payload format: stripped of the
    byte-order mark that each of them starts with and joined again, they give
    the payload format back. *)
Theorem iter_payload_fmt_rejoins_to_payload_fmt (cls : DataClass) (sf : Z) :
  _ENDIANNESS
  +:+ String.concat "" (string_tail <$> ServiceData._iter_payload_fmt cls sf)
  = ServiceData.get_payload_fmt cls sf.
Proof.
  unfold ServiceData._iter_payload_fmt, ServiceData.get_payload_fmt.
  cbn zeta. unfold split_placeholder. f_equal.
  pose proof (text_of_split_tokens (tokens (ServiceData.joined_fmt cls sf)))
    as Hsplit.
  destruct (split_tokens _) as [|first others]; [done|].
  rewrite (proj1 (text_of_tokens_inv _)) in Hsplit. rewrite <- Hsplit.
  rewrite fmap_cons, concat_cons. f_equal.
  rewrite <- list_fmap_compose. f_equal.
Qed.

(** * Records without parameters *)

Lemma no_parameter_names (cls : DataClass) (sf : Z) :
  ServiceData.get_parameter_names cls sf = [] →
  ServiceData._iter_parameter_fields cls sf = [].
Proof.
  unfold ServiceData.get_parameter_names, ServiceData._iter_parameter_names.
  apply fmap_nil_inv.
Qed.

(** X8.  A record to whose subfunction no parameter applies packs to the
    empty byte string, and unpacking the empty byte string for that
    subfunction gives the record of defaults of the type, whose subfunction
    is 0 whatever subfunction was asked for. *)
Theorem record_without_parameters_packs_to_nothing (self : Instance) :
  ServiceData.get_parameter_names (type_of self) (subfunction self) = [] →
  ServiceData.pack self = Ok []
  ∧ ServiceData.unpack (type_of self) (Some []) (subfunction self)
    = Ok (default_record (type_of self)).
Proof.
  intros Hnames. split.
  - rewrite pack_eq. cbn zeta.
    unfold ServiceData._iter_payload_fmt, ServiceData.joined_fmt, scaled_values.
    rewrite parameter_values_fields, (no_parameter_names _ _ Hnames).
    by vm_compute.
  - unfold ServiceData.unpack. cbn zeta. rewrite Hnames.
    rewrite bool_decide_eq_true_2 by done. cbn [ServiceData.data_given].
    apply new_instance_default.
Qed.

(** X8, witness: a record of [EmptyServiceData]. *)
Lemma record_without_parameters_packs_to_nothing_witness :
  ServiceData.pack empty_record = Ok []
  ∧ ServiceData.unpack EmptyServiceData (Some []) NO_SUBFUNCTION
    = Ok (default_record EmptyServiceData).
Proof.
  apply (record_without_parameters_packs_to_nothing empty_record).
  reflexivity.
Defined.

(** * Parameter items and variable-length parameters *)

(** X9.  [get_parameter_items] pairs every applicable parameter name with
    its scaled value, in order: the [zip] drops no name, since there is one
    value and one scaling factor per name. *)
Theorem parameter_items_pair_every_name (self : Instance) (sf : Z) :
  (ServiceData.get_parameter_items self sf).*1
  = ServiceData.get_parameter_names (type_of self) sf
  ∧ (ServiceData.get_parameter_items self sf).*2
    = ServiceData.get_parameter_values self sf true
  ∧ length (ServiceData.get_parameter_values self sf true)
    = length (ServiceData.get_parameter_names (type_of self) sf).
Proof.
  assert (length (ServiceData.get_parameter_values self sf true)
          = length (ServiceData.get_parameter_names (type_of self) sf))
    as Hlen.
  { rewrite parameter_values_fields.
    unfold ServiceData.get_parameter_names, ServiceData._iter_parameter_names.
    by rewrite !length_fmap. }
  unfold ServiceData.get_parameter_items. split; [|split; [|done]].
  - apply fst_zip. lia.
  - apply snd_zip. lia.
Qed.

Lemma variadic_indexes_from (fs : list UdsField.t) (start : nat) :
  Forall2 (λ i f, (start ≤ i)%nat ∧ fs !! (i - start)%nat = Some f)
    (fst <$> filter (λ p : nat * UdsField.t,
                       UdsField.has_variable_length p.2 = true)
                    (zip (seq start (length fs)) fs))
    (filter (λ f, UdsField.has_variable_length f = true) fs).
Proof.
  revert start. induction fs as [|f fs IH]; intros start; [constructor|].
  cbn [length seq zip zip_with].
  assert (Forall2 (λ i f', (start ≤ i)%nat
                           ∧ (f :: fs) !! (i - start)%nat = Some f')
            (fst <$> filter (λ p : nat * UdsField.t,
                               UdsField.has_variable_length p.2 = true)
                            (zip (seq (S start) (length fs)) fs))
            (filter (λ f, UdsField.has_variable_length f = true) fs)) as Hrest.
  { eapply Forall2_impl; [apply (IH (S start))|].
    intros i f' [Hi Hf]. split; [lia|].
    replace (i - start)%nat with (S (i - S start)) by lia. exact Hf. }
  rewrite !filter_cons. cbn [snd].
  destruct (decide (UdsField.has_variable_length f = true)); [|done].
  cbn [fmap list_fmap fst]. constructor; [|done].
  split; [lia|]. by rewrite Nat.sub_diag.
Qed.

(** X10.  [get_variadic_fields_indexes] and [get_variadic_parameter_names]
    agree: the i-th index is the position, among the applicable parameter
    names, of the i-th variable-length parameter name.  And
    [has_variadic_fields] holds exactly when there is such an index. *)
Theorem variadic_indexes_point_at_variadic_names (cls : DataClass) (sf : Z) :
  Forall2 (λ i name, ServiceData.get_parameter_names cls sf !! i = Some name)
          (ServiceData.get_variadic_fields_indexes cls sf)
          (ServiceData.get_variadic_parameter_names cls sf)
  ∧ (ServiceData.has_variadic_fields cls sf = true
     ↔ ServiceData.get_variadic_fields_indexes cls sf ≠ []).
Proof.
  unfold ServiceData.get_variadic_fields_indexes,
    ServiceData.get_variadic_parameter_names, ServiceData.get_parameter_names,
    ServiceData._iter_parameter_names, ServiceData.has_variadic_fields,
    enumerate.
  generalize (ServiceData._iter_parameter_fields cls sf). intros fs.
  pose proof (variadic_indexes_from fs 0) as Hfrom. split.
  - apply Forall2_fmap_r. eapply Forall2_impl; [exact Hfrom|].
    intros i f [_ Hf]. rewrite Nat.sub_0_r in Hf.
    by rewrite list_lookup_fmap, Hf.
  - apply Forall2_length in Hfrom. rewrite existsb_exists. split.
    + intros (f & Hin & Hf) Hnil. rewrite Hnil in Hfrom. cbn in Hfrom.
      symmetry in Hfrom. apply nil_length_inv in Hfrom.
      apply list_elem_of_In in Hin.
      assert (f ∈ filter (λ f, UdsField.has_variable_length f = true) fs)
        as Hmem by by apply list_elem_of_filter.
      rewrite Hfrom in Hmem. by apply elem_of_nil in Hmem.
    + intros Hne.
      destruct (filter (λ f, UdsField.has_variable_length f = true) fs)
        as [|f l] eqn:Hfilter.
      { cbn in Hfrom. by apply nil_length_inv in Hfrom. }
      assert (f ∈ filter (λ f, UdsField.has_variable_length f = true) fs)
        as [Hf Hin]%list_elem_of_filter by (rewrite Hfilter; left).
      exists f. split; [by apply list_elem_of_In|done].
Qed.

(** * Resolutions and scaling factors *)

Lemma py_mul_one (v : PyVal) :
  is_exact v = true → py_mul v (VInt 1) = Ok v.
Proof.
  destruct v as [z|b|f|l|s]; try done; intros _; cbn.
  - by rewrite Z.mul_1_r.
  - unfold seq_repeat.
    change (PY_SSIZE_T_MAX <? 1) with false.
    change (Z.to_nat 1) with 1%nat. cbn. by rewrite app_nil_r.
Qed.

(** X11.  A field declared with a resolution that equals 1 (the int 1,
    [True] or the float 1.0) gets the int 1 as scaling factor, not the
    float 1.0; scaling by it gives an int, a bytes or a str value back
    unchanged. *)
Theorem unit_resolution_scales_by_the_int_one
    (name : string) (default : PyVal) (fmt : string) (subfunctions : list Z)
    (resolution : PyVal) :
  py_eq resolution (VInt 1) = true →
  ∃ f, UdsField.init name default fmt subfunctions resolution = Ok f
       ∧ UdsField.scale_factor f = VInt 1
       ∧ ∀ v, is_exact v = true → py_mul v (UdsField.scale_factor f) = Ok v.
Proof.
  intros Hone. unfold UdsField.init. rewrite Hone. cbn [mbind result_bind].
  eexists. split; [reflexivity|]. cbn [UdsField.scale_factor].
  split; [done|]. apply py_mul_one.
Qed.

(** X11, witness: the resolution 1.0. *)
Lemma unit_resolution_scales_by_the_int_one_witness :
  ∃ f, UdsField.init "some_bytes" (VBytes []) "4s" [] (VFloat float_one) = Ok f
       ∧ UdsField.scale_factor f = VInt 1
       ∧ ∀ v, is_exact v = true → py_mul v (UdsField.scale_factor f) = Ok v.
Proof.
  apply (unit_resolution_scales_by_the_int_one
           "some_bytes" (VBytes []) "4s" [] (VFloat float_one)).
  reflexivity.
Defined.

(** X12.  Declaring a field with a zero resolution fails with
    [ZeroDivisionError]: for a float resolution exactly when it is a zero,
    and also for the int 0 and [False].  A resolution that is a bytes or a
    str fails with [TypeError]. *)
Theorem init_rejects_zero_and_non_numeric_resolutions
    (name : string) (default : PyVal) (fmt : string) (subfunctions : list Z) :
  (∀ r, UdsField.init name default fmt subfunctions (VFloat r)
        = Raise ZeroDivisionError
        ↔ float_is_zero r = true)
  ∧ UdsField.init name default fmt subfunctions (VInt 0)
    = Raise ZeroDivisionError
  ∧ UdsField.init name default fmt subfunctions (VBool false)
    = Raise ZeroDivisionError
  ∧ (∀ b, UdsField.init name default fmt subfunctions (VBytes b)
          = Raise TypeError)
  ∧ (∀ s, UdsField.init name default fmt subfunctions (VStr s)
          = Raise TypeError).
Proof.
  split; [|by repeat split].
  intros r. unfold UdsField.init.
  destruct (py_eq (VFloat r) (VInt 1)) eqn:Hone.
  - cbn [mbind result_bind]. split; [done|]. intros Hzero.
    by destruct r.
  - unfold UdsField.inverse.
    change (float_of_Z 1) with (Ok float_one).
    cbn [mbind result_bind]. destruct (float_is_zero r); by split.
Qed.

(** * Integers on the wire *)

Lemma Z_of_byte_of_Z (z : Z) : Z_of_byte (byte_of_Z z) = z mod 256.
Proof.
  unfold Z_of_byte, byte_of_Z.
  assert (0 ≤ z mod 256 < 256) as Hz by (apply Z.mod_pos_bound; lia).
  destruct (Byte.of_N (Z.to_N (z mod 256))) as [b|] eqn:Hb.
  - cbn [default from_option id]. apply Byte.to_of_N in Hb. rewrite Hb. lia.
  - apply Byte.of_N_None_iff in Hb. lia.
Qed.

Lemma fold_to_bytes_big (len : nat) (z acc : Z) :
  fold_left (λ acc b, acc * 256 + Z_of_byte b) (to_bytes_big len z) acc
  = acc * 2 ^ (8 * Z.of_nat len) + z mod 2 ^ (8 * Z.of_nat len).
Proof.
  revert acc. induction len as [|k IH]; intros acc.
  - cbn. rewrite Z.mod_1_r. lia.
  - cbn [to_bytes_big fold_left]. rewrite IH, Z_of_byte_of_Z.
    rewrite Z.shiftr_div_pow2 by lia.
    replace (8 * Z.of_nat (S k)) with (8 * Z.of_nat k + 8) by lia.
    rewrite Z.pow_add_r by lia. change (2 ^ 8) with 256.
    rewrite (Z.rem_mul_r z (2 ^ (8 * Z.of_nat k)) 256) by lia. ring.
Qed.

(** Reading back the bytes of an integer gives its low bits. *)
Lemma from_to_bytes_big (len : nat) (z : Z) :
  from_bytes_big (to_bytes_big len z) = z mod 2 ^ (8 * Z.of_nat len).
Proof. unfold from_bytes_big. rewrite fold_to_bytes_big. lia. Qed.

Lemma code_int_size (c : ascii) (size : nat) (signed : bool) :
  code_of_ascii c = Some (CInt size signed) → (1 ≤ size ≤ 8)%nat.
Proof.
  destruct c as [[] [] [] [] [] [] [] []]; intros H;
    try discriminate H; injection H as <- <-; lia.
Qed.

(** An integer within the range of its code is packed, and unpacked to
    itself. *)
Lemma pack_int_inverse (size : nat) (signed : bool) (z : Z) :
  (1 ≤ size)%nat → in_int_range size signed z = true →
  pack_int size signed (VInt z) = Ok (to_bytes_big size z)
  ∧ unpack_slot (SOne (CInt size signed)) (to_bytes_big size z) = VInt z.
Proof.
  intros Hsize Hrange. unfold in_int_range in Hrange. cbn zeta in Hrange.
  assert (2 ^ (8 * Z.of_nat size) = 2 * 2 ^ (8 * Z.of_nat size - 1)) as Hpow.
  { rewrite <- Z.pow_succ_r by lia. f_equal. lia. }
  assert (0 < 2 ^ (8 * Z.of_nat size - 1)) as Hpos
    by (apply Z.pow_pos_nonneg; lia).
  split.
  - unfold pack_int. cbn [py_index]. cbn zeta.
    destruct signed; by rewrite Hrange.
  - cbn [unpack_slot]. rewrite from_to_bytes_big. f_equal.
    destruct signed.
    + apply andb_true_iff in Hrange as [Hlo%Z.leb_le Hhi%Z.ltb_lt].
      unfold to_signed. destruct (decide (0 ≤ z)) as [Hz|Hz].
      * rewrite Z.mod_small by lia. by rewrite (proj2 (Z.ltb_lt _ _)) by lia.
      * rewrite <- (Z.mod_add z 1) by lia. rewrite Z.mod_small by lia.
        rewrite (proj2 (Z.ltb_ge _ _)) by lia. lia.
    + apply andb_true_iff in Hrange as [Hlo%Z.leb_le Hhi%Z.ltb_lt].
      apply Z.mod_small. lia.
Qed.

(** * Records of integers: [unpack] inverts [pack] *)

Lemma holds_integer_inv (self : Instance) (f : UdsField.t) :
  holds_integer self f = true →
  ∃ c size signed z,
    UdsField.fmt f = String c EmptyString
    ∧ code_of_ascii c = Some (CInt size signed)
    ∧ UdsField.resolution f = VInt 1
    ∧ UdsField.scale_factor f = VInt 1
    ∧ getattribute self (UdsField.name f) = Ok (VInt z)
    ∧ in_int_range size signed z = true.
Proof.
  unfold holds_integer, integer_code, unscaled.
  destruct (UdsField.fmt f) as [|c [|c' rest]]; try discriminate.
  destruct (code_of_ascii c) as [[| | |size signed| | |]|] eqn:Hcode;
    try discriminate.
  destruct (getattribute self (UdsField.name f)) as [[z| | | |]|];
    try discriminate.
  destruct (UdsField.resolution f) as [r| | | |]; try discriminate.
  destruct (UdsField.scale_factor f) as [s| | | |]; try discriminate.
  intros [[->%Z.eqb_eq ->%Z.eqb_eq]%andb_true_iff Hrange]%andb_true_iff.
  by exists c, size, signed, z.
Qed.

Lemma integer_fields_codec (self : Instance) (fs : list UdsField.t) :
  Forall (λ f, holds_integer self f = true) fs →
  ∃ items vals out,
    parse_codes (static_fmt fs) None = Ok items
    ∧ string_forall format_char (static_fmt fs) = true
    ∧ sequence (field_value self <$> fs) = Ok vals
    ∧ Forall2 (λ f v, getattribute self (UdsField.name f) = Ok v) fs vals
    ∧ slots_nargs (items ≫= item_slots) = length fs
    ∧ pack_slots (items ≫= item_slots) vals = Ok out
    ∧ (∀ slots data,
         unpack_slots ((items ≫= item_slots) ++ slots) (out ++ data)
         = vals ++ unpack_slots slots data)
    ∧ Z.of_nat (length out) = items_size items
    ∧ Z.of_nat (length fs) ≤ items_size items ≤ 8 * Z.of_nat (length fs)
    ∧ ServiceData.scaled_kwargs (UdsField.name <$> fs) vals
                                (UdsField.resolution <$> fs)
      = Ok (zip (UdsField.name <$> fs) vals).
Proof.
  induction 1 as [|f fs Hf _ IH].
  { exists [], [], []. by repeat split. }
  destruct IH as (items & vals & out & Hparse & Hchars & Hvals & Hattr
                  & Hnargs & Hpack & Hunpack & Hlen & Hsize & Hkw).
  destruct (holds_integer_inv self f Hf)
    as (c & size & signed & z & Hfmt & Hcode & Hres & Hscale & Hz & Hrange).
  destruct (code_char c _ Hcode) as (Hdigit & Hspace & Hchar).
  pose proof (code_int_size c size signed Hcode) as Hsz.
  destruct (pack_int_inverse size signed z) as [Hp Hu]; [lia|done|].
  assert (static_fmt (f :: fs) = String c (static_fmt fs)) as Hstatic.
  { unfold static_fmt. rewrite fmap_cons, concat_cons, Hfmt. done. }
  assert (field_value self f = Ok (VInt z)) as Hfv.
  { unfold field_value. rewrite Hz, Hscale.
    cbn [mbind result_bind py_mul py_index]. by rewrite Z.mul_1_r. }
  set (it := {| it_code := CInt size signed; it_count := 1 |}).
  assert (item_slots it = [SOne (CInt size signed)]) as Hslots by done.
  exists (it :: items), (VInt z :: vals), (to_bytes_big size z ++ out).
  repeat split.
  - rewrite Hstatic. cbn [parse_codes]. rewrite Hdigit, Hspace, Hcode.
    cbn [andb]. rewrite Hparse. by destruct signed.
  - rewrite Hstatic. cbn [string_forall]. by rewrite Hchar, Hchars.
  - rewrite fmap_cons. cbn [sequence]. by rewrite Hfv, Hvals.
  - by constructor.
  - cbn [mbind list_bind]. rewrite Hslots. cbn [app].
    rewrite slots_nargs_cons. cbn [slot_takes_arg length]. by f_equal.
  - cbn [mbind list_bind]. rewrite Hslots. cbn [app pack_slots pack_slot].
    rewrite Hp. cbn [mbind result_bind]. by rewrite Hpack.
  - intros slots data. cbn [mbind list_bind]. rewrite Hslots.
    cbn [app unpack_slots slot_size code_size slot_takes_arg].
    rewrite Nat2Z.id, <- app_assoc.
    rewrite take_app_length', drop_app_length'
      by (by rewrite length_to_bytes_big).
    by rewrite Hu, Hunpack.
  - rewrite length_app, length_to_bytes_big, Nat2Z.inj_add, Hlen.
    cbn [items_size foldr]. unfold item_size at 1.
    cbn [it it_count it_code code_size].
    fold (items_size items). lia.
  - cbn [items_size foldr length]. unfold item_size at 1.
    cbn [it it_count it_code code_size]. fold (items_size items). lia.
  - cbn [items_size foldr length]. unfold item_size at 1.
    cbn [it it_count it_code code_size]. fold (items_size items). lia.
  - rewrite !fmap_cons. cbn [ServiceData.scaled_kwargs]. rewrite Hres.
    cbn [py_mul py_index mbind result_bind]. rewrite Z.mul_1_r.
    by rewrite Hkw.
Qed.

Lemma iter_parameter_fields_declared (cls : DataClass) (sf : Z) :
  ServiceData._iter_parameter_fields cls sf
  = omap (ServiceData.as_uds_field sf) (declared cls).
Proof. reflexivity. Qed.

Lemma uds_field_names_declared (l : list DataclassField) (sf : Z) (n : string) :
  n ∈ UdsField.name <$> omap (ServiceData.as_uds_field sf) l →
  n ∈ field_name <$> l.
Proof.
  induction l as [|d l IH]; [done|]. cbn [omap list_omap].
  rewrite fmap_cons, elem_of_cons.
  destruct d as [k v|u]; cbn [ServiceData.as_uds_field field_name].
  - intros H. right. by apply IH.
  - destruct (UdsField.supports_subfonction u sf).
    + rewrite fmap_cons, elem_of_cons. intros [->|H]; [by left|].
      right. by apply IH.
    + intros H. right. by apply IH.
Qed.

Lemma uds_field_names_NoDup (l : list DataclassField) (sf : Z) :
  NoDup (field_name <$> l) →
  NoDup (UdsField.name <$> omap (ServiceData.as_uds_field sf) l).
Proof.
  induction l as [|d l IH]; [constructor|].
  rewrite fmap_cons, NoDup_cons. intros [Hd Hl]. cbn [omap list_omap].
  destruct d as [k v|u]; cbn [ServiceData.as_uds_field field_name] in *.
  - by apply IH.
  - destruct (UdsField.supports_subfonction u sf); [|by apply IH].
    rewrite fmap_cons. apply NoDup_cons. split; [|by apply IH].
    intros Hin. by apply Hd, (uds_field_names_declared l sf).
Qed.

Lemma NoDup_reversed {A} (l : list A) : NoDup l → NoDup (reverse l).
Proof. intros H. by rewrite reverse_Permutation. Qed.

(** The generated [__init__] on keywords that name declared fields, each
    once. *)
Lemma new_instance_attributes (cls : DataClass) (sf : Z)
    (kwargs : list (string * PyVal)) :
  NoDup (field_name <$> fields cls) →
  NoDup kwargs.*1 →
  (∀ n, n ∈ kwargs.*1 → n ∈ field_name <$> declared cls) →
  ∃ other,
    new_instance cls sf kwargs = Ok other
    ∧ type_of other = cls
    ∧ subfunction other = sf
    ∧ (∀ n v, (n, v) ∈ kwargs → getattribute other n = Ok v)
    ∧ (∀ d, d ∈ declared cls → field_name d ∉ kwargs.*1 →
            getattribute other (field_name d) = Ok (field_default d)).
Proof.
  unfold fields. rewrite fmap_cons, NoDup_cons.
  cbn [field_name subfunction_field]. intros [Hsub Hdecl] Hkw Hnames.
  assert (∀ n, n ∈ field_name <$> declared cls → n ≠ "subfunction"%string)
    as Hne by (intros n Hn ->; done).
  unfold new_instance.
  rewrite (proj2 (forallb_forall _ kwargs)).
  2: { intros [n v] Hin%list_elem_of_In. cbn [fst].
       assert (n ∈ field_name <$> declared cls) as Hn.
       { apply Hnames, list_elem_of_fmap. by exists (n, v). }
       rewrite (bool_decide_eq_true_2 _ Hn).
       by rewrite (bool_decide_eq_false_2 _ (Hne n Hn)). }
  eexists. split; [reflexivity|]. cbn [type_of subfunction].
  split; [done|]. split; [done|]. split.
  - intros n v Hin. unfold getattribute. cbn [attrs].
    assert (n ≠ "subfunction"%string) as Hn.
    { apply Hne, Hnames, list_elem_of_fmap. by exists (n, v). }
    rewrite (bool_decide_eq_false_2 _ Hn).
    erewrite lookup_union_Some_l; [done|].
    apply elem_of_list_to_map_1.
    + rewrite fmap_reverse. by apply NoDup_reversed.
    + by apply elem_of_reverse.
  - intros d Hd Hfresh. unfold getattribute. cbn [attrs].
    assert (field_name d ≠ "subfunction"%string) as Hn.
    { apply Hne, list_elem_of_fmap. by exists d. }
    rewrite (bool_decide_eq_false_2 _ Hn).
    rewrite lookup_union_r.
    + erewrite elem_of_list_to_map_1; [done| |].
      * rewrite fmap_reverse, <- list_fmap_compose. by apply NoDup_reversed.
      * apply elem_of_reverse, list_elem_of_fmap. by exists d.
    + apply not_elem_of_list_to_map_1. rewrite fmap_reverse.
      by rewrite elem_of_reverse.
Qed.

(** X13.  For a record whose applicable parameters are all declared as one
    integer code without scaling and hold integers within the range of their
    code, [pack] returns bytes and [unpack] of these bytes, for the same
    subfunction, returns a record of the same type and subfunction with the
    same values of the applicable parameters; the declared fields that do not
    apply to the subfunction come back with their defaults. *)
Theorem unpack_inverts_pack_on_integer_records (self : Instance) :
  NoDup (field_name <$> fields (type_of self)) →
  ServiceData.get_parameter_names (type_of self) (subfunction self) ≠ [] →
  Z.of_nat (length (ServiceData.get_parameter_names
                      (type_of self) (subfunction self))) < 2 ^ 60 →
  Forall (λ f, holds_integer self f = true)
         (ServiceData._iter_parameter_fields
            (type_of self) (subfunction self)) →
  ∃ data other,
    ServiceData.pack self = Ok data
    ∧ ServiceData.unpack (type_of self) (Some data) (subfunction self)
      = Ok other
    ∧ type_of other = type_of self
    ∧ subfunction other = subfunction self
    ∧ (∀ n, n ∈ ServiceData.get_parameter_names
                  (type_of self) (subfunction self) →
            getattribute other n = getattribute self n)
    ∧ (∀ d, d ∈ declared (type_of self) →
            field_name d ∉ ServiceData.get_parameter_names
                             (type_of self) (subfunction self) →
            getattribute other (field_name d) = Ok (field_default d)).
Proof.
  set (cls := type_of self). set (sf := subfunction self).
  intros Hnodup Hnames Hcount Hfields.
  unfold ServiceData.get_parameter_names, ServiceData._iter_parameter_names
    in *.
  set (fs := ServiceData._iter_parameter_fields cls sf) in *.
  destruct (integer_fields_codec self fs Hfields)
    as (items & vals & out & Hparse & Hchars & Hvals & Hattr & Hnargs
        & Hpack & Hunpack & Hlen & Hsize & Hkw).
  rewrite length_fmap in Hcount.
  assert (fs ≠ []) as Hfs by (intros Hnil; by rewrite Hnil in Hnames).
  assert (0 < Z.of_nat (length fs)) as Hpos by (destruct fs; [done|cbn; lia]).
  assert (length vals = length fs) as Hvlen.
  { symmetry. by eapply Forall2_length. }
  (* the format is one chunk *)
  assert (ServiceData._iter_payload_fmt cls sf = [">" +:+ static_fmt fs])
    as Hfmt.
  { unfold ServiceData._iter_payload_fmt, split_placeholder. cbn zeta.
    change (ServiceData.joined_fmt cls sf) with (static_fmt fs).
    rewrite tokens_brace_free by by apply format_char_brace_free.
    by rewrite split_tokens_chars_only. }
  assert (struct_compile (">" +:+ static_fmt fs) = Ok items) as Hcompile.
  { rewrite struct_compile_body by done. rewrite Hparse.
    cbn [mbind result_bind].
    rewrite (proj2 (Z.ltb_ge _ _)); [done|]. unfold PY_SSIZE_T_MAX. lia. }
  (* the keywords that [unpack] builds *)
  destruct (new_instance_attributes cls sf (zip (UdsField.name <$> fs) vals))
    as (other & Hnew & Htype & Hsub & Hset & Hdefault).
  { done. }
  { rewrite fst_zip by (rewrite length_fmap; lia).
    unfold fs. rewrite iter_parameter_fields_declared.
    apply uds_field_names_NoDup. unfold fields in Hnodup.
    rewrite fmap_cons in Hnodup. by apply NoDup_cons in Hnodup as [_ ?]. }
  { intros n. rewrite fst_zip by (rewrite length_fmap; lia).
    unfold fs. rewrite iter_parameter_fields_declared.
    apply uds_field_names_declared. }
  exists out, other. split; [|split; [|split; [done|split; [done|split]]]].
  - rewrite pack_eq. cbn zeta. fold cls sf. rewrite Hfmt.
    unfold scaled_values. fold cls sf.
    rewrite parameter_values_fields. fold cls fs. rewrite Hvals.
    cbn [mbind result_bind]. unfold struct_pack. rewrite Hcompile.
    cbn [mbind result_bind].
    rewrite bool_decide_eq_true_2 by lia. done.
  - unfold ServiceData.unpack. cbn zeta.
    unfold ServiceData.get_parameter_names, ServiceData._iter_parameter_names.
    fold fs. rewrite (bool_decide_eq_false_2 _ Hnames).
    assert (ServiceData.data_given (Some out) = true) as ->.
    { destruct out; [cbn in Hlen; lia|done]. }
    cbn [negb default from_option id]. rewrite Hfmt.
    unfold struct_unpack. rewrite Hcompile. cbn [mbind result_bind].
    rewrite (bool_decide_eq_true_2 _ Hlen).
    specialize (Hunpack [] []). rewrite !app_nil_r in Hunpack.
    rewrite Hunpack.
    unfold ServiceData.get_parameter_resolutions. fold fs.
    cbn [mbind result_bind]. rewrite Hkw. cbn [mbind result_bind]. exact Hnew.
  - intros n Hn.
    assert (∃ v, (n, v) ∈ zip (UdsField.name <$> fs) vals
                 ∧ getattribute self n = Ok v) as (v & Hin & Hv).
    { clear -Hattr Hn. induction Hattr as [|f v fs vals Hf _ IH].
      - by apply elem_of_nil in Hn.
      - rewrite fmap_cons in Hn. apply elem_of_cons in Hn as [->|Hn].
        + exists v. split; [|done]. rewrite fmap_cons. cbn. by left.
        + destruct (IH Hn) as (v' & Hin & Hv'). exists v'.
          split; [|done]. rewrite fmap_cons. cbn. by right. }
    by rewrite (Hset n v Hin).
  - intros d Hd Hfresh. apply Hdefault; [done|].
    by rewrite fst_zip by (rewrite length_fmap; lia).
Qed.

(** X13, witness: a record of [CounterServiceData] with subfunction 1. *)
Lemma unpack_inverts_pack_on_integer_records_witness :
  ∃ data other,
    ServiceData.pack counter_record = Ok data
    ∧ ServiceData.unpack CounterServiceData (Some data) 1 = Ok other
    ∧ type_of other = CounterServiceData
    ∧ subfunction other = 1
    ∧ (∀ n, n ∈ ServiceData.get_parameter_names CounterServiceData 1 →
            getattribute other n = getattribute counter_record n)
    ∧ (∀ d, d ∈ declared CounterServiceData →
            field_name d ∉ ServiceData.get_parameter_names
                             CounterServiceData 1 →
            getattribute other (field_name d) = Ok (field_default d)).
Proof.
  apply (unpack_inverts_pack_on_integer_records counter_record).
  - apply (bool_decide_eq_true_1 _ (Decision0 := NoDup_dec _)). reflexivity.
  - discriminate.
  - reflexivity.
  - repeat constructor.
Defined.

(** * Formats of fixed size *)

Lemma struct_compile_inv (fmt : string) (items : list Item) :
  struct_compile fmt = Ok items →
  ∃ body, fmt = String ">" body ∧ parse_codes body None = Ok items.
Proof.
  unfold struct_compile. do 2 (case_match; [done|]).
  destruct fmt as [|c body]; [done|].
  case_bool_decide as Hc; [subst c|done].
  destruct (parse_codes body None) as [items'|e] eqn:Hp; [|done].
  cbn [mbind result_bind]. case_match; [done|]. intros [= <-].
  by exists body.
Qed.

Lemma struct_compile_slots (fmt : string) (items : list Item) :
  struct_compile fmt = Ok items →
  slots_size (items ≫= item_slots) = items_size items
  ∧ Forall (λ s, 0 ≤ slot_size s) (items ≫= item_slots).
Proof.
  intros (body & _ & Hp)%struct_compile_inv.
  apply items_slots_size. by eapply parse_codes_counts.
Qed.

(** X14.  For a format of fixed size, [unpack] accepts only data of exactly
    the size of the format: data that is shorter or longer, but not empty,
    is refused with [struct.error]. *)
Theorem unpack_refuses_data_of_another_size
    (cls : DataClass) (sf : Z) (fmt : string) (size : Z) (data : bytes) :
  ServiceData.get_parameter_names cls sf ≠ [] →
  ServiceData._iter_payload_fmt cls sf = [fmt] →
  struct_calcsize fmt = Ok size →
  data ≠ [] →
  Z.of_nat (length data) ≠ size →
  ServiceData.unpack cls (Some data) sf = Raise StructError.
Proof.
  intros Hnames Hfmt Hsize Hdata Hlen. unfold ServiceData.unpack. cbn zeta.
  rewrite (bool_decide_eq_false_2 _ Hnames), Hfmt.
  assert (ServiceData.data_given (Some data) = true) as ->
    by by destruct data.
  cbn [negb default from_option id]. unfold struct_unpack.
  unfold struct_calcsize in Hsize.
  destruct (struct_compile fmt) as [items|e]; [|done].
  cbn in Hsize. injection Hsize as <-. cbn [mbind result_bind].
  by rewrite (bool_decide_eq_false_2 _ Hlen).
Qed.

(** X14, witness: one byte for [SimpleServiceData], whose format takes
    twelve. *)
Lemma unpack_refuses_data_of_another_size_witness :
  ServiceData.unpack SimpleServiceData (Some [x01]) NO_SUBFUNCTION
  = Raise StructError.
Proof.
  apply (unpack_refuses_data_of_another_size
           SimpleServiceData NO_SUBFUNCTION ">df" 12 [x01]).
  - discriminate.
  - reflexivity.
  - reflexivity.
  - discriminate.
  - discriminate.
Defined.

(** X15.  When the payload format of a record has a fixed size, the bytes
    that [pack] returns have exactly that size, whatever the values of the
    parameters. *)
Theorem pack_of_fixed_format_has_the_size_of_the_format
    (self : Instance) (fmt : string) (out : bytes) :
  ServiceData._iter_payload_fmt (type_of self) (subfunction self) = [fmt] →
  ServiceData.pack self = Ok out →
  struct_calcsize fmt = Ok (Z.of_nat (length out)).
Proof.
  intros Hfmt. rewrite pack_eq. cbn zeta. rewrite Hfmt.
  destruct (scaled_values self) as [args|e]; [|done].
  cbn [mbind result_bind]. unfold struct_pack, struct_calcsize.
  destruct (struct_compile fmt) as [items|e] eqn:Hc; [|done].
  cbn [mbind result_bind]. case_bool_decide; [|done]. intros Hpack.
  destruct (struct_compile_slots _ _ Hc) as [Hsize Hpos].
  cbn. f_equal. rewrite <- Hsize. symmetry.
  by eapply pack_slots_length.
Qed.

(** X15, witness: the defaults of [SimpleServiceData] take twelve bytes. *)
Lemma pack_of_fixed_format_has_the_size_of_the_format_witness :
  struct_calcsize ">df"
  = Ok (Z.of_nat (length [x40; x45; x00; x00; x00; x00; x00; x00;
                          x40; x48; xf5; xc3])).
Proof.
  apply (pack_of_fixed_format_has_the_size_of_the_format simple_record).
  - reflexivity.
  - vm_compute. reflexivity.
Defined.

(** * Responses to DiagnosticSessionControl *)

Lemma Z_of_byte_range (b : byte) : 0 ≤ Z_of_byte b < 256.
Proof. unfold Z_of_byte. pose proof (Byte.to_N_bounded b). lia. Qed.

Lemma two_bytes_range (high low : byte) :
  from_bytes_big [high; low] = 256 * Z_of_byte high + Z_of_byte low
  ∧ 0 ≤ from_bytes_big [high; low] < 65536.
Proof.
  pose proof (Z_of_byte_range high). pose proof (Z_of_byte_range low).
  unfold from_bytes_big. cbn [fold_left]. lia.
Qed.

Lemma elem_of_byte_values (z : Z) : 0 ≤ z < 256 → z ∈ byte_values.
Proof.
  intros Hz. unfold byte_values. apply list_elem_of_fmap.
  exists (Z.to_nat z). split; [lia|]. apply elem_of_seq. lia.
Qed.

Lemma small_ints_convert :
  forallb (λ high,
             forallb (λ low, is_ok (float_of_Z (256 * high + low)))
                     byte_values)
          byte_values = true.
Proof. vm_compute. reflexivity. Qed.

(** An unsigned 16-bit number converts to a float without overflow. *)
Lemma float_of_two_bytes (high low : byte) :
  float_of_Z (from_bytes_big [high; low])
  = Ok (nearest_float (from_bytes_big [high; low])).
Proof.
  destruct (two_bytes_range high low) as [-> _].
  pose proof small_ints_convert as Hall.
  rewrite forallb_forall in Hall.
  specialize (Hall (Z_of_byte high)).
  rewrite forallb_forall in Hall.
  specialize (Hall (proj1 (list_elem_of_In _ _)
                      (elem_of_byte_values _ (Z_of_byte_range high)))
                   (Z_of_byte low)
                   (proj1 (list_elem_of_In _ _)
                      (elem_of_byte_values _ (Z_of_byte_range low)))).
  unfold float_of_Z, nearest_float in *.
  by destruct (binary_normalize 53 1024 _ 0 false).
Qed.

Lemma post2006_fields (sf : Z) :
  ServiceData._iter_parameter_fields ResponseDataPost2006 sf
  = declared_uds_fields ResponseDataPost2006.
Proof.
  unfold ServiceData._iter_parameter_fields, declared_uds_fields.
  cbn [fields ResponseDataPost2006 declared subfunction_field
       omap list_omap ServiceData.as_uds_field].
  rewrite !supports_every_subfunction by reflexivity. reflexivity.
Qed.

Lemma pre2006_fields (sf : Z) :
  ServiceData._iter_parameter_fields ResponseDataPre2006 sf
  = declared_uds_fields ResponseDataPre2006.
Proof.
  unfold ServiceData._iter_parameter_fields, declared_uds_fields.
  cbn [fields ResponseDataPre2006 declared subfunction_field
       omap list_omap ServiceData.as_uds_field].
  rewrite !supports_every_subfunction by reflexivity. reflexivity.
Qed.

Lemma post2006_unpack (sf : Z) (data : bytes) :
  ServiceData.unpack ResponseDataPost2006 (Some data) sf
  = if bool_decide (data = []) then Raise ValueError
    else
      args ← struct_unpack ">HH" data;
      kwargs ← ServiceData.scaled_kwargs
                 ["p2_server_max"; "p2_star_server_max"]%string args
                 [VFloat (decimal 1 1000); VFloat (decimal 1 100)];
      new_instance ResponseDataPost2006 sf kwargs.
Proof.
  unfold ServiceData.unpack, ServiceData.get_parameter_names,
    ServiceData._iter_parameter_names, ServiceData._iter_payload_fmt,
    ServiceData.joined_fmt, ServiceData.get_parameter_resolutions.
  cbn zeta. rewrite post2006_fields.
  destruct data as [|b data]; reflexivity.
Qed.

Lemma pre2006_unpack (sf : Z) (data : bytes) :
  ServiceData.unpack ResponseDataPre2006 (Some data) sf
  = if bool_decide (data = []) then Raise ValueError
    else
      args ← struct_unpack ">2s" data;
      kwargs ← ServiceData.scaled_kwargs
                 ["session_param_records"]%string args [VInt 1];
      new_instance ResponseDataPre2006 sf kwargs.
Proof.
  unfold ServiceData.unpack, ServiceData.get_parameter_names,
    ServiceData._iter_parameter_names, ServiceData._iter_payload_fmt,
    ServiceData.joined_fmt, ServiceData.get_parameter_resolutions.
  cbn zeta. rewrite pre2006_fields.
  destruct data as [|b data]; reflexivity.
Qed.

Lemma struct_unpack_wrong_length (fmt : string) (size : Z) (data : bytes) :
  struct_calcsize fmt = Ok size → Z.of_nat (length data) ≠ size →
  struct_unpack fmt data = Raise StructError.
Proof.
  unfold struct_calcsize, struct_unpack.
  destruct (struct_compile fmt) as [items|e]; [|done]. cbn.
  intros [= <-] Hlen. by rewrite bool_decide_eq_false_2.
Qed.

(** X16.  [DiagnosticSessionControl.interpret_response] for a version of
    the standard after 2006.  Without data it gives the record of defaults.
    With data, the first byte is the subfunction and exactly four more bytes
    must follow: two big-endian 16-bit numbers, decoded as the timings
    [p2_server_max] in units of 0.001 and [p2_star_server_max] in units of
    0.01.  Empty data is an [IndexError], the subfunction byte alone the
    [ValueError] of missing data, any other length a [struct.error]. *)
Theorem diagnostic_session_control_interprets_timings
    (rc : ResponseCode) (standard_version : StandardVersion)
    (data : option bytes) :
  standard_version ≠ UDS_2006 →
  let outcome :=
    DiagnosticSessionControlService.interpret_response
      rc data standard_version in
  match data with
  | None => outcome = Ok (default_record ResponseDataPost2006)
  | Some [] => outcome = Raise IndexError
  | Some [_] => outcome = Raise ValueError
  | Some [session; a; b; c; d] =>
      ∃ response,
        outcome = Ok response
        ∧ type_of response = ResponseDataPost2006
        ∧ subfunction response = Z_of_byte session
        ∧ getattribute response "p2_server_max"
          = Ok (VFloat (timing a b (decimal 1 1000)))
        ∧ getattribute response "p2_star_server_max"
          = Ok (VFloat (timing c d (decimal 1 100)))
  | Some _ => outcome = Raise StructError
  end.
Proof.
  intros Hversion. cbn zeta.
  unfold DiagnosticSessionControlService.interpret_response,
    _interpret_response, DiagnosticSessionControlService.get_response_cls.
  rewrite decide_False by done. cbn zeta.
  change (BaseService.use_subfunction (DiagnosticSessionControl rc))
    with true.
  destruct data as [[|sf [|a [|b [|c [|d [|e rest]]]]]]|].
  - done.
  - by rewrite post2006_unpack.
  - rewrite post2006_unpack. cbn [bool_decide].
    rewrite bool_decide_eq_false_2 by done.
    by rewrite (struct_unpack_wrong_length _ 4).
  - rewrite post2006_unpack, bool_decide_eq_false_2 by done.
    by rewrite (struct_unpack_wrong_length _ 4).
  - rewrite post2006_unpack, bool_decide_eq_false_2 by done.
    by rewrite (struct_unpack_wrong_length _ 4).
  - rewrite post2006_unpack, bool_decide_eq_false_2 by done.
    change (struct_unpack ">HH" [a; b; c; d])
      with (Ok [VInt (from_bytes_big [a; b]); VInt (from_bytes_big [c; d])]).
    cbn [mbind result_bind ServiceData.scaled_kwargs py_mul py_index].
    rewrite !float_of_two_bytes. cbn [mbind result_bind].
    destruct (new_instance_attributes ResponseDataPost2006 (Z_of_byte sf)
                [("p2_server_max"%string,
                  VFloat (timing a b (decimal 1 1000)));
                 ("p2_star_server_max"%string,
                  VFloat (timing c d (decimal 1 100)))])
      as (response & Hnew & Htype & Hsub & Hset & _).
    + apply (bool_decide_eq_true_1 _ (Decision0 := NoDup_dec _)). reflexivity.
    + apply (bool_decide_eq_true_1 _ (Decision0 := NoDup_dec _)). reflexivity.
    + intros n Hn. cbn in Hn. cbn.
      rewrite !elem_of_cons in *. tauto.
    + exists response. split; [exact Hnew|]. split; [done|]. split; [done|].
      split; apply Hset; rewrite !elem_of_cons; tauto.
  - rewrite post2006_unpack, bool_decide_eq_false_2 by done.
    rewrite (struct_unpack_wrong_length _ 4); [done|done|].
    cbn [length]. lia.
  - apply new_instance_default.
Qed.

(** X16, witness: session 2 with the timings 50 and 500 under the 2013
    version. *)
Lemma diagnostic_session_control_interprets_timings_witness :
  ∃ response,
    DiagnosticSessionControlService.interpret_response
      iso14229 (Some [x02; x00; x32; x01; xf4]) UDS_2013 = Ok response
    ∧ type_of response = ResponseDataPost2006
    ∧ subfunction response = 2
    ∧ getattribute response "p2_server_max"
      = Ok (VFloat (timing x00 x32 (decimal 1 1000)))
    ∧ getattribute response "p2_star_server_max"
      = Ok (VFloat (timing x01 xf4 (decimal 1 100))).
Proof.
  apply (diagnostic_session_control_interprets_timings
           iso14229 UDS_2013 (Some [x02; x00; x32; x01; xf4])).
  discriminate.
Defined.

(** X17.  [DiagnosticSessionControl.interpret_response] for the 2006
    version of the standard.  Without data it gives the record of defaults.
    With data, the first byte is the subfunction and exactly two more bytes
    must follow, which become [session_param_records] as they are.  Empty
    data is an [IndexError], the subfunction byte alone the [ValueError] of
    missing data, any other length a [struct.error]. *)
Theorem diagnostic_session_control_interprets_records_of_2006
    (rc : ResponseCode) (data : option bytes) :
  let outcome :=
    DiagnosticSessionControlService.interpret_response rc data UDS_2006 in
  match data with
  | None => outcome = Ok (default_record ResponseDataPre2006)
  | Some [] => outcome = Raise IndexError
  | Some [_] => outcome = Raise ValueError
  | Some [session; a; b] =>
      ∃ response,
        outcome = Ok response
        ∧ type_of response = ResponseDataPre2006
        ∧ subfunction response = Z_of_byte session
        ∧ getattribute response "session_param_records"
          = Ok (VBytes [a; b])
  | Some _ => outcome = Raise StructError
  end.
Proof.
  cbn zeta.
  unfold DiagnosticSessionControlService.interpret_response,
    _interpret_response, DiagnosticSessionControlService.get_response_cls.
  rewrite decide_True by done. cbn zeta.
  change (BaseService.use_subfunction (DiagnosticSessionControl rc))
    with true.
  destruct data as [[|sf [|a [|b [|c rest]]]]|].
  - done.
  - by rewrite pre2006_unpack.
  - rewrite pre2006_unpack, bool_decide_eq_false_2 by done.
    by rewrite (struct_unpack_wrong_length _ 2).
  - rewrite pre2006_unpack, bool_decide_eq_false_2 by done.
    change (struct_unpack ">2s" [a; b]) with (Ok [VBytes [a; b]]).
    change (ServiceData.scaled_kwargs ["session_param_records"%string]
              [VBytes [a; b]] [VInt 1])
      with (Ok [("session_param_records"%string, VBytes [a; b])]).
    cbn [mbind result_bind].
    destruct (new_instance_attributes ResponseDataPre2006 (Z_of_byte sf)
                [("session_param_records"%string, VBytes [a; b])])
      as (response & Hnew & Htype & Hsub & Hset & _).
    + apply (bool_decide_eq_true_1 _ (Decision0 := NoDup_dec _)). reflexivity.
    + apply (bool_decide_eq_true_1 _ (Decision0 := NoDup_dec _)). reflexivity.
    + intros n Hn. cbn in Hn. cbn. rewrite !elem_of_cons in *. tauto.
    + exists response. split; [exact Hnew|]. split; [done|]. split; [done|].
      apply Hset. rewrite !elem_of_cons. tauto.
  - rewrite pre2006_unpack, bool_decide_eq_false_2 by done.
    rewrite (struct_unpack_wrong_length _ 2); [done|done|].
    cbn [length]. lia.
  - apply new_instance_default.
Qed.

(** * Records of integers with one bytes parameter of variable length *)

Lemma py_slice_prefix {A} (l1 l2 : list A) (stop : Z) :
  stop = Z.of_nat (length l1) → py_slice (l1 ++ l2) 0 stop = l1.
Proof.
  intros ->. unfold py_slice. cbn zeta. rewrite length_app.
  change (0 <? 0) with false.
  rewrite (proj2 (Z.ltb_ge (Z.of_nat (length l1)) 0)) by lia.
  replace (Z.min 0 _) with 0 by lia.
  replace (Z.min (Z.of_nat (length l1)) _) with (Z.of_nat (length l1)) by lia.
  rewrite Z.sub_0_r, Nat2Z.id. cbn [Z.to_nat drop]. apply take_app_length.
Qed.

Lemma py_slice_suffix {A} (l1 l2 : list A) (start stop : Z) :
  start = Z.of_nat (length l1) →
  Z.of_nat (length (l1 ++ l2)) ≤ stop →
  py_slice (l1 ++ l2) start stop = l2.
Proof.
  intros -> Hstop. unfold py_slice. cbn zeta. rewrite length_app in *.
  rewrite (proj2 (Z.ltb_ge (Z.of_nat (length l1)) 0)) by lia.
  rewrite (proj2 (Z.ltb_ge stop 0)) by lia.
  replace (Z.min (Z.of_nat (length l1)) _) with (Z.of_nat (length l1)) by lia.
  replace (Z.min stop _) with (Z.of_nat (length l1 + length l2)) by lia.
  rewrite Nat2Z.id, drop_app_length. apply take_ge. lia.
Qed.

Lemma items_size_app (l1 l2 : list Item) :
  items_size (l1 ++ l2) = items_size l1 + items_size l2.
Proof.
  induction l1 as [|it l1 IH]; [done|].
  cbn [app items_size foldr]. fold (items_size (l1 ++ l2)).
  fold (items_size l1). lia.
Qed.

Lemma remove_tokens_chars (s : string) : remove_tokens (char_tokens s) = s.
Proof. induction s as [|c s IH]; [done|]. cbn. by rewrite IH. Qed.

Lemma scaled_kwargs_app (n1 n2 : list string) (a1 a2 r1 r2 : list PyVal)
    (k1 : list (string * PyVal)) :
  length n1 = length a1 → length r1 = length a1 →
  ServiceData.scaled_kwargs n1 a1 r1 = Ok k1 →
  ServiceData.scaled_kwargs (n1 ++ n2) (a1 ++ a2) (r1 ++ r2)
  = k2 ← ServiceData.scaled_kwargs n2 a2 r2; Ok (k1 ++ k2).
Proof.
  revert a1 r1 k1.
  induction n1 as [|n n1 IH]; intros [|a a1] [|r r1] k1; try done.
  - intros _ _ [= <-]. cbn [app].
    by destruct (ServiceData.scaled_kwargs n2 a2 r2).
  - intros [= Hn] [= Hr]. cbn [app ServiceData.scaled_kwargs].
    destruct (py_mul a r) as [x|e]; [|done]. cbn [mbind result_bind].
    destruct (ServiceData.scaled_kwargs n1 a1 r1) as [k|e] eqn:Hk; [|done].
    cbn [mbind result_bind]. intros [= <-].
    rewrite (IH a1 r1 k Hn Hr Hk).
    by destruct (ServiceData.scaled_kwargs n2 a2 r2).
Qed.

Lemma attribute_of_zip (self : Instance) (fs : list UdsField.t)
    (vals : list PyVal) (n : string) :
  Forall2 (λ f v, getattribute self (UdsField.name f) = Ok v) fs vals →
  n ∈ UdsField.name <$> fs →
  ∃ v, (n, v) ∈ zip (UdsField.name <$> fs) vals
       ∧ getattribute self n = Ok v.
Proof.
  induction 1 as [|f v fs vals Hf _ IH].
  - intros Hn. by apply elem_of_nil in Hn.
  - rewrite fmap_cons. intros [->|Hn]%elem_of_cons.
    + exists v. split; [|done]. cbn. by left.
    + destruct (IH Hn) as (v' & Hin & Hv'). exists v'.
      split; [|done]. cbn. by right.
Qed.

Lemma holds_integer_single_token (self : Instance) (f : UdsField.t) :
  holds_integer self f = true → single_token (UdsField.fmt f) = true.
Proof.
  intros (c & size & signed & z & Hfmt & Hcode & _)%holds_integer_inv.
  unfold single_token. rewrite Hfmt. cbn [parse_codes].
  destruct (code_char c _ Hcode) as (-> & -> & _). cbn [andb].
  rewrite Hcode. done.
Qed.

(** X18.  Take a record with subfunction 0 whose parameters are integers,
    each declared as one integer code without scaling and within the range
    of its code, except for one bytes parameter of variable length, declared
    as an integer code followed by the placeholder and [s], whose length is
    within the range of that code.  Then [pack] returns bytes, and [unpack]
    of these bytes returns a record of the same type with the same values of
    all the parameters. *)
Theorem unpack_inverts_pack_with_one_variable_length_parameter
    (self : Instance) (pre post : list UdsField.t) (v : UdsField.t)
    (c : ascii) (size : nat) (signed : bool) (payload : bytes) :
  subfunction self = NO_SUBFUNCTION →
  NoDup (field_name <$> fields (type_of self)) →
  ServiceData._iter_parameter_fields (type_of self) NO_SUBFUNCTION
  = pre ++ v :: post →
  Forall (λ f, holds_integer self f = true) (pre ++ post) →
  UdsField.fmt v = String c "{}s" →
  code_of_ascii c = Some (CInt size signed) →
  unscaled v = true →
  getattribute self (UdsField.name v) = Ok (VBytes payload) →
  in_int_range size signed (Z.of_nat (length payload)) = true →
  8 * Z.of_nat (length (pre ++ v :: post)) + Z.of_nat (length payload)
  ≤ PY_SSIZE_T_MAX →
  ∃ data other,
    ServiceData.pack self = Ok data
    ∧ ServiceData.unpack (type_of self) (Some data) NO_SUBFUNCTION = Ok other
    ∧ type_of other = type_of self
    ∧ subfunction other = NO_SUBFUNCTION
    ∧ (∀ n, n ∈ ServiceData.get_parameter_names
                  (type_of self) NO_SUBFUNCTION →
            getattribute other n = getattribute self n).
Proof.
  intros Hsf Hnodup Hfields Hints Hfmt Hcode Hunscaled Hget Hrange Hmax.
  assert (UdsField.resolution v = VInt 1 ∧ UdsField.scale_factor v = VInt 1)
    as [Hres Hscale].
  { unfold unscaled in Hunscaled.
    destruct (UdsField.resolution v); try done.
    destruct (UdsField.scale_factor v); try done.
    by apply andb_true_iff in Hunscaled as [->%Z.eqb_eq ->%Z.eqb_eq]. }
  assert (UdsField.name v ≠ "subfunction"%string) as Hnot_sub.
  { intros Heq. rewrite Heq in Hget. discriminate Hget. }
  assert (NoDup (UdsField.name <$> pre ++ v :: post)) as Hnames_nodup.
  { rewrite <- Hfields, iter_parameter_fields_declared.
    apply uds_field_names_NoDup. unfold fields in Hnodup.
    rewrite fmap_cons in Hnodup. by apply NoDup_cons in Hnodup as [_ ?]. }
  assert (UdsField.name v ∉ UdsField.name <$> pre ++ post) as Hname.
  { rewrite fmap_app, fmap_cons in Hnames_nodup.
    apply NoDup_app in Hnames_nodup as (_ & Hdisj & Hpost).
    apply NoDup_cons in Hpost as [Hv _].
    rewrite fmap_app, elem_of_app. intros [Hin|Hin]; [|done].
    apply (Hdisj _ Hin). by left. }
  assert (Forall (λ f, single_token (UdsField.fmt f) = true) (pre ++ post))
    as Hstatic.
  { eapply Forall_impl; [exact Hints|]. apply holds_integer_single_token. }
  apply Forall_app in Hints as [Hpre Hpost].
  destruct (integer_fields_codec self pre Hpre)
    as (IA & ap & p & HparseA & HcharsA & HvalsA & HattrA & HnA & HpackA
        & HunpackA & HlenA & HsizeA & HkwA).
  destruct (integer_fields_codec self post Hpost)
    as (IB & aq & q & HparseB & HcharsB & HvalsB & HattrB & HnB & HpackB
        & HunpackB & HlenB & HsizeB & HkwB).
  pose proof (Forall2_length _ _ _ HattrA) as HlenAp.
  pose proof (Forall2_length _ _ _ HattrB) as HlenAq.
  destruct (code_char c _ Hcode) as (Hdigit & Hspace & Hchar).
  pose proof (code_int_size c size signed Hcode) as Hsz.
  set (n := Z.of_nat (length payload)) in *.
  destruct (pack_int_inverse size signed n) as [Hpn Hun]; [lia|done|].
  rewrite length_app in Hmax. cbn [length] in Hmax.
  pose proof (one_variadic_chunks self pre post v c size signed
                Hfields Hstatic Hfmt Hcode) as Hchunks.
  pose proof (one_variadic_format self pre post v c size signed
                Hfields Hstatic Hfmt Hcode n) as Hformat.
  pose proof (one_variadic_indexes self pre post v c size signed
                Hsf Hfields Hstatic Hfmt Hcode Hscale Hname Hnot_sub) as Hidx.
  pose proof (one_variadic_values self pre post v
                Hsf Hfields Hscale Hname Hnot_sub payload) as Hvalues.
  rewrite (with_attr_same self _ _ Hnot_sub Hget) in Hvalues.
  rewrite HvalsA, HvalsB in Hvalues. cbn [mbind result_bind] in Hvalues.
  destruct (one_variadic_chars pre post c size signed Hstatic Hcode)
    as [HcA HcB].
  set (itC := {| it_code := CInt size signed; it_count := 1 |}).
  set (itS := {| it_code := CString; it_count := n |}).
  assert (item_slots itC = [SOne (CInt size signed)]) as HslotsC by done.
  assert (item_slots itS = [SBytes n]) as HslotsS by done.
  (* the first chunk *)
  assert (parse_codes (static_fmt pre +:+ String c "") None
          = Ok (IA ++ [itC])) as Hparse1.
  { rewrite (parse_codes_app _ _ _ _ HparseA). cbn [parse_codes].
    rewrite Hdigit, Hspace, Hcode. done. }
  assert (struct_compile (">" +:+ static_fmt pre +:+ String c "")
          = Ok (IA ++ [itC])) as Hcompile1.
  { rewrite struct_compile_body by done. rewrite Hparse1.
    cbn [mbind result_bind]. rewrite items_size_app.
    rewrite (proj2 (Z.ltb_ge _ _)); [done|].
    cbn [items_size foldr]. unfold item_size. cbn. lia. }
  (* the second chunk, with the length filled in *)
  assert (parse_codes (str_of_int n +:+ String "s" (static_fmt post)) None
          = Ok (itS :: IB)) as Hparse2.
  { rewrite parse_codes_count by lia.
    change (parse_codes (String "s" (static_fmt post)) (Some n))
      with (items ← parse_codes (static_fmt post) None;
            Ok ({| it_code := CString; it_count := n |} :: items)).
    by rewrite HparseB. }
  assert (struct_compile (">" +:+ str_of_int n +:+ String "s" (static_fmt post))
          = Ok (itS :: IB)) as Hcompile2.
  { rewrite struct_compile_body.
    2: { rewrite string_forall_app, HcB. by rewrite str_of_int_chars by lia. }
    rewrite Hparse2. cbn [mbind result_bind].
    rewrite (proj2 (Z.ltb_ge _ _)); [done|].
    cbn [items_size foldr]. fold (items_size IB). unfold item_size. cbn. lia. }
  (* the whole format, with the length filled in *)
  assert (struct_compile (">" +:+ (static_fmt pre +:+ String c "")
                              +:+ str_of_int n
                              +:+ String "s" (static_fmt post))
          = Ok (IA ++ itC :: itS :: IB)) as Hcompile.
  { rewrite struct_compile_body.
    2: { rewrite string_forall_app, HcA, string_forall_app, HcB.
         by rewrite str_of_int_chars by lia. }
    rewrite (parse_codes_app _ _ _ _ Hparse1), Hparse2.
    cbn [mbind result_bind]. rewrite <- app_assoc. cbn [app].
    rewrite (proj2 (Z.ltb_ge _ _)); [done|].
    rewrite items_size_app. cbn [items_size foldr]. fold (items_size IB).
    unfold item_size. cbn. lia. }
  set (x := to_bytes_big size n) in *.
  assert (length x = size) as Hlenx by apply length_to_bytes_big.
  (* pack *)
  assert (ServiceData.pack self = Ok ((p ++ x) ++ payload ++ q)) as Hpack.
  { rewrite pack_eq. cbn zeta. rewrite Hsf, Hchunks.
    rewrite Hvalues. cbn [mbind result_bind]. rewrite Hidx.
    unfold ServiceData.lengths_at. cbn [fmap list_fmap sequence].
    rewrite lookup_app_r by lia. rewrite <- HlenAp, Nat.sub_diag.
    cbn [lookup list_lookup py_len mbind result_bind fmap list_fmap].
    fold n. rewrite Hformat. cbn [mbind result_bind].
    unfold ServiceData.insert_lengths. cbn [zip zip_with foldl].
    unfold py_list_insert. rewrite HlenAp.
    rewrite take_app_length, drop_app_length.
    unfold struct_pack. rewrite Hcompile. cbn [mbind result_bind].
    rewrite bind_app, !bind_cons, HslotsC, HslotsS. cbn [app].
    rewrite bool_decide_eq_true_2.
    2: { rewrite slots_nargs_app, !slots_nargs_cons. cbn [slot_takes_arg].
         rewrite length_app. cbn [length]. lia. }
    rewrite pack_slots_app by lia. rewrite HpackA. cbn [mbind result_bind].
    cbn [pack_slots].
    change (pack_slot (SOne (CInt size signed)) (VInt n))
      with (pack_int size signed (VInt n)).
    rewrite Hpn. cbn [mbind result_bind]. unfold n at 1.
    rewrite pack_bytes_exact. cbn [mbind result_bind].
    rewrite HpackB. cbn [mbind result_bind]. by rewrite <- !app_assoc. }
  (* the sizes that [unpack] computes *)
  assert (ServiceData._get_fmt_size_pairs (type_of self)
          = Ok [(">" +:+ static_fmt pre +:+ String c "",
                 items_size IA + Z.of_nat size);
                (">{}s" +:+ static_fmt post, 1 + items_size IB)]) as Hpairs.
  { unfold ServiceData._get_fmt_size_pairs. rewrite Hchunks.
    cbn [fmap list_fmap sequence].
    assert (remove_placeholder (">" +:+ static_fmt pre +:+ String c "")
            = ">" +:+ static_fmt pre +:+ String c "") as ->.
    { unfold remove_placeholder. rewrite tokens_brace_free.
      - apply remove_tokens_chars.
      - apply format_char_brace_free.
        change (">" +:+ ?s) with (String ">" s). cbn [string_forall].
        by rewrite HcA. }
    assert (remove_placeholder (">{}s" +:+ static_fmt post)
            = ">" +:+ String "s" (static_fmt post)) as ->.
    { unfold remove_placeholder.
      change (">{}s" +:+ static_fmt post)
        with (String ">" ("{}" +:+ String "s" (static_fmt post))).
      rewrite tokens_cons_not_brace by done. rewrite tokens_placeholder.
      rewrite tokens_brace_free by by apply format_char_brace_free.
      cbn [remove_tokens]. by rewrite remove_tokens_chars. }
    unfold struct_calcsize. rewrite Hcompile1.
    assert (struct_compile (">" +:+ String "s" (static_fmt post))
            = Ok ({| it_code := CString; it_count := 1 |} :: IB)) as ->.
    { rewrite struct_compile_body by done.
      change (parse_codes (String "s" (static_fmt post)) None)
        with (items ← parse_codes (static_fmt post) None;
              Ok ({| it_code := CString; it_count := 1 |} :: items)).
      rewrite HparseB. cbn [mbind result_bind].
      rewrite (proj2 (Z.ltb_ge _ _)); [done|].
      cbn [items_size foldr]. fold (items_size IB). unfold item_size. cbn.
      lia. }
    cbn [fmap result_fmap mbind result_bind]. rewrite items_size_app.
    cbn [items_size foldr]. fold (items_size IB). unfold item_size.
    cbn [itC it_count it_code code_size]. do 3 f_equal; f_equal; lia. }
  (* what [struct.unpack] reads from the two chunks *)
  assert (struct_unpack (">" +:+ static_fmt pre +:+ String c "") (p ++ x)
          = Ok (ap ++ [VInt n])) as Hunpack1.
  { unfold struct_unpack. rewrite Hcompile1. cbn [mbind result_bind].
    rewrite bool_decide_eq_true_2.
    2: { rewrite length_app, Hlenx, Nat2Z.inj_add, items_size_app.
         cbn [items_size foldr]. unfold item_size. cbn. lia. }
    rewrite bind_app, HunpackA. cbn [mbind list_bind]. rewrite HslotsC.
    cbn [app unpack_slots slot_size code_size slot_takes_arg].
    rewrite Nat2Z.id, take_ge by lia. by rewrite Hun. }
  assert (struct_unpack (">" +:+ str_of_int n +:+ String "s" (static_fmt post))
                        (payload ++ q)
          = Ok (VBytes payload :: aq)) as Hunpack2.
  { unfold struct_unpack. rewrite Hcompile2. cbn [mbind result_bind].
    rewrite bool_decide_eq_true_2.
    2: { rewrite length_app, Nat2Z.inj_add. fold n.
         cbn [items_size foldr]. fold (items_size IB). unfold item_size.
         cbn. lia. }
    rewrite bind_cons, HslotsS.
    cbn [app unpack_slots slot_size slot_takes_arg unpack_slot].
    unfold n. rewrite Nat2Z.id, take_app_length, drop_app_length.
    specialize (HunpackB [] []). rewrite !app_nil_r in HunpackB.
    by rewrite HunpackB. }
  assert (str_format (">{}s" +:+ static_fmt post) [str_of_int n]
          = Ok (">" +:+ str_of_int n +:+ String "s" (static_fmt post)))
    as Hformat2.
  { unfold str_format.
    change (">{}s" +:+ static_fmt post)
      with (String ">" ("{}" +:+ String "s" (static_fmt post))).
    rewrite tokens_cons_not_brace by done. rewrite tokens_placeholder.
    rewrite tokens_brace_free by by apply format_char_brace_free.
    cbn [format_tokens]. change (is_brace ">") with false. cbn iota.
    rewrite <- (app_nil_r (char_tokens _)).
    rewrite format_tokens_chars by by apply format_char_brace_free.
    cbn [format_tokens mbind result_bind]. by rewrite append_nil_r. }
  (* the keywords *)
  assert (ServiceData.scaled_kwargs
            (UdsField.name <$> pre ++ v :: post)
            (ap ++ VBytes payload :: aq)
            (UdsField.resolution <$> pre ++ v :: post)
          = Ok (zip (UdsField.name <$> pre ++ v :: post)
                    (ap ++ VBytes payload :: aq))) as Hkw.
  { rewrite !fmap_app, !fmap_cons.
    rewrite (scaled_kwargs_app
               (UdsField.name <$> pre) _ ap _ (UdsField.resolution <$> pre) _ _
               ltac:(rewrite length_fmap; lia) ltac:(rewrite length_fmap; lia)
               HkwA).
    cbn [ServiceData.scaled_kwargs]. rewrite Hres.
    rewrite py_mul_one by done. cbn [mbind result_bind]. rewrite HkwB.
    cbn [mbind result_bind]. f_equal.
    rewrite zip_with_app by (rewrite length_fmap; lia). done. }
  assert (Forall2 (λ f val, getattribute self (UdsField.name f) = Ok val)
                  (pre ++ v :: post) (ap ++ VBytes payload :: aq)) as Hattr.
  { apply Forall2_app; [done|]. by constructor. }
  pose proof (Forall2_length _ _ _ Hattr) as Hlen_all.
  destruct (new_instance_attributes (type_of self) NO_SUBFUNCTION
              (zip (UdsField.name <$> pre ++ v :: post)
                   (ap ++ VBytes payload :: aq)))
    as (other & Hnew & Htype & Hsub & Hset & _).
  { done. }
  { by rewrite fst_zip by (rewrite length_fmap; lia). }
  { intros k. rewrite fst_zip by (rewrite length_fmap; lia).
    rewrite <- Hfields, iter_parameter_fields_declared.
    apply uds_field_names_declared. }
  exists ((p ++ x) ++ payload ++ q), other.
  split; [exact Hpack|]. split; [|split; [done|split; [done|]]].
  - unfold ServiceData.unpack. cbn zeta.
    unfold ServiceData.get_parameter_names, ServiceData._iter_parameter_names,
      ServiceData.get_parameter_resolutions.
    rewrite Hfields, Hchunks.
    rewrite bool_decide_eq_false_2 by (by destruct pre).
    assert (ServiceData.data_given (Some ((p ++ x) ++ payload ++ q)) = true)
      as ->.
    { destruct ((p ++ x) ++ payload ++ q) eqn:Hd; [|done].
      apply (f_equal length) in Hd. rewrite !length_app, Hlenx in Hd.
      cbn in Hd. lia. }
    cbn [negb default from_option id]. rewrite Hpairs.
    cbn [mbind result_bind ServiceData.unpack_chunks ServiceData.pop_last
         reverse rev_append].
    rewrite py_slice_prefix
      by (rewrite length_app, Hlenx, Nat2Z.inj_add; lia).
    rewrite Hunpack1. cbn [mbind result_bind app].
    unfold ServiceData.pop_last. rewrite reverse_snoc, reverse_involutive.
    rewrite Hformat2. cbn [mbind result_bind].
    rewrite py_slice_suffix.
    2: { rewrite length_app, Hlenx, Nat2Z.inj_add. lia. }
    2: { rewrite !length_app, Hlenx, !Nat2Z.inj_add. fold n. lia. }
    rewrite Hunpack2. cbn [mbind result_bind].
    rewrite Hkw. cbn [mbind result_bind]. exact Hnew.
  - intros k Hk.
    unfold ServiceData.get_parameter_names, ServiceData._iter_parameter_names
      in Hk.
    rewrite Hfields in Hk.
    destruct (attribute_of_zip self _ _ k Hattr Hk) as (val & Hin & Hval).
    by rewrite (Hset k val Hin).
Qed.

(** X18, witness: a record of [FrameServiceData] with three bytes of
    payload. *)
Lemma unpack_inverts_pack_with_one_variable_length_parameter_witness :
  ∃ data other,
    ServiceData.pack frame_record = Ok data
    ∧ ServiceData.unpack FrameServiceData (Some data) NO_SUBFUNCTION
      = Ok other
    ∧ type_of other = FrameServiceData
    ∧ subfunction other = NO_SUBFUNCTION
    ∧ (∀ n, n ∈ ServiceData.get_parameter_names
                  FrameServiceData NO_SUBFUNCTION →
            getattribute other n = getattribute frame_record n).
Proof.
  apply (unpack_inverts_pack_with_one_variable_length_parameter
           frame_record
           (take 1 (declared_uds_fields FrameServiceData))
           (drop 2 (declared_uds_fields FrameServiceData))
           (from_ok (uds_field "payload" (VBytes []) "B{}s" [] (VInt 1)))
           "B"%char 1%nat false [x0a; x0b; x0c]).
  - reflexivity.
  - apply (bool_decide_eq_true_1 _ (Decision0 := NoDup_dec _)). reflexivity.
  - reflexivity.
  - repeat constructor.
  - reflexivity.
  - reflexivity.
  - reflexivity.
  - reflexivity.
  - reflexivity.
  - vm_compute. discriminate.
Defined.

(** * Responses of a service without response parameters *)

(** X19.  A service that keeps the response class of [BaseService], which
    has no parameters, interprets a response as follows.  Without data, and
    with the subfunction byte alone when the service uses one, it gives the
    record of defaults, whose subfunction is 0 whatever byte came.  Any byte
    beyond that is the [ValueError] of unexpected data.  Empty data is an
    [IndexError] when the service uses a subfunction byte, and the record of
    defaults when it does not. *)
Theorem interpret_response_without_response_parameters
    (cls : BaseService.t) (standard_version : StandardVersion)
    (data : option bytes) :
  _interpret_response cls get_response_cls data standard_version
  = match data with
    | None => Ok (default_record EmptyServiceData)
    | Some [] =>
        if BaseService.use_subfunction cls then Raise IndexError
        else Ok (default_record EmptyServiceData)
    | Some [_] =>
        if BaseService.use_subfunction cls
        then Ok (default_record EmptyServiceData)
        else Raise ValueError
    | Some _ => Raise ValueError
    end.
Proof.
  unfold _interpret_response, get_response_cls. cbn zeta.
  destruct data as [[|b [|b' rest]]|];
    destruct (BaseService.use_subfunction cls); reflexivity.
Qed.

(** * The order in which names of subfunctions are tried *)

Lemma StronglySorted_filter {A} (R : relation A) (P : A → Prop)
    `{∀ x, Decision (P x)} (l : list A) :
  StronglySorted R l → StronglySorted R (filter P l).
Proof.
  induction 1 as [|x l _ IH Hx]; [constructor|].
  rewrite filter_cons. case_decide; [|done]. constructor; [done|].
  apply Forall_forall. intros y [_ Hy]%list_elem_of_filter.
  rewrite Forall_forall in Hx. by apply Hx.
Qed.

Lemma subfn_list_sorted (cls : PyClass) :
  StronglySorted name_order (BaseSubfunction.subfn_list cls).
Proof.
  unfold BaseSubfunction.subfn_list, BaseSubfunction.getmembers.
  do 2 apply StronglySorted_filter.
  apply (StronglySorted_merge_sort name_order); apply _.
Qed.

Lemma elem_of_subfn_list (cls : PyClass) (name : string) (value : Member) :
  (name, value) ∈ BaseSubfunction.subfn_list cls
  ↔ public_attribute cls name value.
Proof.
  unfold BaseSubfunction.subfn_list, BaseSubfunction.getmembers,
    public_attribute.
  rewrite !list_elem_of_filter. cbn [fst snd].
  rewrite (merge_sort_Permutation _ (class_attributes cls)).
  rewrite !negb_true_iff. tauto.
Qed.

Lemma first_occurrence (l : list (string * Member)) (subfn_id : Z)
    (name' : string) :
  Forall (λ a, ∃ z, a.2 = MValue (VInt z)) l →
  (name', MValue (VInt subfn_id)) ∈ l →
  ∃ pre name rest,
    l = pre ++ (name, MValue (VInt subfn_id)) :: rest
    ∧ Forall (λ a, ∃ z, a.2 = MValue (VInt z) ∧ z ≠ subfn_id) pre.
Proof.
  induction 1 as [|[n m] l (z & Hz) _ IH]; [by intros ?%elem_of_nil|].
  cbn in Hz. subst m. destruct (decide (z = subfn_id)) as [->|Hne].
  - intros _. by exists [], n, l.
  - intros [[= _ ?]|Hin]%elem_of_cons; [done|].
    destruct (IH Hin) as (pre & name & rest & -> & Hpre).
    exists ((n, MValue (VInt z)) :: pre), name, rest. split; [done|].
    constructor; [|done]. by exists z.
Qed.

(** X20.  For a subfunction class whose public attributes are all integers:
    when an attribute holds the identifier, [get_name] answers the name of
    such an attribute, and among several the first in the order of the
    names, whatever the order of declaration; when none does, it answers
    "Custom " followed by the display name of the class. *)
Theorem get_name_takes_the_first_name_in_order
    (cls : PyClass) (subfn_id : Z) :
  (∀ n m, public_attribute cls n m → ∃ z, m = MValue (VInt z)) →
  (∀ name',
     public_attribute cls name' (MValue (VInt subfn_id)) →
     ∃ name,
       BaseSubfunction.get_name cls subfn_id = Ok name
       ∧ public_attribute cls name (MValue (VInt subfn_id))
       ∧ ∀ other,
           public_attribute cls other (MValue (VInt subfn_id)) →
           String.le name other)
  ∧ ((∀ n, ¬ public_attribute cls n (MValue (VInt subfn_id))) →
     BaseSubfunction.get_name cls subfn_id
     = name ← BaseSubfunction.display_name cls; Ok ("Custom " +:+ name)).
Proof.
  intros Hints.
  assert (Forall (λ a, ∃ z, a.2 = MValue (VInt z))
                 (BaseSubfunction.subfn_list cls)) as Hall.
  { apply Forall_forall. intros [n m] Hin%elem_of_subfn_list.
    by apply (Hints n). }
  split.
  - intros name' Hin%elem_of_subfn_list.
    destruct (first_occurrence _ _ _ Hall Hin)
      as (pre & name & rest & Hlist & Hpre).
    exists name. split; [|split].
    + unfold BaseSubfunction.get_name.
      rewrite Hlist, first_match_skips_other_integers by done.
      cbn [BaseSubfunction.first_match snd fst py_index].
      by rewrite Z.eqb_refl.
    + apply elem_of_subfn_list. rewrite Hlist, elem_of_app, elem_of_cons.
      tauto.
    + intros other Hother%elem_of_subfn_list.
      pose proof (subfn_list_sorted cls) as Hsorted.
      rewrite Hlist in Hsorted, Hother.
      apply elem_of_app in Hother as [Hother|Hother].
      * rewrite Forall_forall in Hpre.
        destruct (Hpre _ Hother) as (z & [= <-] & Hz). done.
      * apply StronglySorted_app_1_r in Hsorted.
        apply elem_of_cons in Hother as [[= <-]|Hother]; [done|].
        apply StronglySorted_inv in Hsorted as [_ Hrest].
        rewrite Forall_forall in Hrest. apply (Hrest _ Hother).
  - intros Hnone. unfold BaseSubfunction.get_name.
    assert (Forall (λ a, ∃ z, a.2 = MValue (VInt z) ∧ z ≠ subfn_id)
                   (BaseSubfunction.subfn_list cls)) as Hother.
    { apply Forall_forall. intros [n m] Hin.
      pose proof Hin as Hpub%elem_of_subfn_list.
      destruct (Hints n m Hpub) as [z ->]. exists z. split; [done|].
      intros ->. by apply (Hnone n). }
    rewrite <- (app_nil_r (BaseSubfunction.subfn_list cls)).
    by rewrite first_match_skips_other_integers.
Qed.

Lemma aliased_public_attributes (n : string) (m : Member) :
  public_attribute AliasedSubfunction n m → ∃ z, m = MValue (VInt z).
Proof.
  intros (Hin & Hroutine & _). cbn in Hin.
  rewrite !elem_of_cons, elem_of_nil in Hin.
  destruct Hin as [[= -> ->]|[[= -> ->]|[[= -> ->]|[[= -> ->]|[]]]]];
    by eauto.
Qed.

(** X20, witness: of the two names of the identifier 2, [get_name] answers
    [bootSession], which is declared after [programmingSession]. *)
Lemma get_name_takes_the_first_name_in_order_witness :
  ∃ name,
    BaseSubfunction.get_name AliasedSubfunction 2 = Ok name
    ∧ public_attribute AliasedSubfunction name (MValue (VInt 2))
    ∧ ∀ other,
        public_attribute AliasedSubfunction other (MValue (VInt 2)) →
        String.le name other.
Proof.
  apply (proj1 (get_name_takes_the_first_name_in_order
                  AliasedSubfunction 2 aliased_public_attributes)
               "programmingSession"%string).
  split; [|split; reflexivity].
  cbn. rewrite !elem_of_cons. tauto.
Defined.

(** * What [unpack] returns *)

Lemma new_instance_inv (cls : DataClass) (sf : Z)
    (kwargs : list (string * PyVal)) (r : Instance) :
  new_instance cls sf kwargs = Ok r →
  type_of r = cls
  ∧ subfunction r = sf
  ∧ ∀ d, d ∈ declared cls → is_ok (getattribute r (field_name d)) = true.
Proof.
  unfold new_instance. case_match; [|done]. intros [= <-].
  cbn [type_of subfunction]. split; [done|]. split; [done|].
  intros d Hd. unfold getattribute. cbn [attrs]. case_bool_decide; [done|].
  assert (is_Some ((list_to_map (reverse ((λ f, (field_name f, field_default f))
                                            <$> declared cls))
                    : gmap string PyVal) !! field_name d)) as [x Hx].
  { apply not_eq_None_Some. intros Hnot%not_elem_of_list_to_map.
    apply Hnot. rewrite fmap_reverse, elem_of_reverse.
    rewrite <- list_fmap_compose. apply list_elem_of_fmap. by exists d. }
  destruct ((list_to_map (reverse kwargs) : gmap string PyVal)
              !! field_name d) as [y|] eqn:Hy.
  - by erewrite lookup_union_Some_l.
  - by rewrite lookup_union_r, Hx.
Qed.

(** X21.  A record that [unpack] returns has the record type it was asked
    for and a value for every declared field.  Its subfunction is the one
    asked for when parameters apply to it; when none applies it is 0,
    whatever was asked for. *)
Theorem unpack_returns_a_complete_record
    (cls : DataClass) (data : option bytes) (sf : Z) (r : Instance) :
  ServiceData.unpack cls data sf = Ok r →
  type_of r = cls
  ∧ subfunction r
    = (if bool_decide (ServiceData.get_parameter_names cls sf = [])
       then NO_SUBFUNCTION else sf)
  ∧ ∀ d, d ∈ declared cls → is_ok (getattribute r (field_name d)) = true.
Proof.
  unfold ServiceData.unpack. cbn zeta.
  case_bool_decide as Hnames.
  - destruct (ServiceData.data_given data); [done|].
    apply new_instance_inv.
  - destruct (negb (ServiceData.data_given data)); [done|].
    destruct (ServiceData._iter_payload_fmt cls sf) as [|fmt [|fmt2 rest]].
    + destruct (ServiceData._get_fmt_size_pairs cls) as [pairs|e]; [|done].
      cbn [mbind result_bind].
      destruct (ServiceData.unpack_chunks _ _ _ _ _) as [args|e]; [|done].
      cbn [mbind result_bind].
      destruct (ServiceData.scaled_kwargs _ _ _) as [kwargs|e]; [|done].
      apply new_instance_inv.
    + destruct (struct_unpack _ _) as [args|e]; [|done].
      cbn [mbind result_bind].
      destruct (ServiceData.scaled_kwargs _ _ _) as [kwargs|e]; [|done].
      apply new_instance_inv.
    + destruct (ServiceData._get_fmt_size_pairs cls) as [pairs|e]; [|done].
      cbn [mbind result_bind].
      destruct (ServiceData.unpack_chunks _ _ _ _ _) as [args|e]; [|done].
      cbn [mbind result_bind].
      destruct (ServiceData.scaled_kwargs _ _ _) as [kwargs|e]; [|done].
      apply new_instance_inv.
Qed.

(** X21, witness: one byte unpacked for [ByteLengthServiceData], as the
    length of an empty payload, with the subfunction 3. *)
Lemma unpack_returns_a_complete_record_witness :
  ∃ r,
    ServiceData.unpack ByteLengthServiceData (Some [x00]) 3 = Ok r
    ∧ type_of r = ByteLengthServiceData
    ∧ subfunction r = 3
    ∧ ∀ d, d ∈ declared ByteLengthServiceData →
           is_ok (getattribute r (field_name d)) = true.
Proof.
  eexists. split; [vm_compute; reflexivity|].
  eapply (unpack_returns_a_complete_record
            ByteLengthServiceData (Some [x00]) 3).
  vm_compute. reflexivity.
Defined.

(** * Integers out of range *)

Lemma pack_int_range (size : nat) (signed : bool) (z : Z) :
  pack_int size signed (VInt z)
  = if in_int_range size signed z then Ok (to_bytes_big size z)
    else Raise StructError.
Proof. unfold pack_int, in_int_range. cbn. by destruct signed. Qed.

Lemma holds_int_inv (self : Instance) (f : UdsField.t) :
  holds_int self f = true →
  ∃ c size signed z,
    UdsField.fmt f = String c EmptyString
    ∧ code_of_ascii c = Some (CInt size signed)
    ∧ UdsField.scale_factor f = VInt 1
    ∧ getattribute self (UdsField.name f) = Ok (VInt z)
    ∧ holds_integer self f = in_int_range size signed z.
Proof.
  unfold holds_int, holds_integer, integer_code.
  destruct (UdsField.fmt f) as [|c [|c' rest]]; try discriminate.
  destruct (code_of_ascii c) as [[| | |size signed| | |]|] eqn:Hcode;
    try discriminate.
  destruct (getattribute self (UdsField.name f)) as [[z| | | |]|];
    try discriminate.
  intros Hunscaled. rewrite Hunscaled. exists c, size, signed, z.
  repeat split; [done|].
  unfold unscaled in Hunscaled.
  destruct (UdsField.resolution f) as [r| | | |]; try discriminate.
  destruct (UdsField.scale_factor f) as [s| | | |]; try discriminate.
  by apply andb_true_iff in Hunscaled as [_ ->%Z.eqb_eq].
Qed.

Lemma int_fields_pack (self : Instance) (fs : list UdsField.t) :
  Forall (λ f, holds_int self f = true) fs →
  ∃ items vals,
    parse_codes (static_fmt fs) None = Ok items
    ∧ string_forall format_char (static_fmt fs) = true
    ∧ sequence (field_value self <$> fs) = Ok vals
    ∧ length vals = length fs
    ∧ slots_nargs (items ≫= item_slots) = length fs
    ∧ 0 ≤ items_size items ≤ 8 * Z.of_nat (length fs)
    ∧ if forallb (holds_integer self) fs
      then is_ok (pack_slots (items ≫= item_slots) vals) = true
      else pack_slots (items ≫= item_slots) vals = Raise StructError.
Proof.
  induction 1 as [|f fs Hf _ IH].
  { exists [], []. by repeat split. }
  destruct IH as (items & vals & Hparse & Hchars & Hvals & Hlen & Hnargs
                  & Hsize & Hpack).
  destruct (holds_int_inv self f Hf)
    as (c & size & signed & z & Hfmt & Hcode & Hscale & Hz & Hrange).
  destruct (code_char c _ Hcode) as (Hdigit & Hspace & Hchar).
  pose proof (code_int_size c size signed Hcode) as Hsz.
  assert (static_fmt (f :: fs) = String c (static_fmt fs)) as Hstatic.
  { unfold static_fmt. rewrite fmap_cons, concat_cons, Hfmt. done. }
  assert (field_value self f = Ok (VInt z)) as Hfv.
  { unfold field_value. rewrite Hz, Hscale.
    cbn [mbind result_bind py_mul py_index]. by rewrite Z.mul_1_r. }
  set (it := {| it_code := CInt size signed; it_count := 1 |}).
  assert (item_slots it = [SOne (CInt size signed)]) as Hslots by done.
  exists (it :: items), (VInt z :: vals). repeat split.
  - rewrite Hstatic. cbn [parse_codes]. rewrite Hdigit, Hspace, Hcode.
    cbn [andb]. rewrite Hparse. by destruct signed.
  - rewrite Hstatic. cbn [string_forall]. by rewrite Hchar, Hchars.
  - rewrite fmap_cons. cbn [sequence]. by rewrite Hfv, Hvals.
  - cbn [length]. by rewrite Hlen.
  - cbn [mbind list_bind]. rewrite Hslots. cbn [app].
    rewrite slots_nargs_cons. cbn [slot_takes_arg length]. by f_equal.
  - cbn [items_size foldr length]. unfold item_size at 1.
    cbn [it it_count it_code code_size]. fold (items_size items). lia.
  - cbn [items_size foldr length]. unfold item_size at 1.
    cbn [it it_count it_code code_size]. fold (items_size items). lia.
  - cbn [mbind list_bind]. rewrite Hslots. cbn [app pack_slots pack_slot].
    rewrite pack_int_range. cbn [forallb]. rewrite Hrange.
    destruct (in_int_range size signed z); [|done].
    cbn [andb mbind result_bind].
    destruct (forallb (holds_integer self) fs).
    + by destruct (pack_slots (items ≫= item_slots) vals).
    + by rewrite Hpack.
Qed.

(** X22.  For a record whose applicable parameters are all declared as one
    integer code without scaling and hold ints, [pack] checks the ranges:
    it returns bytes when every value is within the range of its code, and
    raises [struct.error] as soon as one is not. *)
Theorem pack_checks_the_range_of_integers (self : Instance) :
  Z.of_nat (length (ServiceData._iter_parameter_fields
                      (type_of self) (subfunction self))) < 2 ^ 60 →
  Forall (λ f, holds_int self f = true)
         (ServiceData._iter_parameter_fields
            (type_of self) (subfunction self)) →
  if forallb (holds_integer self)
             (ServiceData._iter_parameter_fields
                (type_of self) (subfunction self))
  then is_ok (ServiceData.pack self) = true
  else ServiceData.pack self = Raise StructError.
Proof.
  set (cls := type_of self). set (sf := subfunction self).
  set (fs := ServiceData._iter_parameter_fields cls sf).
  intros Hcount Hints.
  destruct (int_fields_pack self fs Hints)
    as (items & vals & Hparse & Hchars & Hvals & Hlen & Hnargs & Hsize
        & Hpack).
  assert (ServiceData._iter_payload_fmt cls sf = [">" +:+ static_fmt fs])
    as Hfmt.
  { unfold ServiceData._iter_payload_fmt, split_placeholder. cbn zeta.
    change (ServiceData.joined_fmt cls sf) with (static_fmt fs).
    rewrite tokens_brace_free by by apply format_char_brace_free.
    by rewrite split_tokens_chars_only. }
  assert (struct_compile (">" +:+ static_fmt fs) = Ok items) as Hcompile.
  { rewrite struct_compile_body by done. rewrite Hparse.
    cbn [mbind result_bind].
    rewrite (proj2 (Z.ltb_ge _ _)); [done|]. unfold PY_SSIZE_T_MAX. lia. }
  assert (ServiceData.pack self = pack_slots (items ≫= item_slots) vals)
    as ->.
  { rewrite pack_eq. cbn zeta. fold cls sf. rewrite Hfmt.
    unfold scaled_values. fold cls sf.
    rewrite parameter_values_fields. fold cls fs. rewrite Hvals.
    cbn [mbind result_bind]. unfold struct_pack. rewrite Hcompile.
    cbn [mbind result_bind]. by rewrite bool_decide_eq_true_2 by lia. }
  exact Hpack.
Qed.

(** X22, witness: 65536 does not fit the code [H] of the counter. *)
Lemma pack_checks_the_range_of_integers_witness :
  ServiceData.pack overflowing_record = Raise StructError.
Proof.
  apply (pack_checks_the_range_of_integers overflowing_record).
  - reflexivity.
  - repeat constructor.
Defined.
